(** * nodorum: user service, vote rows and request context

    A shallow embedding of the service layer of the nodorum backend
    ([UserService], the comment-vote entity and [RequestContext]) together
    with the properties its specification states about it.

    The relational store is reached through TypeORM repositories that the
    service receives by injection; here a repository is a type class, and
    the table with an auto-incremented primary key is its sequential
    instance.  Asynchronous calls are sequenced in program order. *)

From Stdlib Require Import ZArith List String Ascii Bool Lia.
Import ListNotations.
Local Open Scope string_scope.
Local Open Scope list_scope.
Local Open Scope Z_scope.

(** ** JavaScript values *)

Module Js.

(** Truthiness of an optional string: [undefined], [null] and the empty
    string are falsy. *)
Definition truthy (v : option string) : bool :=
  match v with
  | Some s => negb (String.eqb s EmptyString)
  | None => false
  end.

(** [x === null] on a nullable column. *)
Definition isNull {A : Type} (v : option A) : bool :=
  match v with
  | Some _ => false
  | None => true
  end.

(** Strict equality of two possibly undefined numbers. *)
Definition sameNumber (a b : option Z) : bool :=
  match a, b with
  | Some x, Some y => x =? y
  | None, None => true
  | _, _ => false
  end.

(** What a lookup hands back: [null], [undefined] or an object. *)
Inductive Nullable (A : Type) : Type :=
| Null
| Undefined
| Value (a : A).

Arguments Null {A}.
Arguments Undefined {A}.
Arguments Value {A} a.

End Js.

(** ** TypeORM repositories *)

Module TypeORM.

(** [DeleteResult.affected] is [number | null | undefined]. *)
Record DeleteResult : Type := { affected : option Z }.

(** An entity carries a generated primary key, undefined until the
    first [save]. *)
Class Entity (E : Type) : Type := {
  entityId : E -> option Z;
  withId : Z -> E -> E
}.

(** The part of [Repository<E>] the services call.  [T] is the state of
    the underlying table.  Reads leave the table as it is. *)
Class Repository (E T : Type) : Type := {
  findOne : (E -> bool) -> T -> option E;
  findOneById : Z -> T -> option E;
  save : E -> T -> E * T;
  delete : option Z -> T -> DeleteResult * T
}.

(** A table: its rows in insertion order and the next generated key. *)
Record Table (E : Type) : Type := { rows : list E; nextId : Z }.

Arguments rows {E} t.
Arguments nextId {E} t.

Definition empty {E : Type} : Table E := {| rows := []; nextId := 1 |}.

Section Sequential.

Context {E : Type} `{Entity E}.

Definition hasId (i : Z) (e : E) : bool :=
  Js.sameNumber (entityId e) (Some i).

(** [findOne(conditions)]: the first row that meets the conditions. *)
Definition tableFindOne (p : E -> bool) (t : Table E) : option E :=
  find p (rows t).

(** [findOne(id)]: the row under that key. *)
Definition tableFindOneById (i : Z) (t : Table E) : option E :=
  find (hasId i) (rows t).

(** [save]: an entity without key is inserted under a fresh key; an
    entity whose key is stored overwrites that row; an entity whose
    key is not stored is inserted under its own key. *)
Definition tableSave (e : E) (t : Table E) : E * Table E :=
  match entityId e with
  | None =>
      let e' := withId (nextId t) e in
      (e', {| rows := rows t ++ [e']; nextId := nextId t + 1 |})
  | Some i =>
      if existsb (hasId i) (rows t)
      then (e, {| rows := map (fun r => if hasId i r then e else r) (rows t);
                  nextId := nextId t |})
      else (e, {| rows := rows t ++ [e];
                  nextId := Z.max (nextId t) (i + 1) |})
  end.

(** [delete(id)]: removes the rows under that key and reports how many
    there were; an undefined key addresses no row. *)
Definition tableDelete (c : option Z) (t : Table E) : DeleteResult * Table E :=
  match c with
  | None => ({| affected := Some 0 |}, t)
  | Some i =>
      let kept := filter (fun r => negb (hasId i r)) (rows t) in
      ({| affected :=
            Some (Z.of_nat (List.length (rows t)) - Z.of_nat (List.length kept)) |},
       {| rows := kept; nextId := nextId t |})
  end.

#[global] Instance tableRepository : Repository E (Table E) := {
  findOne := tableFindOne;
  findOneById := tableFindOneById;
  save := tableSave;
  delete := tableDelete
}.

(** Every row has a key, and it is below [nextId]. *)
Definition keysBelow (t : Table E) : bool :=
  forallb (fun r => match entityId r with
                    | Some i => i <? nextId t
                    | None => false
                    end) (rows t).

End Sequential.

(** No two rows of [l] clash. *)
Fixpoint distinctBy {E : Type} (clash : E -> E -> bool) (l : list E) : bool :=
  match l with
  | [] => true
  | e :: l' => forallb (fun r => negb (clash e r)) l' && distinctBy clash l'
  end.

Definition sameKey {E : Type} `{Entity E} (a b : E) : bool :=
  Js.sameNumber (entityId a) (entityId b).

(** A table respects its primary key. *)
Definition primaryKey {E : Type} `{Entity E} (t : Table E) : bool :=
  keysBelow t && distinctBy sameKey (rows t).

End TypeORM.

(** ** Entities *)

Module UserEntity.

(** Modelled from the spec: the declaration of [UserEntity] (user.entity)
    is not among the sources; its columns are those the service reads and
    writes, as the data model lists them:
    [{id, username, email, displayName, profileImage, bio, passwordHash,
    deletedAt}].  Optional columns are nullable; [deletedAt] is the
    tombstone. *)
Record t : Type := {
  id : option Z;
  username : string;
  email : string;
  password : string;
  displayName : option string;
  profileImage : option string;
  bio : option string;
  deletedAt : option Z
}.

Definition withId (i : Z) (u : t) : t :=
  {| id := Some i; username := username u; email := email u;
     password := password u; displayName := displayName u;
     profileImage := profileImage u; bio := bio u; deletedAt := deletedAt u |}.

Definition withDisplayName (v : option string) (u : t) : t :=
  {| id := id u; username := username u; email := email u;
     password := password u; displayName := v;
     profileImage := profileImage u; bio := bio u; deletedAt := deletedAt u |}.

Definition withProfileImage (v : option string) (u : t) : t :=
  {| id := id u; username := username u; email := email u;
     password := password u; displayName := displayName u;
     profileImage := v; bio := bio u; deletedAt := deletedAt u |}.

Definition withBio (v : option string) (u : t) : t :=
  {| id := id u; username := username u; email := email u;
     password := password u; displayName := displayName u;
     profileImage := profileImage u; bio := v; deletedAt := deletedAt u |}.

Definition withUsername (v : string) (u : t) : t :=
  {| id := id u; username := v; email := email u;
     password := password u; displayName := displayName u;
     profileImage := profileImage u; bio := bio u; deletedAt := deletedAt u |}.

Definition withEmail (v : string) (u : t) : t :=
  {| id := id u; username := username u; email := v;
     password := password u; displayName := displayName u;
     profileImage := profileImage u; bio := bio u; deletedAt := deletedAt u |}.

Definition withDeletedAt (v : option Z) (u : t) : t :=
  {| id := id u; username := username u; email := email u;
     password := password u; displayName := displayName u;
     profileImage := profileImage u; bio := bio u; deletedAt := v |}.

#[global] Instance entity : TypeORM.Entity t :=
  {| TypeORM.entityId := id; TypeORM.withId := withId |}.

End UserEntity.

Module FollowerEntity.

(** Modelled from the spec: the declaration of [FollowerEntity]
    (follower.entity) is not among the sources; the data model gives the
    follow edge as [{followerId, userId}], and the service reads its [id]
    and writes [userId] (the followed user) and [followerId]. *)
Record t : Type := {
  id : option Z;
  userId : Z;
  followerId : Z
}.

Definition withId (i : Z) (f : t) : t :=
  {| id := Some i; userId := userId f; followerId := followerId f |}.

#[global] Instance entity : TypeORM.Entity t :=
  {| TypeORM.entityId := id; TypeORM.withId := withId |}.

End FollowerEntity.

(** ** Exceptions and actions *)

Module Nest.

(** The exceptions of [@nestjs/common] the service raises.  [Foreign] is
    an exception raised by a collaborator and passed on untouched. *)
Inductive HttpException : Type :=
| BadRequestException (message error : string)
| NotFoundException (message : string)
| UnauthorizedException (message : string)
| InternalServerErrorException (message : option string)
| Foreign (name : string).

(** An asynchronous method over a store [S]: it resolves with a value or
    rejects with an exception; the store it leaves behind is kept in both
    cases, since a write may precede the [throw]. *)
Definition Action (S A : Type) : Type := S -> (HttpException + A) * S.

Definition ret {S A : Type} (a : A) : Action S A :=
  fun s => (inr a, s).

Definition throw {S A : Type} (e : HttpException) : Action S A :=
  fun s => (inl e, s).

Definition bind {S A B : Type} (m : Action S A) (k : A -> Action S B) : Action S B :=
  fun s =>
    match m s with
    | (inl e, s') => (inl e, s')
    | (inr a, s') => k a s'
    end.

Definition outcome {S A : Type} (r : (HttpException + A) * S) : HttpException + A :=
  fst r.

Definition store {S A : Type} (r : (HttpException + A) * S) : S :=
  snd r.

End Nest.

Notation "x <- m ;; k" := (Nest.bind m (fun x => k))
  (at level 61, m at next level, right associativity).

(** ** The profile-image payload *)

Module Payload.

(** [\w] of a JavaScript regular expression: [A-Za-z0-9_]. *)
Definition isWord (c : ascii) : bool :=
  let n := Z.of_nat (nat_of_ascii c) in
  ((48 <=? n) && (n <=? 57)) || ((65 <=? n) && (n <=? 90))
  || (n =? 95) || ((97 <=? n) && (n <=? 122)).

(** The rest of [s] after the literal [p], when [s] starts with it. *)
Fixpoint after (p s : string) : option string :=
  match p with
  | EmptyString => Some s
  | String a p' =>
      match s with
      | String b s' => if Ascii.eqb a b then after p' s' else None
      | EmptyString => None
      end
  end.

(** The rest of [s] after its longest run of word characters. *)
Fixpoint skipWord (s : string) : string :=
  match s with
  | String c s' => if isWord c then skipWord s' else s
  | EmptyString => s
  end.

(** [profileImage.replace(/^body:image\/\w+;base64,/, '')].  The pattern
    is anchored at the start; [\w+] is greedy, and giving back characters
    cannot help, since the character after a shorter run is a word
    character and not [;]. *)
Definition stripPrefix (profileImage : string) : string :=
  match after "body:image/" profileImage with
  | Some (String c rest) =>
      if isWord c
      then match after ";base64," (skipWord rest) with
           | Some body => body
           | None => profileImage
           end
      else profileImage
  | _ => profileImage
  end.

End Payload.

(** ** The storage service *)

Module AwsS3.

(** The request [uploadProfileImage] hands to [awsS3Service.upload]. *)
Record PutObjectRequest (Buffer : Type) : Type := {
  Bucket : string;
  Key : string;
  Body : Buffer;
  ACL : string;
  ContentEncoding : string;
  ContentType : string
}.

Arguments Bucket {Buffer} p.
Arguments Key {Buffer} p.
Arguments Body {Buffer} p.
Arguments ACL {Buffer} p.
Arguments ContentEncoding {Buffer} p.
Arguments ContentType {Buffer} p.

(** What [upload] resolves with; the service reads [key]. *)
Record ManagedUpload : Type := { key : string }.

End AwsS3.

(** ** The follower query *)

Module QueryBuilder.

(** [createQueryBuilder('followers').leftJoinAndSelect('followers.userId',
    'user')] and the two ways [getFollowers] runs it.  A row of the result
    is a follower row with the user row its [userId] points to, when there
    is one.  [UT] and [FT] are the states of the two tables. *)
Class Joined (UT FT : Type) : Type := {
  getMany : UT -> FT -> list (FollowerEntity.t * option UserEntity.t);
  getCount : UT -> FT -> Z
}.

(** On tables: the left join keeps every follower row, once, and the
    count is the number of follower rows. *)
#[global] Instance tables
  : Joined (TypeORM.Table UserEntity.t) (TypeORM.Table FollowerEntity.t) := {
  getMany users followers :=
    map (fun f => (f, TypeORM.tableFindOneById (FollowerEntity.userId f) users))
        (TypeORM.rows followers);
  getCount users followers := Z.of_nat (List.length (TypeORM.rows followers))
}.

End QueryBuilder.

(** ** The user service *)

Module RegisterUserDto.

(** The properties [register] takes from its dto; the last three are
    optional. *)
Record t : Type := {
  username : string;
  email : string;
  password : string;
  displayName : option string;
  profileImage : option string;
  bio : option string
}.

End RegisterUserDto.

Module LoginUserDto.

(** The properties [login] takes from its dto. *)
Record t : Type := {
  username : string;
  password : string
}.

End LoginUserDto.

Module UpdateUserDto.

(** The properties [update] takes from its dto, all optional. *)
Record t : Type := {
  displayName : option string;
  profileImage : option string;
  bio : option string
}.

End UpdateUserDto.

Module UserService.

Import Nest.

Record UserBody : Type := { user : UserEntity.t }.

Record Message : Type := { message : string }.

(** The two tables behind [userRepository] and [followerRepository]. *)
Record Db (UT FT : Type) : Type := { users : UT; followers : FT }.

Arguments users {UT FT} d.
Arguments followers {UT FT} d.

Section Service.

Context {UT FT : Type}.
Context {userRepository : TypeORM.Repository UserEntity.t UT}.
Context {followerRepository : TypeORM.Repository FollowerEntity.t FT}.

(** The collaborators injected next to the repositories: [Buffer.from(_,
    'base64')], [awsS3Service.upload], [configService.get] and argon2's
    [hash]. *)
Variable Buffer : Type.
Variable AwsS3UploadOptions : Type.
Variable bufferFromBase64 : string -> Buffer.
Variable awsS3Service_upload :
  AwsS3.PutObjectRequest Buffer -> AwsS3UploadOptions ->
  HttpException + AwsS3.ManagedUpload.
Variable configService_get : string -> option string.
Variable hash : string -> string.

Definition userRepository_findOne (conditions : UserEntity.t -> bool)
  : Action (Db UT FT) (option UserEntity.t) :=
  fun db => (inr (TypeORM.findOne conditions (users db)), db).

Definition userRepository_findOneById (id : Z)
  : Action (Db UT FT) (option UserEntity.t) :=
  fun db => (inr (TypeORM.findOneById id (users db)), db).

Definition userRepository_save (u : UserEntity.t)
  : Action (Db UT FT) UserEntity.t :=
  fun db =>
    let (saved, t) := TypeORM.save u (users db) in
    (inr saved, {| users := t; followers := followers db |}).

Definition followerRepository_findOne (conditions : FollowerEntity.t -> bool)
  : Action (Db UT FT) (option FollowerEntity.t) :=
  fun db => (inr (TypeORM.findOne conditions (followers db)), db).

Definition followerRepository_save (f : FollowerEntity.t)
  : Action (Db UT FT) FollowerEntity.t :=
  fun db =>
    let (saved, t) := TypeORM.save f (followers db) in
    (inr saved, {| users := users db; followers := t |}).

Definition followerRepository_delete (id : option Z)
  : Action (Db UT FT) TypeORM.DeleteResult :=
  fun db =>
    let (res, t) := TypeORM.delete id (followers db) in
    (inr res, {| users := users db; followers := t |}).

(** [{ id, deletedAt: IsNull() }] *)
Definition whereId (id : Z) (u : UserEntity.t) : bool :=
  TypeORM.hasId id u && Js.isNull (UserEntity.deletedAt u).

(** [{ email, deletedAt: IsNull() }] *)
Definition whereEmail (email : string) (u : UserEntity.t) : bool :=
  String.eqb (UserEntity.email u) email && Js.isNull (UserEntity.deletedAt u).

(** [{ username, deletedAt: IsNull() }] *)
Definition whereUsername (username : string) (u : UserEntity.t) : bool :=
  String.eqb (UserEntity.username u) username && Js.isNull (UserEntity.deletedAt u).

(** [where('users.username = :username').orWhere('users.email = :email')] *)
Definition whereTaken (username email : string) (u : UserEntity.t) : bool :=
  String.eqb (UserEntity.username u) username || String.eqb (UserEntity.email u) email.

(** [{ userId: userToFollowId, followerId: userId }] *)
Definition whereEdge (userToFollowId userId : Z) (f : FollowerEntity.t) : bool :=
  (FollowerEntity.userId f =? userToFollowId) && (FollowerEntity.followerId f =? userId).

Definition uploadRequest (bucketName profileImage username : string)
  : AwsS3.PutObjectRequest Buffer :=
  {| AwsS3.Bucket := bucketName;
     AwsS3.Key := "pictures/user/" ++ username ++ ".png";
     AwsS3.Body := bufferFromBase64 (Payload.stripPrefix profileImage);
     AwsS3.ACL := "public-read";
     AwsS3.ContentEncoding := "base64";
     AwsS3.ContentType := "image/png" |}.

Definition uploadProfileImage (profileImage username : string)
  (opts : AwsS3UploadOptions) : Action (Db UT FT) string :=
  match configService_get "aws.s3BucketName" with
  | Some bucketName =>
      if String.eqb bucketName EmptyString
      then throw (InternalServerErrorException None)
      else match awsS3Service_upload
                   (uploadRequest bucketName profileImage username) opts with
           | inl e => throw e
           | inr res => ret (AwsS3.key res)
           end
  | None => throw (InternalServerErrorException None)
  end.

Definition newUserEntity (username email password : string) : UserEntity.t :=
  {| UserEntity.id := None; UserEntity.username := username;
     UserEntity.email := email; UserEntity.password := password;
     UserEntity.displayName := None; UserEntity.profileImage := None;
     UserEntity.bio := None; UserEntity.deletedAt := None |}.

Definition register (registerUserDto : RegisterUserDto.t)
  (opts : AwsS3UploadOptions) : Action (Db UT FT) UserBody :=
  let username := RegisterUserDto.username registerUserDto in
  let email := RegisterUserDto.email registerUserDto in
  let password := RegisterUserDto.password registerUserDto in
  let displayName := RegisterUserDto.displayName registerUserDto in
  let profileImage := RegisterUserDto.profileImage registerUserDto in
  let bio := RegisterUserDto.bio registerUserDto in
  user <- userRepository_findOne (whereTaken username email) ;;
  match user with
  | Some _ =>
      throw (BadRequestException "Email or Username is already taken"
                                 "Validation failed")
  | None =>
      let newUser := newUserEntity username email (hash password) in
      let newUser :=
        if Js.truthy displayName
        then UserEntity.withDisplayName displayName newUser else newUser in
      newUser <-
        match profileImage with
        | Some image =>
            if Js.truthy profileImage
            then key <- uploadProfileImage image username opts ;;
                 ret (UserEntity.withProfileImage (Some key) newUser)
            else ret newUser
        | None => ret newUser
        end ;;
      let newUser :=
        if Js.truthy bio then UserEntity.withBio bio newUser else newUser in
      savedUser <- userRepository_save newUser ;;
      ret {| user := savedUser |}
  end.

Definition findOne (id : Z) : Action (Db UT FT) UserBody :=
  user <- userRepository_findOne (whereId id) ;;
  match user with
  | None => throw (NotFoundException "User not found")
  | Some user => ret {| user := user |}
  end.

Definition findOneByEmail (email : string) : Action (Db UT FT) UserBody :=
  user <- userRepository_findOne (whereEmail email) ;;
  match user with
  | None => throw (NotFoundException "User not found")
  | Some user => ret {| user := user |}
  end.

Definition findOneByUsername (username : string) : Action (Db UT FT) UserBody :=
  user <- userRepository_findOne (whereUsername username) ;;
  match user with
  | None => throw (NotFoundException "User not found")
  | Some user => ret {| user := user |}
  end.

Definition update (id : Z) (dto : UpdateUserDto.t) : Action (Db UT FT) UserBody :=
  let displayName := UpdateUserDto.displayName dto in
  let profileImage := UpdateUserDto.profileImage dto in
  let bio := UpdateUserDto.bio dto in
  user <- userRepository_findOne (whereId id) ;;
  match user with
  | None => throw (NotFoundException "User not found")
  | Some user =>
      let user :=
        if Js.truthy displayName
        then UserEntity.withDisplayName displayName user else user in
      let user :=
        if Js.truthy profileImage
        then UserEntity.withProfileImage profileImage user else user in
      let user := if Js.truthy bio then UserEntity.withBio bio user else user in
      updatedUser <- userRepository_save user ;;
      ret {| user := updatedUser |}
  end.

(** [now] is the reading of [DateTime.local()]. *)
Definition delete (now : Z) (id : Z) : Action (Db UT FT) Message :=
  user <- userRepository_findOneById id ;;
  match user with
  | None => throw (NotFoundException "User not found")
  | Some user =>
      let user := UserEntity.withDeletedAt (Some now) user in
      let user := UserEntity.withDisplayName (Some "[DELETED]") user in
      let user := UserEntity.withUsername "[DELETED]" user in
      let user := UserEntity.withEmail "[DELETED]" user in
      let user :=
        UserEntity.withDisplayName
          (Some "pictures/blank-profile-picture-S4P3RS3CR3T") user in
      _ <- userRepository_save user ;;
      ret {| message := "User successfully removed" |}
  end.

Definition followAction (userId userToFollowId : Z) : Action (Db UT FT) Message :=
  user <- userRepository_findOne (whereId userId) ;;
  match user with
  | None => throw (NotFoundException "User not found")
  | Some _ =>
      userToFollow <- userRepository_findOne (whereId userToFollowId) ;;
      match userToFollow with
      | None =>
          throw (NotFoundException
                   "User who you are trying to follow does not exist")
      | Some _ =>
          isFollowing <- followerRepository_findOne (whereEdge userToFollowId userId) ;;
          match isFollowing with
          | Some isFollowing =>
              res <- followerRepository_delete (FollowerEntity.id isFollowing) ;;
              if negb (Js.sameNumber (TypeORM.affected res) (Some 1))
              then throw (InternalServerErrorException (Some "Database error"))
              else ret {| message := "User unfollowed" |}
          | None =>
              let follower :=
                {| FollowerEntity.id := None;
                   FollowerEntity.userId := userToFollowId;
                   FollowerEntity.followerId := userId |} in
              _ <- followerRepository_save follower ;;
              ret {| message := "User followed" |}
          end
      end
  end.

(** argon2's [verify(hash, plain)]. *)
Variable verify : string -> string -> bool.

(** The query is run twice, the second time with the password column
    selected; the two reads use the same conditions.  Reading the password
    of a second read that found nothing is a [TypeError]. *)
Definition login (loginUserDto : LoginUserDto.t) : Action (Db UT FT) UserBody :=
  let username := LoginUserDto.username loginUserDto in
  let password := LoginUserDto.password loginUserDto in
  user <- userRepository_findOne (whereUsername username) ;;
  match user with
  | None => throw (UnauthorizedException "Invalid credentials")
  | Some user =>
      userWithPassword <- userRepository_findOne (whereUsername username) ;;
      match userWithPassword with
      | None => throw (Foreign "TypeError")
      | Some userWithPassword =>
          if negb (verify (UserEntity.password userWithPassword) password)
          then throw (UnauthorizedException "Invalid credentials")
          else ret {| user := user |}
      end
  end.

Context {followerQuery : QueryBuilder.Joined UT FT}.

Record FollowersBody : Type := {
  followers_ : list (FollowerEntity.t * option UserEntity.t);
  followersCount : Z
}.

Definition getFollowers (userId : Z) : Action (Db UT FT) FollowersBody :=
  user <- userRepository_findOne (whereId userId) ;;
  match user with
  | None => throw (NotFoundException "User not found")
  | Some _ =>
      fun db =>
        let qb := (users db, followers db) in
        let followers := QueryBuilder.getMany (fst qb) (snd qb) in
        let followersCount := QueryBuilder.getCount (fst qb) (snd qb) in
        (inr {| followers_ := followers; followersCount := followersCount |}, db)
  end.

End Service.

End UserService.

(** ** The sequential store *)

Module Store.

(** Both repositories backed by tables. *)
Definition t : Type :=
  UserService.Db (TypeORM.Table UserEntity.t) (TypeORM.Table FollowerEntity.t).

Definition empty : t :=
  {| UserService.users := TypeORM.empty; UserService.followers := TypeORM.empty |}.

Definition userRows (db : t) : list UserEntity.t :=
  TypeORM.rows (UserService.users db).

Definition followerRows (db : t) : list FollowerEntity.t :=
  TypeORM.rows (UserService.followers db).

(** A row without tombstone. *)
Definition live (u : UserEntity.t) : bool :=
  Js.isNull (UserEntity.deletedAt u).

(** Two live rows that share a username or an email. *)
Definition sameIdentity (a b : UserEntity.t) : bool :=
  live a && live b
  && (String.eqb (UserEntity.username a) (UserEntity.username b)
      || String.eqb (UserEntity.email a) (UserEntity.email b)).

(** Two follow edges over the same ordered pair. *)
Definition sameEdge (a b : FollowerEntity.t) : bool :=
  (FollowerEntity.userId a =? FollowerEntity.userId b)
  && (FollowerEntity.followerId a =? FollowerEntity.followerId b).

(** The data-model invariants: primary keys, one edge per ordered pair,
    and live principals with pairwise distinct usernames and emails. *)
Definition consistent (db : t) : bool :=
  TypeORM.primaryKey (UserService.users db)
  && TypeORM.primaryKey (UserService.followers db)
  && TypeORM.distinctBy sameEdge (followerRows db)
  && TypeORM.distinctBy sameIdentity (userRows db).

(** Does the edge [(userToFollowId, userId)] exist? *)
Definition following (userToFollowId userId : Z) (db : t) : bool :=
  existsb (UserService.whereEdge userToFollowId userId) (followerRows db).

(** Does [id] resolve to a principal without tombstone? *)
Definition resolves (id : Z) (db : t) : bool :=
  existsb (UserService.whereId id) (userRows db).

Section Reachable.

Variable Buffer : Type.
Variable AwsS3UploadOptions : Type.
Variable bufferFromBase64 : string -> Buffer.
Variable awsS3Service_upload :
  AwsS3.PutObjectRequest Buffer -> AwsS3UploadOptions ->
  Nest.HttpException + AwsS3.ManagedUpload.
Variable configService_get : string -> option string.
Variable hash : string -> string.

(** The stores the service can leave behind, starting from empty tables
    and calling its writing methods one after the other. *)
Inductive reachable : t -> Prop :=
| reachable_empty : reachable empty
| reachable_register (dto : RegisterUserDto.t) (opts : AwsS3UploadOptions) (db : t) :
    reachable db ->
    reachable
      (Nest.store
         (UserService.register Buffer AwsS3UploadOptions bufferFromBase64
            awsS3Service_upload configService_get hash dto opts db))
| reachable_update (id : Z) (dto : UpdateUserDto.t) (db : t) :
    reachable db ->
    reachable (Nest.store (UserService.update id dto db))
| reachable_delete (now id : Z) (db : t) :
    reachable db ->
    reachable (Nest.store (UserService.delete now id db))
| reachable_followAction (userId userToFollowId : Z) (db : t) :
    reachable db ->
    reachable (Nest.store (UserService.followAction userId userToFollowId db)).

End Reachable.

End Store.

(** ** Comment votes *)

Module CommentVoteEntity.

(** The entity of the table [commentvotes].  The two many-to-one relations
    are held by the keys of the rows they point to; [id] comes from
    [ExtendedEntity]. *)
Record t : Type := {
  id : option Z;
  direction : Z;
  user : Z;
  comment : Z
}.

Definition withId (i : Z) (v : t) : t :=
  {| id := Some i; direction := direction v; user := user v; comment := comment v |}.

Definition withDirection (d : Z) (v : t) : t :=
  {| id := id v; direction := d; user := user v; comment := comment v |}.

#[global] Instance entity : TypeORM.Entity t :=
  {| TypeORM.entityId := id; TypeORM.withId := withId |}.

End CommentVoteEntity.

Module CommentVoteService.

Import Nest.

Section Service.

Context {VT : Type}.
Context {voteRepository : TypeORM.Repository CommentVoteEntity.t VT}.

(** [{ user, comment }] *)
Definition whereVote (userId commentId : Z) (v : CommentVoteEntity.t) : bool :=
  (CommentVoteEntity.user v =? userId) && (CommentVoteEntity.comment v =? commentId).

(** Modelled from the spec: the vote service is not among the sources
    (only the entity is).  The spec asks that it "enforce at-most-one row
    per (voter, target) and overwrite direction on repeat votes rather
    than accumulate": the voter's row for the target is looked up; a row
    that exists gets the new direction, otherwise a row is inserted. *)
Definition vote (userId commentId direction : Z)
  : Action VT CommentVoteEntity.t :=
  fun votes =>
    match TypeORM.findOne (whereVote userId commentId) votes with
    | Some existing =>
        let (saved, votes') :=
          TypeORM.save (CommentVoteEntity.withDirection direction existing) votes in
        (inr saved, votes')
    | None =>
        let (saved, votes') :=
          TypeORM.save {| CommentVoteEntity.id := None;
                          CommentVoteEntity.direction := direction;
                          CommentVoteEntity.user := userId;
                          CommentVoteEntity.comment := commentId |} votes in
        (inr saved, votes')
    end.

End Service.

(** The vote rows of one voter on one target. *)
Definition votesOf (userId commentId : Z)
  (votes : TypeORM.Table CommentVoteEntity.t) : list CommentVoteEntity.t :=
  filter (whereVote userId commentId) (TypeORM.rows votes).

Definition sameVote (a b : CommentVoteEntity.t) : bool :=
  (CommentVoteEntity.user a =? CommentVoteEntity.user b)
  && (CommentVoteEntity.comment a =? CommentVoteEntity.comment b).

(** Primary key, and one row per voter and target. *)
Definition consistent (votes : TypeORM.Table CommentVoteEntity.t) : bool :=
  TypeORM.primaryKey votes && TypeORM.distinctBy sameVote (TypeORM.rows votes).

(** The tables the service can produce, starting from an empty one. *)
Inductive reachable : TypeORM.Table CommentVoteEntity.t -> Prop :=
| reachable_empty : reachable TypeORM.empty
| reachable_vote (votes : TypeORM.Table CommentVoteEntity.t)
    (userId commentId direction : Z) :
    reachable votes ->
    reachable (store (vote userId commentId direction votes)).

End CommentVoteService.

(** ** Continuation-local storage and the request context *)

Module Cls.

(** The view of cls-hooked the lookups need: a namespace has an active
    context or none, and a context maps keys to values. *)
Record Namespace (V : Type) : Type := {
  active : option (list (string * V))
}.

Arguments active {V} n.

Fixpoint assoc {V : Type} (key : string) (l : list (string * V)) : option V :=
  match l with
  | [] => None
  | (k, v) :: l' => if String.eqb k key then Some v else assoc key l'
  end.

(** [cls.getNamespace(name)]: the namespace registered under [name]. *)
Definition getNamespace {V : Type} (name : string)
  (namespaces : list (string * Namespace V)) : option (Namespace V) :=
  assoc name namespaces.

(** [namespace.get(key)]: [undefined] without active context, else the
    context's property. *)
Definition get {V : Type} (key : string) (n : Namespace V) : Js.Nullable V :=
  match active n with
  | None => Js.Undefined
  | Some context =>
      match assoc key context with
      | Some v => Js.Value v
      | None => Js.Undefined
      end
  end.

End Cls.

Module RequestContext.

Section Lookups.

(** Express' [Request] and [Response] stay abstract; of a request only
    the [user] property is read.  [number] is the type of [Math.random()]. *)
Variable Request Response number : Type.
Variable request_user : Request -> option UserEntity.t.

Record t : Type := {
  id : number;
  request : Request;
  response : Response
}.

(** [RequestContext.name] *)
Definition name : string := "RequestContext".

(** The process-wide namespaces, and the static [nsid]. *)
Variable nsid : string.

Definition currentRequestContext (namespaces : list (string * Cls.Namespace t))
  : Js.Nullable t :=
  match Cls.getNamespace nsid namespaces with
  | Some session =>
      match Cls.active session with
      | Some _ => Cls.get name session
      | None => Js.Null
      end
  | None => Js.Null
  end.

Definition currentRequest (namespaces : list (string * Cls.Namespace t))
  : Js.Nullable Request :=
  match currentRequestContext namespaces with
  | Js.Value requestContext => Js.Value (request requestContext)
  | _ => Js.Null
  end.

(** The slot only ever holds instances of [RequestContext], so the
    [instanceof] test adds nothing to the truthiness test. *)
Definition currentUser (namespaces : list (string * Cls.Namespace t))
  : Js.Nullable UserEntity.t :=
  match currentRequestContext namespaces with
  | Js.Value requestContext =>
      match request_user (request requestContext) with
      | Some user => Js.Value user
      | None => Js.Null
      end
  | _ => Js.Null
  end.

(** A record is bound to the calling chain when the namespace exists and
    its active context holds one under [RequestContext.name]. *)
Definition bound (namespaces : list (string * Cls.Namespace t)) : bool :=
  match Cls.getNamespace nsid namespaces with
  | Some session =>
      match Cls.active session with
      | Some context => negb (Js.isNull (Cls.assoc name context))
      | None => false
      end
  | None => false
  end.

End Lookups.

End RequestContext.

(** ** Sample data *)

Module Scenario.

Definition alice : UserEntity.t :=
  {| UserEntity.id := Some 1; UserEntity.username := "alice";
     UserEntity.email := "a@x.com"; UserEntity.password := "$argon2$p1";
     UserEntity.displayName := Some "Alice";
     UserEntity.profileImage := Some "pictures/user/alice.png";
     UserEntity.bio := None; UserEntity.deletedAt := None |}.

Definition bob : UserEntity.t :=
  {| UserEntity.id := Some 2; UserEntity.username := "bob";
     UserEntity.email := "b@y.com"; UserEntity.password := "$argon2$p2";
     UserEntity.displayName := None; UserEntity.profileImage := None;
     UserEntity.bio := Some "hello"; UserEntity.deletedAt := None |}.

(** Two registered users and no follow edge. *)
Definition twoUsers : Store.t :=
  {| UserService.users := {| TypeORM.rows := [alice; bob]; TypeORM.nextId := 3 |};
     UserService.followers := TypeORM.empty |}.

(** A dto that sets a display name, with an empty bio. *)
Definition bobRenamed : UpdateUserDto.t :=
  {| UpdateUserDto.displayName := Some "Bob";
     UpdateUserDto.profileImage := None;
     UpdateUserDto.bio := Some EmptyString |}.

(** The edge [(1, 2)]: user 2 follows user 1. *)
Definition edge21 : FollowerEntity.t :=
  {| FollowerEntity.id := Some 1; FollowerEntity.userId := 1;
     FollowerEntity.followerId := 2 |}.

Definition following21 : Store.t :=
  {| UserService.users := {| TypeORM.rows := [alice; bob]; TypeORM.nextId := 3 |};
     UserService.followers := {| TypeORM.rows := [edge21]; TypeORM.nextId := 2 |} |}.

(** A follower repository that loses the race: the row it has read is
    gone by the time [delete] runs, so the statement touches no row. *)
Definition lateFollowers
  : TypeORM.Repository FollowerEntity.t (TypeORM.Table FollowerEntity.t) :=
  {| TypeORM.findOne := TypeORM.tableFindOne;
     TypeORM.findOneById := TypeORM.tableFindOneById;
     TypeORM.save := TypeORM.tableSave;
     TypeORM.delete := fun _ t => ({| TypeORM.affected := Some 0 |}, t) |}.

(** A principal registered under the sentinel username, a principal
    registered as bob that has been removed, and a later principal that
    took the username bob. *)
Definition ghost : UserEntity.t :=
  {| UserEntity.id := Some 1; UserEntity.username := "[DELETED]";
     UserEntity.email := "ghost@x.com"; UserEntity.password := "$argon2$p0";
     UserEntity.displayName := None; UserEntity.profileImage := None;
     UserEntity.bio := None; UserEntity.deletedAt := None |}.

Definition bobGone : UserEntity.t :=
  {| UserEntity.id := Some 2; UserEntity.username := "[DELETED]";
     UserEntity.email := "[DELETED]"; UserEntity.password := "$argon2$p2";
     UserEntity.displayName := Some "pictures/blank-profile-picture-S4P3RS3CR3T";
     UserEntity.profileImage := None;
     UserEntity.bio := None; UserEntity.deletedAt := Some 5 |}.

Definition bobAgain : UserEntity.t :=
  {| UserEntity.id := Some 3; UserEntity.username := "bob";
     UserEntity.email := "bob@z.com"; UserEntity.password := "$argon2$p3";
     UserEntity.displayName := None; UserEntity.profileImage := None;
     UserEntity.bio := None; UserEntity.deletedAt := None |}.

Definition afterRemoval : Store.t :=
  {| UserService.users :=
       {| TypeORM.rows := [ghost; bobGone; bobAgain]; TypeORM.nextId := 4 |};
     UserService.followers := TypeORM.empty |}.

(** Collaborators for concrete runs: a hash that tags the password, a
    storage service that answers with the key it was given, buffers kept
    as the text they were made from, and two configurations. *)
Definition hash (password : string) : string := "$argon2$" ++ password.

Definition upload (request : AwsS3.PutObjectRequest string) (opts : unit)
  : Nest.HttpException + AwsS3.ManagedUpload :=
  inr {| AwsS3.key := AwsS3.Key request |}.

Definition noBucket (key : string) : option string := None.

Definition bucket (key : string) : option string :=
  if String.eqb key "aws.s3BucketName" then Some "nodorum" else None.

Definition register (config : string -> option string)
  (dto : RegisterUserDto.t) : Nest.Action Store.t UserService.UserBody :=
  UserService.register string unit (fun s => s) upload config hash dto tt.

Definition newcomer (username email password : string)
  (profileImage : option string) : RegisterUserDto.t :=
  {| RegisterUserDto.username := username; RegisterUserDto.email := email;
     RegisterUserDto.password := password;
     RegisterUserDto.displayName := None;
     RegisterUserDto.profileImage := profileImage;
     RegisterUserDto.bio := None |}.

(** Requests reduced to their [user] property: a chain bound to an
    anonymous request, one bound to a request of alice, and the state at
    process startup, where no namespace exists. *)
Definition nsid : string := "6f1c6d0e-0d5b-4c8e-9b0a-3a1f0c2d9e77".

Definition context (user : option UserEntity.t)
  : RequestContext.t (option UserEntity.t) unit Z :=
  {| RequestContext.id := 0; RequestContext.request := user;
     RequestContext.response := tt |}.

Definition chain (user : option UserEntity.t)
  : list (string * Cls.Namespace (RequestContext.t (option UserEntity.t) unit Z)) :=
  [ (nsid, {| Cls.active := Some [ (RequestContext.name, context user) ] |}) ].

Definition startup
  : list (string * Cls.Namespace (RequestContext.t (option UserEntity.t) unit Z)) :=
  [].

End Scenario.

(** ** Tombstones and the pattern of the payload *)

Module Sentinel.

(** The value [delete] writes over the username and the email. *)
Definition deleted : string := "[DELETED]".

(** A row is live, or carries the sentinel as username and email. *)
Definition anonymized (u : UserEntity.t) : bool :=
  Store.live u
  || (String.eqb (UserEntity.username u) deleted
      && String.eqb (UserEntity.email u) deleted).

Definition tombstonesAnonymized (db : Store.t) : bool :=
  forallb anonymized (Store.userRows db).

(** All characters of [s] are word characters. *)
Fixpoint allWord (s : string) : bool :=
  match s with
  | EmptyString => true
  | String c s' => Payload.isWord c && allWord s'
  end.

End Sentinel.

(** ** More sample data *)

Module Samples.

(** A verifier that accepts exactly the hashes of [Scenario.hash]. *)
Definition verify (stored password : string) : bool :=
  String.eqb stored (Scenario.hash password).

Definition carol : RegisterUserDto.t :=
  Scenario.newcomer "carol" "c@z.com" "p3" None.

Definition carolLogin : LoginUserDto.t :=
  {| LoginUserDto.username := "carol"; LoginUserDto.password := "p3" |}.

Definition bobLogin : LoginUserDto.t :=
  {| LoginUserDto.username := "bob"; LoginUserDto.password := "p2" |}.

(** The row carol's registration stores in [Scenario.twoUsers]. *)
Definition carolRow : UserEntity.t :=
  {| UserEntity.id := Some 3; UserEntity.username := "carol";
     UserEntity.email := "c@z.com"; UserEntity.password := "$argon2$p3";
     UserEntity.displayName := None; UserEntity.profileImage := None;
     UserEntity.bio := None; UserEntity.deletedAt := None |}.

(** A registration that asks for alice's email, with an image. *)
Definition impostor : RegisterUserDto.t :=
  Scenario.newcomer "alice2" "a@x.com" "p4" (Some "body:image/png;base64,aGVsbG8=").

(** A dto without display name and image, and with an empty bio. *)
Definition nothing : UpdateUserDto.t :=
  {| UpdateUserDto.displayName := None;
     UpdateUserDto.profileImage := None;
     UpdateUserDto.bio := Some EmptyString |}.

(** An active namespace whose context holds no record yet. *)
Definition unset
  : list (string * Cls.Namespace (RequestContext.t (option UserEntity.t) unit Z)) :=
  [ (Scenario.nsid, {| Cls.active := Some [] |}) ].

End Samples.

(** * Facts *)

(** ** Lists and tables *)

Section ListFacts.

Context {A : Type}.

Lemma find_app (p : A -> bool) (l1 l2 : list A) :
  find p (l1 ++ l2) =
  match find p l1 with
  | Some x => Some x
  | None => find p l2
  end.
Proof.
  induction l1 as [|x l1 IH]; simpl; [reflexivity|].
  destruct (p x); [reflexivity|exact IH].
Qed.

Lemma find_none_iff (p : A -> bool) (l : list A) :
  find p l = None <-> forall x, In x l -> p x = false.
Proof.
  split; [apply find_none|].
  induction l as [|x l IH]; simpl; intros Hall; [reflexivity|].
  rewrite (Hall x (or_introl eq_refl)).
  apply IH. intros y Hy. apply Hall. right. exact Hy.
Qed.

Lemma existsb_find (p : A -> bool) (l : list A) :
  existsb p l = true -> exists x, find p l = Some x /\ In x l /\ p x = true.
Proof.
  induction l as [|x l IH]; simpl; [discriminate|].
  destruct (p x) eqn:Hp.
  - intros _. exists x. auto.
  - simpl. intros H. destruct (IH H) as (y & Hf & Hin & Hy).
    exists y. auto.
Qed.

Lemma existsb_false_find (p : A -> bool) (l : list A) :
  existsb p l = false -> find p l = None.
Proof.
  induction l as [|x l IH]; simpl; [reflexivity|].
  destruct (p x); simpl; [discriminate|exact IH].
Qed.

Lemma filter_all (p : A -> bool) (l : list A) :
  (forall x, In x l -> p x = true) -> filter p l = l.
Proof.
  induction l as [|x l IH]; simpl; intros Hall; [reflexivity|].
  rewrite (Hall x (or_introl eq_refl)). f_equal.
  apply IH. intros y Hy. apply Hall. right. exact Hy.
Qed.

Lemma filter_none (p : A -> bool) (l : list A) :
  (forall x, In x l -> p x = false) -> filter p l = [].
Proof.
  induction l as [|x l IH]; simpl; intros Hall; [reflexivity|].
  rewrite (Hall x (or_introl eq_refl)).
  apply IH. intros y Hy. apply Hall. right. exact Hy.
Qed.

Lemma map_unchanged (f : A -> A) (l : list A) :
  (forall x, In x l -> f x = x) -> map f l = l.
Proof.
  induction l as [|x l IH]; simpl; intros Hall; [reflexivity|].
  rewrite (Hall x (or_introl eq_refl)). f_equal.
  apply IH. intros y Hy. apply Hall. right. exact Hy.
Qed.

End ListFacts.

Section DistinctFacts.

Context {A : Type}.
Variable clash : A -> A -> bool.

Lemma distinctBy_app_one (l : list A) (e : A) :
  TypeORM.distinctBy clash (l ++ [e]) =
  TypeORM.distinctBy clash l && forallb (fun r => negb (clash r e)) l.
Proof.
  induction l as [|x l IH]; simpl; [reflexivity|].
  rewrite forallb_app, IH. simpl.
  destruct (forallb (fun r => negb (clash x r)) l),
    (TypeORM.distinctBy clash l), (clash x e),
    (forallb (fun r => negb (clash r e)) l); reflexivity.
Qed.

Lemma distinctBy_filter (p : A -> bool) (l : list A) :
  TypeORM.distinctBy clash l = true ->
  TypeORM.distinctBy clash (filter p l) = true.
Proof.
  induction l as [|x l IH]; simpl; [reflexivity|].
  intros H. apply andb_prop in H. destruct H as [Hx Hl].
  destruct (p x); simpl; [|auto].
  rewrite IH by exact Hl. rewrite andb_true_r.
  apply forallb_forall. intros y Hy.
  apply filter_In in Hy. destruct Hy as [Hy _].
  exact (proj1 (forallb_forall _ _) Hx y Hy).
Qed.

Hypothesis clash_sym : forall a b, clash a b = clash b a.

(** In a list without clashes, two members that clash are one member. *)
Lemma distinctBy_clash (l : list A) (a b : A) :
  TypeORM.distinctBy clash l = true ->
  In a l -> In b l -> clash a b = true -> a = b.
Proof.
  induction l as [|x l IH]; simpl; [contradiction|].
  intros H Ha Hb Hab. apply andb_prop in H. destruct H as [Hx Hl].
  pose proof (proj1 (forallb_forall _ _) Hx) as Hfresh.
  destruct Ha as [Ha|Ha], Hb as [Hb|Hb].
  - congruence.
  - subst x. specialize (Hfresh b Hb). rewrite Hab in Hfresh. discriminate.
  - subst x. specialize (Hfresh a Ha).
    rewrite clash_sym, Hab in Hfresh. discriminate.
  - exact (IH Hl Ha Hb Hab).
Qed.

(** Replacing one member by a value that clashes with no other member
    keeps the list free of clashes. *)
Lemma distinctBy_replace (l1 l2 : list A) (a b : A) :
  TypeORM.distinctBy clash (l1 ++ a :: l2) = true ->
  (forall r, In r (l1 ++ l2) -> clash b r = true -> clash a r = true) ->
  TypeORM.distinctBy clash (l1 ++ b :: l2) = true.
Proof.
  induction l1 as [|x l1 IH]; simpl.
  - intros H Hb. apply andb_prop in H. destruct H as [Ha Hl].
    rewrite Hl, andb_true_r. apply forallb_forall. intros r Hr.
    pose proof (proj1 (forallb_forall _ _) Ha r Hr) as Har.
    cbv beta in Har.
    destruct (clash b r) eqn:Hbr; [|reflexivity].
    rewrite (Hb r Hr Hbr) in Har. discriminate.
  - intros H Hb. apply andb_prop in H. destruct H as [Hx Hl].
    rewrite IH; [|exact Hl|intros r Hr; apply Hb; right; exact Hr].
    rewrite andb_true_r. apply forallb_forall. intros r Hr.
    pose proof (proj1 (forallb_forall _ _) Hx) as Hfresh.
    apply in_app_or in Hr. destruct Hr as [Hr|[Hr|Hr]].
    + apply Hfresh. apply in_or_app. left. exact Hr.
    + subst r.
      pose proof (Hfresh a (in_elt a l1 l2)) as Hxa.
      cbv beta in Hxa.
      destruct (clash x b) eqn:Hxb; [|reflexivity].
      rewrite clash_sym in Hxb.
      rewrite clash_sym, (Hb x (or_introl eq_refl) Hxb) in Hxa. discriminate.
    + apply Hfresh. apply in_or_app. right. right. exact Hr.
Qed.

End DistinctFacts.

Section TableFacts.

Context {E : Type} `{TypeORM.Entity E}.

Lemma sameNumber_true (a b : option Z) :
  Js.sameNumber a b = true <-> a = b.
Proof.
  destruct a as [x|], b as [y|]; simpl; split; intros Heq;
    try discriminate; try reflexivity.
  - apply Z.eqb_eq in Heq. congruence.
  - apply Z.eqb_eq. congruence.
Qed.

Lemma hasId_true (i : Z) (e : E) :
  TypeORM.hasId i e = true <-> TypeORM.entityId e = Some i.
Proof. apply sameNumber_true. Qed.

Lemma hasId_false (i : Z) (e : E) :
  TypeORM.hasId i e = false <-> TypeORM.entityId e <> Some i.
Proof.
  rewrite <- hasId_true. destruct (TypeORM.hasId i e); split; congruence.
Qed.

Lemma sameKey_sym (a b : E) : TypeORM.sameKey a b = TypeORM.sameKey b a.
Proof.
  unfold TypeORM.sameKey.
  destruct (TypeORM.entityId a), (TypeORM.entityId b); simpl;
    try reflexivity. apply Z.eqb_sym.
Qed.

(** No stored row sits under the next key. *)
Lemma keysBelow_fresh (t : TypeORM.Table E) (r : E) :
  TypeORM.keysBelow t = true -> In r (TypeORM.rows t) ->
  TypeORM.hasId (TypeORM.nextId t) r = false.
Proof.
  unfold TypeORM.keysBelow. intros Hk Hr.
  pose proof (proj1 (forallb_forall _ _) Hk r Hr) as Hlt. cbv beta in Hlt.
  apply hasId_false. intros Heq. rewrite Heq in Hlt.
  apply Z.ltb_lt in Hlt. lia.
Qed.

(** A stored row splits the table around itself, and no other row has
    its key. *)
Lemma key_split (l : list E) (e : E) (i : Z) :
  TypeORM.distinctBy TypeORM.sameKey l = true ->
  In e l -> TypeORM.entityId e = Some i ->
  exists l1 l2, l = l1 ++ e :: l2 /\
    forall r, In r (l1 ++ l2) -> TypeORM.hasId i r = false.
Proof.
  induction l as [|x l IH]; simpl; [contradiction|].
  intros Hd Hin Hid. apply andb_prop in Hd. destruct Hd as [Hx Hl].
  pose proof (proj1 (forallb_forall _ _) Hx) as Hfresh. cbv beta in Hfresh.
  destruct (TypeORM.hasId i x) eqn:Hix.
  - assert (x = e) as ->.
    { destruct Hin as [Hin|Hin]; [exact Hin|].
      specialize (Hfresh e Hin). unfold TypeORM.sameKey in Hfresh.
      apply hasId_true in Hix. rewrite Hix, Hid in Hfresh.
      simpl in Hfresh. rewrite Z.eqb_refl in Hfresh. discriminate. }
    exists [], l. split; [reflexivity|]. simpl. intros r Hr.
    specialize (Hfresh r Hr). unfold TypeORM.sameKey in Hfresh.
    rewrite Hid in Hfresh. unfold TypeORM.hasId.
    destruct (TypeORM.entityId r); simpl in *; [|reflexivity].
    rewrite Z.eqb_sym. destruct (i =? z); [discriminate|reflexivity].
  - destruct Hin as [Hin|Hin].
    { subst x. apply hasId_true in Hid. congruence. }
    destruct (IH Hl Hin Hid) as (l1 & l2 & Heq & Hrest).
    exists (x :: l1), l2. split; [simpl; congruence|].
    simpl. intros r [Hr|Hr]; [subst r; exact Hix|auto].
Qed.

(** [delete] by the key of a stored row takes out that row alone. *)
Lemma delete_split (l1 l2 : list E) (e : E) (i : Z) :
  TypeORM.entityId e = Some i ->
  (forall r, In r (l1 ++ l2) -> TypeORM.hasId i r = false) ->
  filter (fun r => negb (TypeORM.hasId i r)) (l1 ++ e :: l2) = l1 ++ l2.
Proof.
  intros Hid Hrest. rewrite filter_app. simpl.
  apply hasId_true in Hid. rewrite Hid. simpl.
  rewrite <- filter_app. apply filter_all.
  intros r Hr. rewrite (Hrest r Hr). reflexivity.
Qed.

(** [save] of a stored row overwrites that row alone. *)
Lemma save_split (l1 l2 : list E) (e e' : E) (i : Z) :
  TypeORM.entityId e = Some i ->
  (forall r, In r (l1 ++ l2) -> TypeORM.hasId i r = false) ->
  map (fun r => if TypeORM.hasId i r then e' else r) (l1 ++ e :: l2)
  = l1 ++ e' :: l2.
Proof.
  intros Hid Hrest. rewrite map_app. simpl.
  apply hasId_true in Hid. rewrite Hid.
  rewrite !map_unchanged; [reflexivity| |].
  - intros r Hr. rewrite (Hrest r); [reflexivity|].
    apply in_or_app. right. exact Hr.
  - intros r Hr. rewrite (Hrest r); [reflexivity|].
    apply in_or_app. left. exact Hr.
Qed.

End TableFacts.

(** ** The follow toggle *)

Section FollowFacts.

Import Nest UserService.

Lemma resolves_find (id : Z) (db : Store.t) :
  Store.resolves id db = true ->
  exists u, find (whereId id) (Store.userRows db) = Some u.
Proof.
  intros Hr. destruct (existsb_find _ _ Hr) as (u & Hu & _). eauto.
Qed.

(** With both users resolved and no edge stored, [followAction] appends
    the edge under the next key. *)
Lemma followAction_follow (db : Store.t) (userId userToFollowId : Z) :
  Store.resolves userId db = true ->
  Store.resolves userToFollowId db = true ->
  Store.following userToFollowId userId db = false ->
  followAction userId userToFollowId db =
  (inr {| message := "User followed" |},
   {| users := users db;
      followers :=
        {| TypeORM.rows :=
             Store.followerRows db ++
             [ {| FollowerEntity.id := Some (TypeORM.nextId (followers db));
                  FollowerEntity.userId := userToFollowId;
                  FollowerEntity.followerId := userId |} ];
           TypeORM.nextId := TypeORM.nextId (followers db) + 1 |} |}).
Proof.
  intros Hu Ht Hf.
  destruct (resolves_find _ _ Hu) as (u & Hfu).
  destruct (resolves_find _ _ Ht) as (t & Hft).
  apply existsb_false_find in Hf.
  unfold followAction, bind, userRepository_findOne, followerRepository_findOne,
    followerRepository_save.
  cbn. unfold TypeORM.tableFindOne.
  unfold Store.userRows, Store.followerRows in *.
  rewrite Hfu, Hft, Hf. reflexivity.
Qed.

(** With both users resolved and the edge stored alone under its key,
    [followAction] removes exactly that row. *)
Lemma followAction_unfollow (db : Store.t) (userId userToFollowId : Z)
  (l1 l2 : list FollowerEntity.t) (e : FollowerEntity.t) (i : Z) :
  Store.resolves userId db = true ->
  Store.resolves userToFollowId db = true ->
  Store.followerRows db = l1 ++ e :: l2 ->
  find (whereEdge userToFollowId userId) (l1 ++ e :: l2) = Some e ->
  FollowerEntity.id e = Some i ->
  (forall r, In r (l1 ++ l2) -> TypeORM.hasId i r = false) ->
  followAction userId userToFollowId db =
  (inr {| message := "User unfollowed" |},
   {| users := users db;
      followers := {| TypeORM.rows := l1 ++ l2;
                      TypeORM.nextId := TypeORM.nextId (followers db) |} |}).
Proof.
  intros Hu Ht Hrows Hfind Hid Hrest.
  destruct (resolves_find _ _ Hu) as (u & Hfu).
  destruct (resolves_find _ _ Ht) as (t & Hft).
  unfold followAction, bind, userRepository_findOne, followerRepository_findOne,
    followerRepository_delete.
  cbn. unfold TypeORM.tableFindOne.
  unfold Store.userRows, Store.followerRows in *.
  rewrite Hfu, Hft, Hrows, Hfind, Hid. cbn. rewrite !Hrows.
  rewrite (delete_split (H := FollowerEntity.entity) l1 l2 e i Hid Hrest).
  rewrite !length_app. cbn [List.length].
  replace (Z.of_nat (List.length l1 + S (List.length l2))
           - Z.of_nat (List.length l1 + List.length l2)) with 1 by lia.
  reflexivity.
Qed.

Lemma keysBelow_id {E : Type} `{TypeORM.Entity E} (t : TypeORM.Table E) (r : E) :
  TypeORM.keysBelow t = true -> In r (TypeORM.rows t) ->
  exists i, TypeORM.entityId r = Some i.
Proof.
  unfold TypeORM.keysBelow. intros Hk Hr.
  pose proof (proj1 (forallb_forall _ _) Hk r Hr) as Hlt. cbv beta in Hlt.
  destruct (TypeORM.entityId r) as [i|]; [eauto|discriminate].
Qed.

Lemma sameEdge_sym (a b : FollowerEntity.t) :
  Store.sameEdge a b = Store.sameEdge b a.
Proof.
  unfold Store.sameEdge.
  rewrite (Z.eqb_sym (FollowerEntity.userId a)),
    (Z.eqb_sym (FollowerEntity.followerId a)). reflexivity.
Qed.

Lemma whereEdge_sameEdge (userToFollowId userId : Z) (a b : FollowerEntity.t) :
  whereEdge userToFollowId userId a = true ->
  whereEdge userToFollowId userId b = true ->
  Store.sameEdge a b = true.
Proof.
  unfold whereEdge, Store.sameEdge. intros Ha Hb.
  apply andb_prop in Ha. apply andb_prop in Hb.
  destruct Ha as [Ha1 Ha2], Hb as [Hb1 Hb2].
  apply Z.eqb_eq in Ha1, Ha2, Hb1, Hb2.
  apply andb_true_intro. split; apply Z.eqb_eq; congruence.
Qed.

Lemma consistent_parts (db : Store.t) :
  Store.consistent db = true ->
  (TypeORM.keysBelow (users db) = true
   /\ TypeORM.distinctBy TypeORM.sameKey (Store.userRows db) = true)
  /\ (TypeORM.keysBelow (followers db) = true
      /\ TypeORM.distinctBy TypeORM.sameKey (Store.followerRows db) = true)
  /\ TypeORM.distinctBy Store.sameEdge (Store.followerRows db) = true
  /\ TypeORM.distinctBy Store.sameIdentity (Store.userRows db) = true.
Proof.
  unfold Store.consistent, TypeORM.primaryKey. intros Hc.
  repeat match type of Hc with
         | _ && _ = true => apply andb_prop in Hc; destruct Hc as [Hc ?]
         end.
  repeat match goal with
         | Hp : _ && _ = true |- _ => apply andb_prop in Hp; destruct Hp
         end.
  auto.
Qed.

(** C1.  With actor and target resolved, two calls of [followAction] in a
    row bring the existence of the edge back to what it was and leave the
    users alone.  From a store without the edge, the first call answers
    "User followed" and appends exactly one edge, and the second answers
    "User unfollowed" and removes it again; from a store with the edge the
    answers come in the opposite order. *)
Theorem followAction_twice (db : Store.t) (userId userToFollowId : Z) :
  Store.consistent db = true ->
  Store.resolves userId db = true ->
  Store.resolves userToFollowId db = true ->
  let first := followAction userId userToFollowId db in
  let second := followAction userId userToFollowId (store first) in
  Store.following userToFollowId userId (store second)
  = Store.following userToFollowId userId db
  /\ users (store second) = users db
  /\ (Store.following userToFollowId userId db = false ->
      outcome first = inr {| message := "User followed" |}
      /\ (exists edge,
            Store.followerRows (store first) = Store.followerRows db ++ [edge]
            /\ FollowerEntity.userId edge = userToFollowId
            /\ FollowerEntity.followerId edge = userId)
      /\ outcome second = inr {| message := "User unfollowed" |}
      /\ Store.followerRows (store second) = Store.followerRows db)
  /\ (Store.following userToFollowId userId db = true ->
      outcome first = inr {| message := "User unfollowed" |}
      /\ Store.following userToFollowId userId (store first) = false
      /\ outcome second = inr {| message := "User followed" |}).
Proof.
  intros Hc Hu Ht first second.
  destruct (consistent_parts db Hc) as (_ & (Hkeys & Hpk) & Hedges & _).
  destruct (Store.following userToFollowId userId db) eqn:Hf.
  - (* the edge is stored: unfollow, then follow *)
    destruct (existsb_find _ _ Hf) as (e & Hfind & Hin & He).
    destruct (keysBelow_id _ _ Hkeys Hin) as (i & Hid).
    destruct (key_split _ e i Hpk Hin Hid) as (l1 & l2 & Hrows & Hrest).
    assert (Hfirst : first =
      (inr {| message := "User unfollowed" |},
       {| users := users db;
          followers := {| TypeORM.rows := l1 ++ l2;
                          TypeORM.nextId := TypeORM.nextId (followers db) |} |})).
    { apply (followAction_unfollow db userId userToFollowId l1 l2 e i);
        auto. rewrite <- Hrows. exact Hfind. }
    assert (Hgone : Store.following userToFollowId userId (store first) = false).
    { rewrite Hfirst. unfold Store.following, Store.followerRows. cbn.
      apply not_true_is_false. intros Hex.
      apply existsb_exists in Hex. destruct Hex as (r & Hr & Hmatch).
      assert (e = r) as <-.
      { apply (distinctBy_clash Store.sameEdge sameEdge_sym
                 (Store.followerRows db)); auto.
        - rewrite Hrows. apply in_or_app.
          apply in_app_or in Hr. destruct Hr; [left|right; right]; assumption.
        - exact (whereEdge_sameEdge _ _ _ _ He Hmatch). }
      specialize (Hrest e Hr). apply hasId_true in Hid. cbn in Hid, Hrest.
      congruence. }
    assert (Hsecond : second =
      (inr {| message := "User followed" |},
       {| users := users db;
          followers :=
            {| TypeORM.rows :=
                 (l1 ++ l2) ++
                 [ {| FollowerEntity.id := Some (TypeORM.nextId (followers db));
                      FollowerEntity.userId := userToFollowId;
                      FollowerEntity.followerId := userId |} ];
               TypeORM.nextId := TypeORM.nextId (followers db) + 1 |} |})).
    { unfold second.
      rewrite (followAction_follow (store first)); rewrite Hfirst in *; auto. }
    repeat split; try discriminate.
    + rewrite Hsecond. unfold Store.following, Store.followerRows. cbn.
      rewrite existsb_app. cbn. unfold whereEdge at 2. cbn.
      rewrite !Z.eqb_refl. cbn. apply orb_true_r.
    + rewrite Hsecond. reflexivity.
    + rewrite Hfirst. reflexivity.
    + exact Hgone.
    + rewrite Hsecond. reflexivity.
  - (* no edge is stored: follow, then unfollow *)
    pose (edge := {| FollowerEntity.id := Some (TypeORM.nextId (followers db));
                     FollowerEntity.userId := userToFollowId;
                     FollowerEntity.followerId := userId |}).
    assert (Hfirst : first =
      (inr {| message := "User followed" |},
       {| users := users db;
          followers :=
            {| TypeORM.rows := Store.followerRows db ++ [edge];
               TypeORM.nextId := TypeORM.nextId (followers db) + 1 |} |})).
    { apply followAction_follow; auto. }
    assert (Hsecond : second =
      (inr {| message := "User unfollowed" |},
       {| users := users db;
          followers :=
            {| TypeORM.rows := Store.followerRows db ++ [];
               TypeORM.nextId := TypeORM.nextId (followers db) + 1 |} |})).
    { unfold second. rewrite Hfirst. unfold store. cbn [snd].
      rewrite (followAction_unfollow _ userId userToFollowId
                 (Store.followerRows db) [] edge (TypeORM.nextId (followers db)));
        auto.
      - rewrite find_app. rewrite (existsb_false_find _ _ Hf).
        cbn. unfold whereEdge. cbn. rewrite !Z.eqb_refl. reflexivity.
      - intros r Hr. rewrite app_nil_r in Hr.
        apply (keysBelow_fresh (followers db) r Hkeys Hr). }
    rewrite app_nil_r in Hsecond.
    repeat split; try discriminate.
    + rewrite Hsecond. exact Hf.
    + rewrite Hsecond. reflexivity.
    + rewrite Hfirst. reflexivity.
    + exists edge. rewrite Hfirst. auto.
    + rewrite Hsecond. reflexivity.
    + rewrite Hsecond. reflexivity.
Qed.

End FollowFacts.

(** The toggle on the sample store: user 2 follows user 1 and lets go. *)
Lemma followAction_twice_witness :
  Store.consistent Scenario.twoUsers = true
  /\ Nest.outcome (UserService.followAction 2 1 Scenario.twoUsers)
     = inr {| UserService.message := "User followed" |}
  /\ Nest.outcome
       (UserService.followAction 2 1
          (Nest.store (UserService.followAction 2 1 Scenario.twoUsers)))
     = inr {| UserService.message := "User unfollowed" |}.
Proof.
  destruct (followAction_twice Scenario.twoUsers 2 1
              eq_refl eq_refl eq_refl) as (_ & _ & Hfresh & _).
  destruct (Hfresh eq_refl) as (Hfirst & _ & Hsecond & _).
  split; [reflexivity|]. split; assumption.
Defined.

(** ** Rejections of the follow toggle *)

Section FollowRejections.

Import Nest UserService.

Context {UT FT : Type}.
Context {userRepository : TypeORM.Repository UserEntity.t UT}.
Context {followerRepository : TypeORM.Repository FollowerEntity.t FT}.

(** C8.  Over any pair of repositories: when the actor or the target is
    not found among the principals without tombstone, [followAction]
    rejects with [NotFoundException] and the store is as before; when both
    are found, an edge is found, and deleting it reports a number of
    affected rows other than one, it rejects with
    [InternalServerErrorException]. *)
Theorem followAction_rejects (db : Db UT FT) (userId userToFollowId : Z) :
  (TypeORM.findOne (whereId userId) (users db) = None
   \/ TypeORM.findOne (whereId userToFollowId) (users db) = None ->
   exists message,
     followAction userId userToFollowId db = (inl (NotFoundException message), db))
  /\ (forall edge res followers',
        TypeORM.findOne (whereId userId) (users db) <> None ->
        TypeORM.findOne (whereId userToFollowId) (users db) <> None ->
        TypeORM.findOne (whereEdge userToFollowId userId) (followers db) = Some edge ->
        TypeORM.delete (FollowerEntity.id edge) (followers db) = (res, followers') ->
        TypeORM.affected res <> Some 1 ->
        followAction userId userToFollowId db
        = (inl (InternalServerErrorException (Some "Database error")),
           {| users := users db; followers := followers' |})).
Proof.
  split.
  - intros Hmissing.
    unfold followAction, bind, userRepository_findOne. cbn.
    destruct (TypeORM.findOne (whereId userId) (users db)) as [u|].
    + destruct Hmissing as [Hu|Ht]; [discriminate|]. rewrite Ht.
      eexists. reflexivity.
    + eexists. reflexivity.
  - intros edge res followers' Hu Ht Hedge Hdel Haff.
    unfold followAction, bind, userRepository_findOne,
      followerRepository_findOne, followerRepository_delete. cbn.
    destruct (TypeORM.findOne (whereId userId) (users db)); [|congruence].
    destruct (TypeORM.findOne (whereId userToFollowId) (users db)); [|congruence].
    rewrite Hedge, Hdel. cbn.
    destruct (Js.sameNumber (TypeORM.affected res) (Some 1)) eqn:Hone;
      [|reflexivity].
    apply sameNumber_true in Hone. contradiction.
Qed.

End FollowRejections.

(** An unknown actor on the sample store, and a delete that comes late. *)
Lemma followAction_rejects_witness :
  (exists message,
     UserService.followAction 7 1 Scenario.twoUsers
     = (inl (Nest.NotFoundException message), Scenario.twoUsers))
  /\ UserService.followAction (followerRepository := Scenario.lateFollowers)
       2 1 Scenario.following21
     = (inl (Nest.InternalServerErrorException (Some "Database error")),
        Scenario.following21).
Proof.
  split.
  - apply (proj1 (followAction_rejects Scenario.twoUsers 7 1)).
    left. reflexivity.
  - apply (proj2 (followAction_rejects
                    (followerRepository := Scenario.lateFollowers)
                    Scenario.following21 2 1)
             Scenario.edge21 {| TypeORM.affected := Some 0 |}
             (UserService.followers Scenario.following21));
      try reflexivity; discriminate.
Defined.

(** ** Rows stored under a key *)

Section StoredRowFacts.

Context {E : Type} `{TypeORM.Entity E}.

Lemma find_stored (l1 l2 : list E) (e : E) (i : Z) :
  TypeORM.entityId e = Some i ->
  (forall r, In r (l1 ++ l2) -> TypeORM.hasId i r = false) ->
  find (TypeORM.hasId i) (l1 ++ e :: l2) = Some e.
Proof.
  intros Hid Hrest. rewrite find_app.
  replace (find (TypeORM.hasId i) l1) with (@None E).
  - simpl. apply hasId_true in Hid. rewrite Hid. reflexivity.
  - symmetry. apply find_none_iff. intros r Hr. apply Hrest.
    apply in_or_app. left. exact Hr.
Qed.

Lemma tableSave_stored (t : TypeORM.Table E) (l1 l2 : list E) (e e' : E) (i : Z) :
  TypeORM.rows t = l1 ++ e :: l2 ->
  TypeORM.entityId e = Some i ->
  TypeORM.entityId e' = Some i ->
  (forall r, In r (l1 ++ l2) -> TypeORM.hasId i r = false) ->
  TypeORM.tableSave e' t
  = (e', {| TypeORM.rows := l1 ++ e' :: l2; TypeORM.nextId := TypeORM.nextId t |}).
Proof.
  intros Hrows Hid Hid' Hrest. unfold TypeORM.tableSave.
  rewrite Hid', Hrows.
  replace (existsb (TypeORM.hasId i) (l1 ++ e :: l2)) with true.
  - rewrite (save_split l1 l2 e e' i Hid Hrest). reflexivity.
  - symmetry. apply existsb_exists. exists e. split; [apply in_elt|].
    apply hasId_true. exact Hid.
Qed.

End StoredRowFacts.

(** ** Update and delete of a principal *)

Section PrincipalFacts.

Import Nest UserService.

(** The row of a resolved principal, and the rows around it. *)
Lemma resolved_split (db : Store.t) (id : Z) (u : UserEntity.t) :
  Store.consistent db = true ->
  In u (Store.userRows db) ->
  UserEntity.id u = Some id ->
  exists l1 l2,
    Store.userRows db = l1 ++ u :: l2
    /\ forall r, In r (l1 ++ l2) -> TypeORM.hasId id r = false.
Proof.
  intros Hc Hin Hid.
  destruct (consistent_parts db Hc) as ((_ & Hpk) & _).
  exact (key_split (Store.userRows db) u id Hpk Hin Hid).
Qed.

Lemma whereId_id (id : Z) (u : UserEntity.t) :
  whereId id u = true ->
  UserEntity.id u = Some id /\ UserEntity.deletedAt u = None.
Proof.
  unfold whereId. intros Hw. apply andb_prop in Hw. destruct Hw as [Hi Hd].
  apply (hasId_true (H := UserEntity.entity)) in Hi. split; [exact Hi|].
  destruct (UserEntity.deletedAt u); [discriminate|reflexivity].
Qed.

(** [update] of a principal found without tombstone overwrites its row in
    place with the row it resolves with, which is the stored row after the
    three conditional assignments. *)
Lemma update_in_place (db : Store.t) (id : Z) (dto : UpdateUserDto.t)
  (u : UserEntity.t) :
  Store.consistent db = true ->
  find (whereId id) (Store.userRows db) = Some u ->
  let u1 := if Js.truthy (UpdateUserDto.displayName dto)
            then UserEntity.withDisplayName (UpdateUserDto.displayName dto) u
            else u in
  let u2 := if Js.truthy (UpdateUserDto.profileImage dto)
            then UserEntity.withProfileImage (UpdateUserDto.profileImage dto) u1
            else u1 in
  let u3 := if Js.truthy (UpdateUserDto.bio dto)
            then UserEntity.withBio (UpdateUserDto.bio dto) u2 else u2 in
  exists l1 l2,
    Store.userRows db = l1 ++ u :: l2
    /\ update id dto db
       = (inr {| user := u3 |},
          {| users := {| TypeORM.rows := l1 ++ u3 :: l2;
                         TypeORM.nextId := TypeORM.nextId (users db) |};
             followers := followers db |}).
Proof.
  intros Hc Hfind u1 u2 u3.
  destruct (find_some _ _ Hfind) as [Hin Hw].
  destruct (whereId_id id u Hw) as [Hid _].
  destruct (resolved_split db id u Hc Hin Hid) as (l1 & l2 & Hrows & Hrest).
  unfold update, bind, userRepository_findOne, userRepository_save. cbn.
  unfold TypeORM.tableFindOne. fold (Store.userRows db). rewrite Hfind.
  fold u1. fold u2. fold u3.
  assert (Hid' : UserEntity.id u3 = Some id).
  { unfold u3, u2, u1. destruct (Js.truthy (UpdateUserDto.displayName dto)),
      (Js.truthy (UpdateUserDto.profileImage dto)),
      (Js.truthy (UpdateUserDto.bio dto)); exact Hid. }
  rewrite (tableSave_stored (H := UserEntity.entity)
             (users db) l1 l2 u u3 id Hrows Hid Hid' Hrest).
  exists l1, l2. split; [exact Hrows|reflexivity].
Qed.

(** C10.  For a principal found without tombstone, [update] resolves with
    the saved row and overwrites that row alone, in place; the saved row
    has the id, username, email, password and tombstone it had, and each
    of [displayName], [profileImage] and [bio] is the value of the dto
    when that is truthy and the stored value otherwise.  The follower
    table is as before. *)
Theorem update_frame (db : Store.t) (id : Z) (dto : UpdateUserDto.t)
  (u : UserEntity.t) :
  Store.consistent db = true ->
  find (whereId id) (Store.userRows db) = Some u ->
  exists u' l1 l2,
    Store.userRows db = l1 ++ u :: l2
    /\ update id dto db
       = (inr {| user := u' |},
          {| users := {| TypeORM.rows := l1 ++ u' :: l2;
                         TypeORM.nextId := TypeORM.nextId (users db) |};
             followers := followers db |})
    /\ UserEntity.id u' = UserEntity.id u
    /\ UserEntity.username u' = UserEntity.username u
    /\ UserEntity.email u' = UserEntity.email u
    /\ UserEntity.password u' = UserEntity.password u
    /\ UserEntity.deletedAt u' = UserEntity.deletedAt u
    /\ UserEntity.displayName u'
       = (if Js.truthy (UpdateUserDto.displayName dto)
          then UpdateUserDto.displayName dto else UserEntity.displayName u)
    /\ UserEntity.profileImage u'
       = (if Js.truthy (UpdateUserDto.profileImage dto)
          then UpdateUserDto.profileImage dto else UserEntity.profileImage u)
    /\ UserEntity.bio u'
       = (if Js.truthy (UpdateUserDto.bio dto)
          then UpdateUserDto.bio dto else UserEntity.bio u).
Proof.
  intros Hc Hfind.
  destruct (update_in_place db id dto u Hc Hfind) as (l1 & l2 & Hrows & Hrun).
  cbv zeta in Hrun.
  match type of Hrun with
  | _ = (inr {| user := ?row |}, _) => exists row, l1, l2
  end.
  split; [exact Hrows|]. split; [exact Hrun|].
  destruct (Js.truthy (UpdateUserDto.displayName dto)),
    (Js.truthy (UpdateUserDto.profileImage dto)),
    (Js.truthy (UpdateUserDto.bio dto)); cbn; repeat split; reflexivity.
Qed.

End PrincipalFacts.

(** Renaming bob: the empty bio of the dto leaves the stored bio. *)
Lemma update_frame_witness :
  Store.consistent Scenario.twoUsers = true
  /\ exists u' l1 l2,
       Store.userRows Scenario.twoUsers = l1 ++ Scenario.bob :: l2
       /\ Store.userRows
            (Nest.store (UserService.update 2 Scenario.bobRenamed Scenario.twoUsers))
          = l1 ++ u' :: l2
       /\ UserEntity.username u' = "bob"
       /\ UserEntity.displayName u' = Some "Bob"
       /\ UserEntity.bio u' = Some "hello".
Proof.
  split; [reflexivity|].
  destruct (update_frame Scenario.twoUsers 2 Scenario.bobRenamed Scenario.bob
              eq_refl eq_refl)
    as (u' & l1 & l2 & Hrows & Hrun & _ & Hname & _ & _ & _ & Hdisplay & _ & Hbio).
  exists u', l1, l2. rewrite Hrun. auto.
Defined.

(** ** Account deletion *)

Section DeleteFacts.

Import Nest UserService.

(** What [delete] does to a stored row: the row stays in place with its
    id; the tombstone, the username and the email are set; [displayName]
    is assigned twice and ends as the blank-picture path; [profileImage]
    is not assigned. *)
Lemma delete_tombstones (db : Store.t) (now id : Z) (u : UserEntity.t)
  (l1 l2 : list UserEntity.t) :
  Store.userRows db = l1 ++ u :: l2 ->
  UserEntity.id u = Some id ->
  (forall r, In r (l1 ++ l2) -> TypeORM.hasId id r = false) ->
  delete now id db
  = (inr {| message := "User successfully removed" |},
     {| users :=
          {| TypeORM.rows :=
               l1 ++
               {| UserEntity.id := Some id;
                  UserEntity.username := "[DELETED]";
                  UserEntity.email := "[DELETED]";
                  UserEntity.password := UserEntity.password u;
                  UserEntity.displayName :=
                    Some "pictures/blank-profile-picture-S4P3RS3CR3T";
                  UserEntity.profileImage := UserEntity.profileImage u;
                  UserEntity.bio := UserEntity.bio u;
                  UserEntity.deletedAt := Some now |} :: l2;
             TypeORM.nextId := TypeORM.nextId (users db) |};
        followers := followers db |}).
Proof.
  intros Hrows Hid Hrest.
  unfold delete, bind, userRepository_findOneById, userRepository_save. cbn.
  unfold TypeORM.tableFindOneById. fold (Store.userRows db).
  rewrite Hrows, (find_stored (H := UserEntity.entity) l1 l2 u id Hid Hrest).
  match goal with
  | |- context [TypeORM.tableSave ?e _] => set (u' := e)
  end.
  assert (Hid' : UserEntity.id u' = Some id) by exact Hid.
  rewrite (tableSave_stored (H := UserEntity.entity)
             (users db) l1 l2 u u' id Hrows Hid Hid' Hrest).
  unfold u', UserEntity.withDisplayName, UserEntity.withEmail,
    UserEntity.withUsername, UserEntity.withDeletedAt. cbn.
  rewrite Hid. reflexivity.
Qed.

Lemma sameIdentity_sym (a b : UserEntity.t) :
  Store.sameIdentity a b = Store.sameIdentity b a.
Proof.
  unfold Store.sameIdentity.
  rewrite (String.eqb_sym (UserEntity.username a)),
    (String.eqb_sym (UserEntity.email a)).
  destruct (Store.live a), (Store.live b); reflexivity.
Qed.

(** A lookup that only accepts live rows sharing the username or the
    email of the live row [u] finds nothing once [u] is replaced by a
    tombstoned row. *)
Lemma find_after_tombstone (conditions : UserEntity.t -> bool)
  (l1 l2 : list UserEntity.t) (u u' : UserEntity.t) (id : Z) :
  TypeORM.distinctBy Store.sameIdentity (l1 ++ u :: l2) = true ->
  UserEntity.id u = Some id ->
  (forall r, In r (l1 ++ l2) -> TypeORM.hasId id r = false) ->
  (forall r, conditions r = true -> Store.sameIdentity u r = true) ->
  conditions u' = false ->
  find conditions (l1 ++ u' :: l2) = None.
Proof.
  intros Hd Hid Hrest Hcond Hu'. apply find_none_iff. intros r Hr.
  apply in_app_or in Hr. destruct Hr as [Hr|[Hr|Hr]];
    [|subst r; exact Hu'|];
    (destruct (conditions r) eqn:Hc; [exfalso|reflexivity]);
    (assert (u = r) as <-
       by (apply (distinctBy_clash Store.sameIdentity sameIdentity_sym
                    (l1 ++ u :: l2)); auto using in_elt;
           apply in_or_app; auto using in_cons));
    (assert (Hno : TypeORM.hasId id u = false)
       by (apply Hrest; apply in_or_app; auto));
    apply (hasId_true (H := UserEntity.entity)) in Hid; congruence.
Qed.

(** The removal of a principal that has no tombstone.  In a consistent
    store [delete] succeeds on it, and after it [findOne] by the id,
    [findOneByEmail] by the email the row had and [findOneByUsername] by
    the username it had all reject with [NotFoundException]; the follower
    table, whose rows refer to the principal by id, is as before. *)
Lemma delete_hides_principal (db : Store.t) (now id : Z) (u : UserEntity.t) :
  Store.consistent db = true ->
  find (whereId id) (Store.userRows db) = Some u ->
  let after := delete now id db in
  outcome after = inr {| message := "User successfully removed" |}
  /\ outcome (findOne id (store after))
     = inl (NotFoundException "User not found")
  /\ outcome (findOneByEmail (UserEntity.email u) (store after))
     = inl (NotFoundException "User not found")
  /\ outcome (findOneByUsername (UserEntity.username u) (store after))
     = inl (NotFoundException "User not found")
  /\ followers (store after) = followers db.
Proof.
  intros Hc Hfind after.
  destruct (find_some _ _ Hfind) as [Hin Hw].
  destruct (whereId_id id u Hw) as [Hid Hlive].
  destruct (resolved_split db id u Hc Hin Hid) as (l1 & l2 & Hrows & Hrest).
  destruct (consistent_parts db Hc) as (_ & _ & _ & Hnames).
  rewrite Hrows in Hnames.
  unfold after. rewrite (delete_tombstones db now id u l1 l2 Hrows Hid Hrest).
  unfold findOne, findOneByEmail, findOneByUsername, bind,
    userRepository_findOne, outcome, store. cbn.
  unfold TypeORM.tableFindOne. cbn.
  assert (Hlive' : Store.live u = true)
    by (unfold Store.live; rewrite Hlive; reflexivity).
  set (u' := {| UserEntity.id := Some id;
                UserEntity.username := "[DELETED]";
                UserEntity.email := "[DELETED]";
                UserEntity.password := UserEntity.password u;
                UserEntity.displayName :=
                  Some "pictures/blank-profile-picture-S4P3RS3CR3T";
                UserEntity.profileImage := UserEntity.profileImage u;
                UserEntity.bio := UserEntity.bio u;
                UserEntity.deletedAt := Some now |}).
  assert (Hbyid : find (whereId id) (l1 ++ u' :: l2) = None).
  { apply find_none_iff. intros r Hr. unfold whereId.
    apply in_app_or in Hr. destruct Hr as [Hr|[Hr|Hr]].
    - rewrite (Hrest r); [reflexivity|]. apply in_or_app. auto.
    - subst r. cbn. apply andb_false_r.
    - rewrite (Hrest r); [reflexivity|]. apply in_or_app. auto. }
  assert (Hbymail :
    find (whereEmail (UserEntity.email u)) (l1 ++ u' :: l2) = None).
  { apply (find_after_tombstone _ l1 l2 u u' id Hnames Hid Hrest).
    - intros r Hr. unfold whereEmail in Hr. apply andb_prop in Hr.
      destruct Hr as [Hmail Hr]. unfold Store.sameIdentity.
      fold (Store.live r) in Hr. rewrite Hlive', Hr.
      rewrite (String.eqb_sym (UserEntity.email u)), Hmail.
      cbn. apply orb_true_r.
    - unfold whereEmail. cbn. apply andb_false_r. }
  assert (Hbyname :
    find (whereUsername (UserEntity.username u)) (l1 ++ u' :: l2) = None).
  { apply (find_after_tombstone _ l1 l2 u u' id Hnames Hid Hrest).
    - intros r Hr. unfold whereUsername in Hr. apply andb_prop in Hr.
      destruct Hr as [Hname Hr]. unfold Store.sameIdentity.
      fold (Store.live r) in Hr. rewrite Hlive', Hr.
      rewrite String.eqb_sym, Hname. reflexivity.
    - unfold whereUsername. cbn. apply andb_false_r. }
  rewrite Hbyid, Hbymail, Hbyname. repeat split; reflexivity.
Qed.

End DeleteFacts.

(** C3, at a stored principal with a profile image.  [delete] keeps the
    row and its id, sets the tombstone and the sentinel username and
    email, and leaves [displayName] as the blank-picture path; the
    [profileImage] is the one that was stored. *)
Theorem delete_keeps_profileImage :
  UserService.delete 9 1 Scenario.twoUsers
  = (inr {| UserService.message := "User successfully removed" |},
     {| UserService.users :=
          {| TypeORM.rows :=
               [ {| UserEntity.id := Some 1;
                    UserEntity.username := "[DELETED]";
                    UserEntity.email := "[DELETED]";
                    UserEntity.password := "$argon2$p1";
                    UserEntity.displayName :=
                      Some "pictures/blank-profile-picture-S4P3RS3CR3T";
                    UserEntity.profileImage := Some "pictures/user/alice.png";
                    UserEntity.bio := None;
                    UserEntity.deletedAt := Some 9 |};
                 Scenario.bob ];
             TypeORM.nextId := 3 |};
        UserService.followers := TypeORM.empty |})
  /\ UserEntity.profileImage Scenario.alice = Some "pictures/user/alice.png".
Proof. split; reflexivity. Qed.

(** Removing bob from the sample store hides him from the lookups. *)
Lemma delete_hides_principal_witness :
  Store.consistent Scenario.twoUsers = true
  /\ Nest.outcome (UserService.findOneByUsername "bob" Scenario.twoUsers)
     = inr {| UserService.user := Scenario.bob |}
  /\ Nest.outcome
       (UserService.findOneByUsername "bob"
          (Nest.store (UserService.delete 9 2 Scenario.twoUsers)))
     = inl (Nest.NotFoundException "User not found")
  /\ Nest.outcome
       (UserService.findOneByEmail "b@y.com"
          (Nest.store (UserService.delete 9 2 Scenario.twoUsers)))
     = inl (Nest.NotFoundException "User not found").
Proof.
  destruct (delete_hides_principal Scenario.twoUsers 9 2 Scenario.bob
              eq_refl eq_refl) as (_ & _ & Hmail & Hname & _).
  split; [reflexivity|]. split; [reflexivity|].
  split; [exact Hname|exact Hmail].
Defined.


(** That store is what four calls of the service leave behind. *)
Lemma afterRemoval_reached :
  let s1 := Nest.store (Scenario.register Scenario.noBucket
                          (Scenario.newcomer "[DELETED]" "ghost@x.com" "p0" None)
                          Store.empty) in
  let s2 := Nest.store (Scenario.register Scenario.noBucket
                          (Scenario.newcomer "bob" "b@y.com" "p2" None) s1) in
  let s3 := Nest.store (UserService.delete 5 2 s2) in
  Nest.store (Scenario.register Scenario.noBucket
                (Scenario.newcomer "bob" "bob@z.com" "p3" None) s3)
  = Scenario.afterRemoval.
Proof. reflexivity. Qed.

(** ** The profile image *)

Section UploadFacts.

Import Nest UserService.

Context {UT FT : Type}.
Variable Buffer : Type.
Variable AwsS3UploadOptions : Type.
Variable bufferFromBase64 : string -> Buffer.
Variable awsS3Service_upload :
  AwsS3.PutObjectRequest Buffer -> AwsS3UploadOptions ->
  HttpException + AwsS3.ManagedUpload.
Variable configService_get : string -> option string.

(** A payload that does not start with [b] is handed on whole. *)
Lemma stripPrefix_other (c : ascii) (rest : string) :
  Ascii.eqb "b" c = false ->
  Payload.stripPrefix (String c rest) = String c rest.
Proof.
  intros Hc. unfold Payload.stripPrefix. cbn [Payload.after].
  rewrite Hc. reflexivity.
Qed.

(** The pattern at work: the prefix it names is cut off; a subtype with
    a character outside [\w], an empty subtype, and a prefix that is not
    at the start leave the payload as it is. *)
Example stripPrefix_examples :
  Payload.stripPrefix "body:image/png;base64,aGVsbG8=" = "aGVsbG8="
  /\ Payload.stripPrefix "body:image/svg+xml;base64,aGVsbG8="
     = "body:image/svg+xml;base64,aGVsbG8="
  /\ Payload.stripPrefix "body:image/;base64,aGVsbG8="
     = "body:image/;base64,aGVsbG8="
  /\ Payload.stripPrefix " body:image/png;base64,aGVsbG8="
     = " body:image/png;base64,aGVsbG8=".
Proof. repeat split; reflexivity. Qed.

(** The request names the key after the user and asks for a public
    object. *)
Lemma uploadRequest_key (bucketName profileImage username : string) :
  let request := uploadRequest Buffer bufferFromBase64 bucketName profileImage username in
  AwsS3.Key request = ("pictures/user/" ++ username ++ ".png")%string
  /\ AwsS3.ACL request = "public-read"
  /\ AwsS3.Bucket request = bucketName.
Proof. repeat split. Qed.

(** Without bucket name the upload rejects before the storage service is
    called. *)
Lemma uploadProfileImage_unconfigured (profileImage username : string)
  (opts : AwsS3UploadOptions) (db : Db UT FT) :
  Js.truthy (configService_get "aws.s3BucketName") = false ->
  uploadProfileImage Buffer AwsS3UploadOptions bufferFromBase64
    awsS3Service_upload configService_get profileImage username opts db
  = (inl (InternalServerErrorException None), db).
Proof.
  unfold uploadProfileImage, Js.truthy.
  destruct (configService_get "aws.s3BucketName") as [bucketName|];
    [|reflexivity].
  destruct (String.eqb bucketName EmptyString); [reflexivity|discriminate].
Qed.

(** With a bucket name the outcome is that of the storage service, and
    the value is the key it answers with. *)
Lemma uploadProfileImage_configured (bucketName profileImage username : string)
  (opts : AwsS3UploadOptions) (db : Db UT FT) :
  configService_get "aws.s3BucketName" = Some bucketName ->
  bucketName <> EmptyString ->
  uploadProfileImage Buffer AwsS3UploadOptions bufferFromBase64
    awsS3Service_upload configService_get profileImage username opts db
  = (match awsS3Service_upload
             (uploadRequest Buffer bufferFromBase64 bucketName profileImage username)
             opts with
     | inl e => inl e
     | inr res => inr (AwsS3.key res)
     end, db).
Proof.
  intros Hconf Hne. unfold uploadProfileImage. rewrite Hconf.
  destruct (String.eqb_spec bucketName EmptyString); [contradiction|].
  destruct (awsS3Service_upload _ opts); reflexivity.
Qed.

(** C4, at a data-URI.  The scheme of a data-URI is [data:], not the
    [body:] the pattern names, so nothing is cut off and the whole payload
    reaches the base64 decoder, whatever follows the scheme; the prefix
    spelled [body:] is the one that is removed. *)
Theorem uploadRequest_data_uri (bucketName username rest : string) :
  AwsS3.Body (uploadRequest Buffer bufferFromBase64 bucketName
                ("data:" ++ rest) username)
  = bufferFromBase64 ("data:" ++ rest)
  /\ AwsS3.Body (uploadRequest Buffer bufferFromBase64 bucketName
                   "data:image/png;base64,aGVsbG8=" username)
     = bufferFromBase64 "data:image/png;base64,aGVsbG8="
  /\ AwsS3.Body (uploadRequest Buffer bufferFromBase64 bucketName
                   "body:image/png;base64,aGVsbG8=" username)
     = bufferFromBase64 "aGVsbG8=".
Proof.
  split; [|split; reflexivity].
  unfold uploadRequest. cbn [AwsS3.Body].
  change ("data:" ++ rest)%string with (String "d" ("ata:" ++ rest)%string).
  rewrite stripPrefix_other; reflexivity.
Qed.

End UploadFacts.

(** ** Registration *)

Section RegisterFacts.

Import Nest UserService.

Variable Buffer : Type.
Variable AwsS3UploadOptions : Type.
Variable bufferFromBase64 : string -> Buffer.
Variable awsS3Service_upload :
  AwsS3.PutObjectRequest Buffer -> AwsS3UploadOptions ->
  HttpException + AwsS3.ManagedUpload.
Variable configService_get : string -> option string.
Variable hash : string -> string.

Let register' :=
  register (UT := TypeORM.Table UserEntity.t) (FT := TypeORM.Table FollowerEntity.t)
    Buffer AwsS3UploadOptions bufferFromBase64 awsS3Service_upload
    configService_get hash.

Let uploadProfileImage' :=
  uploadProfileImage (UT := TypeORM.Table UserEntity.t)
    (FT := TypeORM.Table FollowerEntity.t)
    Buffer AwsS3UploadOptions bufferFromBase64 awsS3Service_upload
    configService_get.

(** A username or an email that is stored, under a tombstone or not,
    stops [register] before anything is written. *)
Lemma register_taken (db : Store.t) (dto : RegisterUserDto.t)
  (opts : AwsS3UploadOptions) :
  existsb (whereTaken (RegisterUserDto.username dto) (RegisterUserDto.email dto))
    (Store.userRows db) = true ->
  register' dto opts db
  = (inl (BadRequestException "Email or Username is already taken"
                              "Validation failed"), db).
Proof.
  intros Htaken. destruct (existsb_find _ _ Htaken) as (u & Hfind & _).
  unfold register', register, bind, userRepository_findOne. cbn.
  unfold TypeORM.tableFindOne. fold (Store.userRows db).
  rewrite Hfind. reflexivity.
Qed.

(** An upload that resolves leaves the tables alone. *)
Lemma uploadProfileImage_resolves (image username key : string)
  (opts : AwsS3UploadOptions) (db : Store.t) :
  outcome (uploadProfileImage' image username opts db) = inr key ->
  uploadProfileImage' image username opts db = (inr key, db).
Proof.
  unfold uploadProfileImage', uploadProfileImage.
  destruct (configService_get "aws.s3BucketName") as [b|]; [|discriminate].
  destruct (String.eqb b EmptyString); [discriminate|].
  destruct (awsS3Service_upload _ opts); unfold outcome, throw, ret; cbn;
    intros Heq; [discriminate|].
  injection Heq as ->. reflexivity.
Qed.

(** With fresh username and email, and no image or an image whose upload
    resolves, [register] appends the new row under the next key. *)
Lemma register_fresh (db : Store.t) (dto : RegisterUserDto.t)
  (opts : AwsS3UploadOptions) :
  existsb (whereTaken (RegisterUserDto.username dto) (RegisterUserDto.email dto))
    (Store.userRows db) = false ->
  Js.truthy (RegisterUserDto.profileImage dto) = false
  \/ (exists image key,
        RegisterUserDto.profileImage dto = Some image
        /\ outcome (uploadProfileImage' image (RegisterUserDto.username dto)
                      opts db) = inr key) ->
  exists saved,
    register' dto opts db
    = (inr {| user := saved |},
       {| users := {| TypeORM.rows := Store.userRows db ++ [saved];
                      TypeORM.nextId := TypeORM.nextId (users db) + 1 |};
          followers := followers db |})
    /\ UserEntity.id saved = Some (TypeORM.nextId (users db))
    /\ UserEntity.username saved = RegisterUserDto.username dto
    /\ UserEntity.email saved = RegisterUserDto.email dto.
Proof.
  intros Hfresh Himage. apply existsb_false_find in Hfresh.
  unfold register', register, bind, userRepository_findOne,
    userRepository_save. cbn.
  unfold TypeORM.tableFindOne. fold (Store.userRows db). rewrite Hfresh.
  destruct Himage as [Hnone|(image & key & Himage & Hup)].
  - destruct (RegisterUserDto.profileImage dto) as [image|];
      [rewrite Hnone|];
      destruct (Js.truthy (RegisterUserDto.displayName dto)),
        (Js.truthy (RegisterUserDto.bio dto));
      cbn; eexists; repeat split; reflexivity.
  - rewrite Himage. apply uploadProfileImage_resolves in Hup.
    unfold uploadProfileImage' in Hup.
    destruct (Js.truthy (Some image));
      [rewrite Hup|];
      destruct (Js.truthy (RegisterUserDto.displayName dto)),
        (Js.truthy (RegisterUserDto.bio dto));
      cbn; eexists; repeat split; reflexivity.
Qed.

(** C6, as the code has it.  A request whose username or email is that of
    a stored row is rejected with the validation failure and the store is
    as before.  A request with fresh username and email, without profile
    image or with one whose upload resolves, appends exactly one row under
    the next key, and that row has the username and the email of the
    request. *)
Theorem register_outcome (db : Store.t) (dto : RegisterUserDto.t)
  (opts : AwsS3UploadOptions) :
  let username := RegisterUserDto.username dto in
  let email := RegisterUserDto.email dto in
  (existsb (whereTaken username email) (Store.userRows db) = true ->
   register' dto opts db
   = (inl (BadRequestException "Email or Username is already taken"
                               "Validation failed"), db))
  /\ (existsb (whereTaken username email) (Store.userRows db) = false ->
      Js.truthy (RegisterUserDto.profileImage dto) = false
      \/ (exists image key,
            RegisterUserDto.profileImage dto = Some image
            /\ outcome (uploadProfileImage' image username opts db) = inr key) ->
      exists saved,
        register' dto opts db
        = (inr {| user := saved |},
           {| users := {| TypeORM.rows := Store.userRows db ++ [saved];
                          TypeORM.nextId := TypeORM.nextId (users db) + 1 |};
              followers := followers db |})
        /\ UserEntity.id saved = Some (TypeORM.nextId (users db))
        /\ UserEntity.username saved = username
        /\ UserEntity.email saved = email).
Proof.
  intros username email. split.
  - intros Htaken. exact (register_taken db dto opts Htaken).
  - intros Hfresh Himage.
    destruct (register_fresh db dto opts Hfresh Himage)
      as (saved & Hrun & Hid & Hname & Hmail).
    exists saved. repeat split; assumption.
Qed.

End RegisterFacts.

(** A second alice is turned away; carol, with an image, gets row 3. *)
Lemma register_outcome_witness :
  Scenario.register Scenario.bucket
    (Scenario.newcomer "alice" "b@y.com" "p2" None) Scenario.twoUsers
  = (inl (Nest.BadRequestException "Email or Username is already taken"
                                   "Validation failed"),
     Scenario.twoUsers)
  /\ exists saved,
       Scenario.register Scenario.bucket
         (Scenario.newcomer "carol" "c@z.com" "p3"
            (Some "body:image/png;base64,aGVsbG8=")) Scenario.twoUsers
       = (inr {| UserService.user := saved |},
          {| UserService.users :=
               {| TypeORM.rows := [Scenario.alice; Scenario.bob; saved];
                  TypeORM.nextId := 4 |};
             UserService.followers := TypeORM.empty |})
       /\ UserEntity.username saved = "carol"
       /\ UserEntity.email saved = "c@z.com".
Proof.
  split.
  - apply (proj1 (register_outcome string unit (fun s => s) Scenario.upload
                    Scenario.bucket Scenario.hash Scenario.twoUsers
                    (Scenario.newcomer "alice" "b@y.com" "p2" None) tt)).
    reflexivity.
  - destruct (proj2 (register_outcome string unit (fun s => s) Scenario.upload
                       Scenario.bucket Scenario.hash Scenario.twoUsers
                       (Scenario.newcomer "carol" "c@z.com" "p3"
                          (Some "body:image/png;base64,aGVsbG8=")) tt)
                eq_refl
                (or_intror
                   (ex_intro _ "body:image/png;base64,aGVsbG8="
                      (ex_intro _ "pictures/user/carol.png"
                         (conj eq_refl eq_refl)))))
      as (saved & Hrun & _ & Hname & Hmail).
    exists saved. split; [exact Hrun|]. split; assumption.
Defined.

(** C6 as stated fails on a fresh request that carries a profile image
    while no bucket name is configured: the upload rejects and no row is
    written. *)
Lemma register_upload_counterexample :
  existsb (UserService.whereTaken "carol" "c@z.com")
    (Store.userRows Scenario.twoUsers) = false
  /\ Scenario.register Scenario.noBucket
       (Scenario.newcomer "carol" "c@z.com" "p3"
          (Some "data:image/png;base64,aGVsbG8=")) Scenario.twoUsers
     = (inl (Nest.InternalServerErrorException None), Scenario.twoUsers).
Proof. split; reflexivity. Qed.

(** ** Vote rows *)

Section VoteFacts.

Import Nest CommentVoteService.

(** Among rows without clashes, the rows that satisfy a condition whose
    members all clash are at most the one member that satisfies it. *)
Lemma filter_distinct {A : Type} (clash : A -> A -> bool) (p : A -> bool)
  (l : list A) (x : A) :
  TypeORM.distinctBy clash l = true ->
  (forall a b, p a = true -> p b = true -> clash a b = true) ->
  In x l -> p x = true -> filter p l = [x].
Proof.
  intros Hd Hp. induction l as [|y l IH]; simpl; [contradiction|].
  simpl in Hd. apply andb_prop in Hd. destruct Hd as [Hy Hl].
  pose proof (proj1 (forallb_forall _ _) Hy) as Hfresh. cbv beta in Hfresh.
  intros Hin Hx. destruct (p y) eqn:Hpy.
  - assert (Hrest : filter p l = []).
    { apply filter_none. intros r Hr.
      destruct (p r) eqn:Hpr; [|reflexivity].
      specialize (Hfresh r Hr). rewrite (Hp y r Hpy Hpr) in Hfresh.
      discriminate. }
    rewrite Hrest. destruct Hin as [->|Hin]; [reflexivity|].
    specialize (Hfresh x Hin). rewrite (Hp y x Hpy Hx) in Hfresh.
    discriminate.
  - destruct Hin as [->|Hin]; [congruence|]. exact (IH Hl Hin Hx).
Qed.

Lemma whereVote_sameVote (userId commentId : Z) (a b : CommentVoteEntity.t) :
  whereVote userId commentId a = true ->
  whereVote userId commentId b = true ->
  sameVote a b = true.
Proof.
  unfold whereVote, sameVote. intros Ha Hb.
  apply andb_prop in Ha. apply andb_prop in Hb.
  destruct Ha as [Ha1 Ha2], Hb as [Hb1 Hb2].
  apply Z.eqb_eq in Ha1, Ha2, Hb1, Hb2.
  apply andb_true_intro. split; apply Z.eqb_eq; congruence.
Qed.

Lemma sameVote_sym (a b : CommentVoteEntity.t) : sameVote a b = sameVote b a.
Proof.
  unfold sameVote.
  rewrite (Z.eqb_sym (CommentVoteEntity.user a)),
    (Z.eqb_sym (CommentVoteEntity.comment a)). reflexivity.
Qed.

Lemma votes_parts (votes : TypeORM.Table CommentVoteEntity.t) :
  consistent votes = true ->
  TypeORM.keysBelow votes = true
  /\ TypeORM.distinctBy TypeORM.sameKey (TypeORM.rows votes) = true
  /\ TypeORM.distinctBy sameVote (TypeORM.rows votes) = true.
Proof.
  unfold consistent, TypeORM.primaryKey. intros Hc.
  apply andb_prop in Hc. destruct Hc as [Hpk Hv].
  apply andb_prop in Hpk. destruct Hpk. auto.
Qed.

(** In a consistent table a voter has at most one row per target. *)
Lemma consistent_at_most_one (votes : TypeORM.Table CommentVoteEntity.t)
  (userId commentId : Z) :
  consistent votes = true ->
  (List.length (votesOf userId commentId votes) <= 1)%nat.
Proof.
  intros Hc. destruct (votes_parts votes Hc) as (_ & _ & Hv).
  unfold votesOf.
  destruct (existsb (whereVote userId commentId) (TypeORM.rows votes)) eqn:Hex.
  - destruct (existsb_find _ _ Hex) as (x & _ & Hin & Hx).
    rewrite (filter_distinct sameVote _ _ x Hv
               (whereVote_sameVote userId commentId) Hin Hx).
    simpl. lia.
  - rewrite filter_none; [simpl; lia|].
    apply find_none_iff. apply existsb_false_find. exact Hex.
Qed.

(** [vote] keeps the table consistent, and the row it resolves with is
    stored, belongs to the voter and the target, and has the direction
    of the call. *)
Lemma vote_stores (votes : TypeORM.Table CommentVoteEntity.t)
  (userId commentId direction : Z) :
  consistent votes = true ->
  consistent (store (vote userId commentId direction votes)) = true
  /\ exists row,
       outcome (vote userId commentId direction votes) = inr row
       /\ In row (TypeORM.rows (store (vote userId commentId direction votes)))
       /\ whereVote userId commentId row = true
       /\ CommentVoteEntity.direction row = direction.
Proof.
  intros Hc. destruct (votes_parts votes Hc) as (Hkeys & Hpk & Hv).
  unfold vote, outcome, store. cbn. unfold TypeORM.tableFindOne.
  destruct (find (whereVote userId commentId) (TypeORM.rows votes))
    as [existing|] eqn:Hfind.
  - (* the row exists: its direction is overwritten in place *)
    destruct (find_some _ _ Hfind) as [Hin Hmatch].
    destruct (keysBelow_id votes existing Hkeys Hin) as (i & Hid).
    destruct (key_split _ existing i Hpk Hin Hid) as (l1 & l2 & Hrows & Hrest).
    set (row := CommentVoteEntity.withDirection direction existing).
    rewrite (tableSave_stored (H := CommentVoteEntity.entity)
               votes l1 l2 existing row i Hrows Hid Hid Hrest).
    cbn. split.
    + unfold consistent, TypeORM.primaryKey, TypeORM.keysBelow. cbn.
      unfold TypeORM.keysBelow in Hkeys. rewrite Hrows in Hkeys, Hpk, Hv.
      rewrite forallb_app in *. cbn in *. rewrite Hkeys.
      rewrite (distinctBy_replace TypeORM.sameKey sameKey_sym l1 l2 existing row Hpk)
        by (intros r _ Hr; exact Hr).
      rewrite (distinctBy_replace sameVote sameVote_sym l1 l2 existing row Hv)
        by (intros r _ Hr; exact Hr).
      reflexivity.
    + exists row. repeat split; auto using in_elt.
  - (* no row yet: one is appended under the next key *)
    set (row := {| CommentVoteEntity.id := Some (TypeORM.nextId votes);
                   CommentVoteEntity.direction := direction;
                   CommentVoteEntity.user := userId;
                   CommentVoteEntity.comment := commentId |}).
    split.
    + unfold consistent, TypeORM.primaryKey, TypeORM.keysBelow. cbn.
      rewrite forallb_app, !distinctBy_app_one. cbn.
      rewrite Hpk, Hv. cbn.
      replace (TypeORM.nextId votes <? TypeORM.nextId votes + 1) with true
        by (symmetry; apply Z.ltb_lt; lia).
      repeat (apply andb_true_intro; split); try reflexivity;
        apply forallb_forall; intros r Hr.
      * unfold TypeORM.keysBelow in Hkeys.
        pose proof (proj1 (forallb_forall _ _) Hkeys r Hr) as Hlt.
        cbv beta in Hlt. cbn in Hlt.
        destruct (CommentVoteEntity.id r); [|discriminate].
        apply Z.ltb_lt in Hlt. apply Z.ltb_lt. lia.
      * pose proof (keysBelow_fresh votes r Hkeys Hr) as Hfresh.
        unfold TypeORM.hasId in Hfresh. unfold TypeORM.sameKey. cbn in *.
        rewrite Hfresh. reflexivity.
      * pose proof (find_none _ _ Hfind r Hr) as Hno.
        unfold whereVote in Hno. unfold sameVote. cbn.
        rewrite Hno. reflexivity.
    + exists row. repeat split.
      * apply in_or_app. right. left. reflexivity.
      * unfold whereVote. cbn. rewrite !Z.eqb_refl. reflexivity.
Qed.

Lemma votes_reachable_consistent (votes : TypeORM.Table CommentVoteEntity.t) :
  reachable votes -> consistent votes = true.
Proof.
  induction 1 as [|votes userId commentId direction _ IH]; [reflexivity|].
  exact (proj1 (vote_stores votes userId commentId direction IH)).
Qed.

(** C5.  In every table the vote service can produce, a voter has at most
    one row per target; and after two votes of the same voter on the same
    target the voter has exactly one row for it, with the direction of
    the second vote. *)
Theorem vote_single_row (votes : TypeORM.Table CommentVoteEntity.t) :
  reachable votes ->
  (forall userId commentId,
      (List.length (votesOf userId commentId votes) <= 1)%nat)
  /\ (forall userId commentId first second,
        first <> second ->
        exists row,
          votesOf userId commentId
            (store (vote userId commentId second
                      (store (vote userId commentId first votes))))
          = [row]
          /\ CommentVoteEntity.direction row = second
          /\ CommentVoteEntity.user row = userId
          /\ CommentVoteEntity.comment row = commentId).
Proof.
  intros Hreach. pose proof (votes_reachable_consistent votes Hreach) as Hc. split.
  - intros userId commentId. apply consistent_at_most_one. exact Hc.
  - intros userId commentId first second _.
    destruct (vote_stores votes userId commentId first Hc) as (Hc1 & _).
    destruct (vote_stores _ userId commentId second Hc1)
      as (Hc2 & row & _ & Hin & Hmatch & Hdir).
    destruct (votes_parts _ Hc2) as (_ & _ & Hv).
    exists row. split.
    + unfold votesOf.
      exact (filter_distinct sameVote _ _ row Hv
               (whereVote_sameVote userId commentId) Hin Hmatch).
    + unfold whereVote in Hmatch. apply andb_prop in Hmatch.
      destruct Hmatch as [Hu Hcm]. apply Z.eqb_eq in Hu, Hcm. auto.
Qed.

End VoteFacts.

(** An upvote followed by a downvote on an empty table. *)
Lemma vote_single_row_witness :
  exists row,
    CommentVoteService.votesOf 2 7
      (Nest.store (CommentVoteService.vote 2 7 (-1)
                     (Nest.store (CommentVoteService.vote 2 7 1 TypeORM.empty))))
    = [row]
    /\ CommentVoteEntity.direction row = -1.
Proof.
  destruct (proj2 (vote_single_row TypeORM.empty
                     CommentVoteService.reachable_empty) 2 7 1 (-1))
    as (row & Hrows & Hdir & _).
  - discriminate.
  - exists row. split; assumption.
Defined.

(** ** Request context *)

Section ContextFacts.

Import RequestContext.

Variable Request Response number : Type.
Variable request_user : Request -> option UserEntity.t.
Variable nsid : string.

Let namespaces : Type :=
  list (string * Cls.Namespace (RequestContext.t Request Response number)).

Let context (n : namespaces) := currentRequestContext Request Response number nsid n.
Let request (n : namespaces) := currentRequest Request Response number nsid n.
Let user (n : namespaces) := currentUser Request Response number request_user nsid n.

(** Where the lookups agree with a [null] answer: without a bound record
    [currentRequest] and [currentUser] answer [null], and
    [currentRequestContext] answers [null] unless the namespace has an
    active context; with a bound record whose request has no user,
    [currentUser] answers [null]. *)
Lemma lookups_unbound (n : namespaces) :
  (bound Request Response number nsid n = false ->
   request n = Js.Null /\ user n = Js.Null
   /\ (context n = Js.Null
       \/ context n = Js.Undefined
          /\ exists session active,
               Cls.getNamespace nsid n = Some session
               /\ Cls.active session = Some active))
  /\ (forall requestContext,
        context n = Js.Value requestContext ->
        bound Request Response number nsid n = true
        /\ request n = Js.Value (RequestContext.request _ _ _ requestContext)
        /\ (request_user (RequestContext.request _ _ _ requestContext) = None ->
            user n = Js.Null)).
Proof.
  unfold context, request, user, currentUser, currentRequest,
    currentRequestContext, bound, Cls.get.
  destruct (Cls.getNamespace nsid n) as [session|].
  - destruct (Cls.active session) as [active|] eqn:Hactive.
    + destruct (Cls.assoc name active) as [requestContext|]; cbn.
      * split; [discriminate|]. intros rc Hrc. injection Hrc as <-.
        split; [reflexivity|]. split; [reflexivity|].
        intros Huser. rewrite Huser. reflexivity.
      * split; [|discriminate]. intros _.
        split; [reflexivity|]. split; [reflexivity|].
        right. split; [reflexivity|]. exists session, active. auto.
    + split; [|discriminate]. intros _. auto.
  - split; [|discriminate]. intros _. auto.
Qed.

End ContextFacts.


(** ** The invariants of the store *)

Section KeyFacts.

Context {E : Type} `{TypeORM.Entity E}.

Lemma forallb_filter (q p : E -> bool) (l : list E) :
  forallb q l = true -> forallb q (filter p l) = true.
Proof.
  intros Hq. apply forallb_forall. intros r Hr.
  apply filter_In in Hr. destruct Hr as [Hr _].
  exact (proj1 (forallb_forall _ _) Hq r Hr).
Qed.

Lemma primaryKey_filter (t : TypeORM.Table E) (p : E -> bool) :
  TypeORM.primaryKey t = true ->
  TypeORM.primaryKey
    {| TypeORM.rows := filter p (TypeORM.rows t);
       TypeORM.nextId := TypeORM.nextId t |} = true.
Proof.
  unfold TypeORM.primaryKey, TypeORM.keysBelow. cbn. intros Hpk.
  apply andb_prop in Hpk. destruct Hpk as [Hkeys Hd].
  rewrite (forallb_filter _ p _ Hkeys), (distinctBy_filter _ p _ Hd).
  reflexivity.
Qed.

Lemma primaryKey_replace (t : TypeORM.Table E) (l1 l2 : list E) (e e' : E) :
  TypeORM.primaryKey t = true ->
  TypeORM.rows t = l1 ++ e :: l2 ->
  TypeORM.entityId e' = TypeORM.entityId e ->
  TypeORM.primaryKey
    {| TypeORM.rows := l1 ++ e' :: l2; TypeORM.nextId := TypeORM.nextId t |} = true.
Proof.
  unfold TypeORM.primaryKey, TypeORM.keysBelow. cbn. intros Hpk Hrows Hid.
  rewrite Hrows in Hpk. apply andb_prop in Hpk. destruct Hpk as [Hkeys Hd].
  rewrite forallb_app in *. cbn in *. rewrite Hid, Hkeys.
  apply (distinctBy_replace TypeORM.sameKey sameKey_sym l1 l2 e e' Hd).
  intros r _. unfold TypeORM.sameKey. rewrite Hid. auto.
Qed.

Lemma primaryKey_append (t : TypeORM.Table E) (e : E) :
  TypeORM.primaryKey t = true ->
  TypeORM.entityId e = Some (TypeORM.nextId t) ->
  TypeORM.primaryKey
    {| TypeORM.rows := TypeORM.rows t ++ [e];
       TypeORM.nextId := TypeORM.nextId t + 1 |} = true.
Proof.
  unfold TypeORM.primaryKey. intros Hpk Hid.
  apply andb_prop in Hpk. destruct Hpk as [Hkeys Hd].
  apply andb_true_intro. split.
  - unfold TypeORM.keysBelow in *. cbn. rewrite forallb_app. cbn.
    rewrite Hid.
    replace (TypeORM.nextId t <? TypeORM.nextId t + 1) with true
      by (symmetry; apply Z.ltb_lt; lia).
    rewrite andb_true_r. apply forallb_forall. intros r Hr.
    pose proof (proj1 (forallb_forall _ _) Hkeys r Hr) as Hlt.
    cbv beta in Hlt. destruct (TypeORM.entityId r); [|discriminate].
    apply Z.ltb_lt in Hlt. apply Z.ltb_lt. lia.
  - cbn. rewrite distinctBy_app_one, Hd. cbn.
    apply forallb_forall. intros r Hr.
    pose proof (keysBelow_fresh t r Hkeys Hr) as Hfresh.
    unfold TypeORM.hasId in Hfresh. unfold TypeORM.sameKey.
    rewrite Hid, Hfresh. reflexivity.
Qed.

End KeyFacts.

Section StoreInvariant.

Import Nest UserService.

Lemma consistent_intro (db : Store.t) :
  TypeORM.primaryKey (users db) = true ->
  TypeORM.primaryKey (followers db) = true ->
  TypeORM.distinctBy Store.sameEdge (Store.followerRows db) = true ->
  TypeORM.distinctBy Store.sameIdentity (Store.userRows db) = true ->
  Store.consistent db = true.
Proof.
  unfold Store.consistent. intros -> -> -> ->. reflexivity.
Qed.

Lemma consistent_tables (db : Store.t) :
  Store.consistent db = true ->
  TypeORM.primaryKey (users db) = true
  /\ TypeORM.primaryKey (followers db) = true
  /\ TypeORM.distinctBy Store.sameEdge (Store.followerRows db) = true
  /\ TypeORM.distinctBy Store.sameIdentity (Store.userRows db) = true.
Proof.
  unfold Store.consistent. intros Hc.
  repeat match type of Hc with
         | _ && _ = true => apply andb_prop in Hc; destruct Hc as [Hc ?]
         end.
  auto.
Qed.

Lemma followAction_consistent (db : Store.t) (userId userToFollowId : Z) :
  Store.consistent db = true ->
  Store.consistent (store (followAction userId userToFollowId db)) = true.
Proof.
  intros Hc. destruct (consistent_tables db Hc) as (Hu & Hf & He & Hn).
  unfold followAction, bind, userRepository_findOne,
    followerRepository_findOne, followerRepository_delete,
    followerRepository_save, store. cbn. unfold TypeORM.tableFindOne.
  destruct (find (whereId userId) _); [|exact Hc].
  destruct (find (whereId userToFollowId) _); [|exact Hc].
  destruct (find (whereEdge userToFollowId userId) _) as [edge|] eqn:Hedge.
  - destruct (FollowerEntity.id edge) as [i|]; cbn.
    + match goal with
      | |- context [if ?c then _ else _] => destruct c
      end; cbn; apply consistent_intro; cbn;
        auto using primaryKey_filter, distinctBy_filter.
    + exact Hc.
  - cbn. apply consistent_intro; cbn; auto.
    + apply primaryKey_append; auto.
    + unfold Store.followerRows in *. cbn.
      rewrite distinctBy_app_one, He. cbn.
      apply forallb_forall. intros r Hr.
      pose proof (find_none _ _ Hedge r Hr) as Hno.
      unfold whereEdge in Hno. unfold Store.sameEdge. cbn.
      rewrite Hno. reflexivity.
Qed.

Lemma update_consistent (db : Store.t) (id : Z) (dto : UpdateUserDto.t) :
  Store.consistent db = true ->
  Store.consistent (store (update id dto db)) = true.
Proof.
  intros Hc. destruct (consistent_tables db Hc) as (Hu & Hf & He & Hn).
  destruct (find (whereId id) (Store.userRows db)) as [u|] eqn:Hfind.
  - destruct (update_in_place db id dto u Hc Hfind) as (l1 & l2 & Hrows & Hrun).
    cbv zeta in Hrun. rewrite Hrun. unfold store. cbn.
    apply consistent_intro; cbn; auto.
    + apply (primaryKey_replace (users db) l1 l2 u _ Hu Hrows).
      destruct (Js.truthy (UpdateUserDto.displayName dto)),
        (Js.truthy (UpdateUserDto.profileImage dto)),
        (Js.truthy (UpdateUserDto.bio dto)); reflexivity.
    + unfold Store.userRows in *. cbn. rewrite Hrows in Hn.
      apply (distinctBy_replace Store.sameIdentity sameIdentity_sym
               l1 l2 u _ Hn).
      intros r _. unfold Store.sameIdentity, Store.live.
      destruct (Js.truthy (UpdateUserDto.displayName dto)),
        (Js.truthy (UpdateUserDto.profileImage dto)),
        (Js.truthy (UpdateUserDto.bio dto)); cbn; auto.
  - unfold update, bind, userRepository_findOne, store. cbn.
    unfold TypeORM.tableFindOne. fold (Store.userRows db).
    rewrite Hfind. exact Hc.
Qed.

Lemma delete_consistent (db : Store.t) (now id : Z) :
  Store.consistent db = true ->
  Store.consistent (store (delete now id db)) = true.
Proof.
  intros Hc. destruct (consistent_tables db Hc) as (Hu & Hf & He & Hn).
  destruct (find (TypeORM.hasId id) (Store.userRows db)) as [u|] eqn:Hfind.
  - destruct (find_some _ _ Hfind) as [Hin Hkey].
    apply (hasId_true (H := UserEntity.entity)) in Hkey.
    destruct (resolved_split db id u Hc Hin Hkey) as (l1 & l2 & Hrows & Hrest).
    rewrite (delete_tombstones db now id u l1 l2 Hrows Hkey Hrest).
    unfold store. cbn. apply consistent_intro; cbn; auto.
    + apply (primaryKey_replace (users db) l1 l2 u _ Hu Hrows).
      cbn. symmetry. exact Hkey.
    + unfold Store.userRows in *. cbn. rewrite Hrows in Hn.
      apply (distinctBy_replace Store.sameIdentity sameIdentity_sym
               l1 l2 u _ Hn).
      intros r _. unfold Store.sameIdentity at 1. cbn. discriminate.
  - unfold delete, bind, userRepository_findOneById, store. cbn.
    unfold TypeORM.tableFindOneById. fold (Store.userRows db).
    rewrite Hfind. exact Hc.
Qed.

End StoreInvariant.

Section ReachableFacts.

Import Nest UserService.

Variable Buffer : Type.
Variable AwsS3UploadOptions : Type.
Variable bufferFromBase64 : string -> Buffer.
Variable awsS3Service_upload :
  AwsS3.PutObjectRequest Buffer -> AwsS3UploadOptions ->
  HttpException + AwsS3.ManagedUpload.
Variable configService_get : string -> option string.
Variable hash : string -> string.

Let register' :=
  register (UT := TypeORM.Table UserEntity.t) (FT := TypeORM.Table FollowerEntity.t)
    Buffer AwsS3UploadOptions bufferFromBase64 awsS3Service_upload
    configService_get hash.

Let uploadProfileImage' :=
  uploadProfileImage (UT := TypeORM.Table UserEntity.t)
    (FT := TypeORM.Table FollowerEntity.t)
    Buffer AwsS3UploadOptions bufferFromBase64 awsS3Service_upload
    configService_get.

(** The upload does not touch the tables. *)
Lemma uploadProfileImage_store (image username : string)
  (opts : AwsS3UploadOptions) (db : Store.t) :
  uploadProfileImage' image username opts db
  = (outcome (uploadProfileImage' image username opts db), db).
Proof.
  unfold uploadProfileImage', uploadProfileImage, outcome.
  destruct (configService_get "aws.s3BucketName") as [b|]; [|reflexivity].
  destruct (String.eqb b EmptyString); [reflexivity|].
  destruct (awsS3Service_upload _ opts); reflexivity.
Qed.

Lemma register_consistent (db : Store.t) (dto : RegisterUserDto.t)
  (opts : AwsS3UploadOptions) :
  Store.consistent db = true ->
  Store.consistent (store (register' dto opts db)) = true.
Proof.
  intros Hc. destruct (consistent_tables db Hc) as (Hu & Hf & He & Hn).
  pose proof (register_taken Buffer AwsS3UploadOptions bufferFromBase64
                awsS3Service_upload configService_get hash db dto opts)
    as Htaken.
  pose proof (register_fresh Buffer AwsS3UploadOptions bufferFromBase64
                awsS3Service_upload configService_get hash db dto opts)
    as Hfresh.
  fold register' in Htaken, Hfresh. fold uploadProfileImage' in Hfresh.
  destruct (existsb (whereTaken (RegisterUserDto.username dto)
                       (RegisterUserDto.email dto)) (Store.userRows db))
    eqn:Hex.
  { rewrite (Htaken eq_refl). exact Hc. }
  assert (Happended : forall saved,
    register' dto opts db
    = (inr {| user := saved |},
       {| users := {| TypeORM.rows := Store.userRows db ++ [saved];
                      TypeORM.nextId := TypeORM.nextId (users db) + 1 |};
          followers := followers db |}) ->
    UserEntity.id saved = Some (TypeORM.nextId (users db)) ->
    UserEntity.username saved = RegisterUserDto.username dto ->
    UserEntity.email saved = RegisterUserDto.email dto ->
    Store.consistent (store (register' dto opts db)) = true).
  { intros saved Hrun Hid Hname Hmail. rewrite Hrun. unfold store. cbn.
    apply consistent_intro; cbn; auto.
    - apply (primaryKey_append (users db) saved Hu Hid).
    - unfold Store.userRows in *. cbn. rewrite distinctBy_app_one, Hn. cbn.
      apply forallb_forall. intros r Hr.
      pose proof (find_none _ _ (existsb_false_find _ _ Hex) r Hr) as Hno.
      unfold whereTaken in Hno. unfold Store.sameIdentity.
      rewrite Hname, Hmail, Hno. rewrite andb_false_r. reflexivity. }
  destruct (Js.truthy (RegisterUserDto.profileImage dto)) eqn:Himage.
  - destruct (RegisterUserDto.profileImage dto) as [image|] eqn:Hdto;
      [|discriminate].
    destruct (outcome (uploadProfileImage' image (RegisterUserDto.username dto)
                         opts db)) as [e|key] eqn:Hup.
    + (* the upload rejects: nothing is written *)
      unfold register', register, bind, userRepository_findOne, store. cbn.
      unfold TypeORM.tableFindOne. fold (Store.userRows db).
      rewrite (existsb_false_find _ _ Hex), Hdto, Himage.
      fold uploadProfileImage'.
      rewrite uploadProfileImage_store, Hup. exact Hc.
    + destruct (Hfresh eq_refl
                  (or_intror (ex_intro _ image (ex_intro _ key (conj eq_refl Hup)))))
        as (saved & Hrun & Hid & Hname & Hmail).
      exact (Happended saved Hrun Hid Hname Hmail).
  - destruct (Hfresh eq_refl (or_introl eq_refl))
      as (saved & Hrun & Hid & Hname & Hmail).
    exact (Happended saved Hrun Hid Hname Hmail).
Qed.

(** Every store the service can leave behind satisfies the data-model
    invariants. *)
Lemma store_reachable_consistent (db : Store.t) :
  Store.reachable Buffer AwsS3UploadOptions bufferFromBase64
    awsS3Service_upload configService_get hash db ->
  Store.consistent db = true.
Proof.
  induction 1 as [|dto opts db _ IH|id dto db _ IH|now id db _ IH|u t db _ IH].
  - reflexivity.
  - exact (register_consistent db dto opts IH).
  - exact (update_consistent db id dto IH).
  - exact (delete_consistent db now id IH).
  - exact (followAction_consistent db u t IH).
Qed.

End ReachableFacts.

(** * Further properties of the service *)

(** ** Registration, case by case *)

Section RegisterCases.

Import Nest UserService.

Variable Buffer : Type.
Variable AwsS3UploadOptions : Type.
Variable bufferFromBase64 : string -> Buffer.
Variable awsS3Service_upload :
  AwsS3.PutObjectRequest Buffer -> AwsS3UploadOptions ->
  HttpException + AwsS3.ManagedUpload.
Variable configService_get : string -> option string.
Variable hash : string -> string.

Let register' :=
  register (UT := TypeORM.Table UserEntity.t) (FT := TypeORM.Table FollowerEntity.t)
    Buffer AwsS3UploadOptions bufferFromBase64 awsS3Service_upload
    configService_get hash.

Let uploadProfileImage' :=
  uploadProfileImage (UT := TypeORM.Table UserEntity.t)
    (FT := TypeORM.Table FollowerEntity.t)
    Buffer AwsS3UploadOptions bufferFromBase64 awsS3Service_upload
    configService_get.

(** The row a successful registration stores, given the image
    reference [image]. *)
Let registered (db : Store.t) (dto : RegisterUserDto.t) (image : option string)
  : UserEntity.t :=
  {| UserEntity.id := Some (TypeORM.nextId (users db));
     UserEntity.username := RegisterUserDto.username dto;
     UserEntity.email := RegisterUserDto.email dto;
     UserEntity.password := hash (RegisterUserDto.password dto);
     UserEntity.displayName :=
       if Js.truthy (RegisterUserDto.displayName dto)
       then RegisterUserDto.displayName dto else None;
     UserEntity.profileImage := image;
     UserEntity.bio :=
       if Js.truthy (RegisterUserDto.bio dto)
       then RegisterUserDto.bio dto else None;
     UserEntity.deletedAt := None |}.

Let appended (db : Store.t) (row : UserEntity.t) : Store.t :=
  {| users := {| TypeORM.rows := Store.userRows db ++ [row];
                 TypeORM.nextId := TypeORM.nextId (users db) + 1 |};
     followers := followers db |}.

Let fresh (db : Store.t) (dto : RegisterUserDto.t) : Prop :=
  existsb (whereTaken (RegisterUserDto.username dto) (RegisterUserDto.email dto))
    (Store.userRows db) = false.

(** Fresh, and no image to upload. *)
Lemma register_without_image (db : Store.t) (dto : RegisterUserDto.t)
  (opts : AwsS3UploadOptions) :
  fresh db dto ->
  Js.truthy (RegisterUserDto.profileImage dto) = false ->
  register' dto opts db
  = (inr {| user := registered db dto None |}, appended db (registered db dto None)).
Proof.
  unfold fresh. intros Hfresh Hnone. apply existsb_false_find in Hfresh.
  unfold register', register, bind, userRepository_findOne,
    userRepository_save. cbn.
  unfold TypeORM.tableFindOne. fold (Store.userRows db). rewrite Hfresh.
  unfold registered, appended.
  destruct (RegisterUserDto.profileImage dto) as [image|];
    [rewrite Hnone|];
    destruct (Js.truthy (RegisterUserDto.displayName dto)),
      (Js.truthy (RegisterUserDto.bio dto)); reflexivity.
Qed.

(** Fresh, with an image whose upload resolves with [key]. *)
Lemma register_with_image (db : Store.t) (dto : RegisterUserDto.t)
  (opts : AwsS3UploadOptions) (image key : string) :
  fresh db dto ->
  RegisterUserDto.profileImage dto = Some image ->
  Js.truthy (Some image) = true ->
  outcome (uploadProfileImage' image (RegisterUserDto.username dto) opts db)
  = inr key ->
  register' dto opts db
  = (inr {| user := registered db dto (Some key) |},
     appended db (registered db dto (Some key))).
Proof.
  unfold fresh. intros Hfresh Himage Htruthy Hup.
  apply existsb_false_find in Hfresh.
  apply (uploadProfileImage_resolves Buffer AwsS3UploadOptions bufferFromBase64
           awsS3Service_upload configService_get) in Hup.
  unfold register', register, bind, userRepository_findOne,
    userRepository_save. cbn.
  unfold TypeORM.tableFindOne. fold (Store.userRows db).
  rewrite Hfresh, Himage, Htruthy, Hup.
  unfold registered, appended.
  destruct (Js.truthy (RegisterUserDto.displayName dto)),
    (Js.truthy (RegisterUserDto.bio dto)); reflexivity.
Qed.

(** Fresh, with an image whose upload rejects. *)
Lemma register_upload_rejects (db : Store.t) (dto : RegisterUserDto.t)
  (opts : AwsS3UploadOptions) (image : string) (e : HttpException) :
  fresh db dto ->
  RegisterUserDto.profileImage dto = Some image ->
  Js.truthy (Some image) = true ->
  outcome (uploadProfileImage' image (RegisterUserDto.username dto) opts db)
  = inl e ->
  register' dto opts db = (inl e, db).
Proof.
  unfold fresh. intros Hfresh Himage Htruthy Hup.
  apply existsb_false_find in Hfresh.
  unfold register', register, bind, userRepository_findOne. cbn.
  unfold TypeORM.tableFindOne. fold (Store.userRows db).
  rewrite Hfresh, Himage, Htruthy.
  pose proof (uploadProfileImage_store Buffer AwsS3UploadOptions
                bufferFromBase64 awsS3Service_upload configService_get
                image (RegisterUserDto.username dto) opts db) as Hstore.
  cbv zeta in Hstore. fold uploadProfileImage' in Hstore.
  unfold uploadProfileImage' in Hstore, Hup. rewrite Hstore, Hup.
  destruct (Js.truthy (RegisterUserDto.displayName dto)); reflexivity.
Qed.

(** The four ways [register] ends. *)
Lemma register_cases (db : Store.t) (dto : RegisterUserDto.t)
  (opts : AwsS3UploadOptions) :
  (fresh db dto -> False)
  /\ register' dto opts db
     = (inl (BadRequestException "Email or Username is already taken"
                                 "Validation failed"), db)
  \/ fresh db dto
     /\ Js.truthy (RegisterUserDto.profileImage dto) = false
     /\ register' dto opts db
        = (inr {| user := registered db dto None |},
           appended db (registered db dto None))
  \/ (exists image key,
        fresh db dto
        /\ RegisterUserDto.profileImage dto = Some image
        /\ outcome (uploadProfileImage' image (RegisterUserDto.username dto)
                      opts db) = inr key
        /\ register' dto opts db
           = (inr {| user := registered db dto (Some key) |},
              appended db (registered db dto (Some key))))
  \/ (exists image e,
        fresh db dto
        /\ RegisterUserDto.profileImage dto = Some image
        /\ outcome (uploadProfileImage' image (RegisterUserDto.username dto)
                      opts db) = inl e
        /\ register' dto opts db = (inl e, db)).
Proof.
  destruct (existsb (whereTaken (RegisterUserDto.username dto)
                       (RegisterUserDto.email dto)) (Store.userRows db))
    eqn:Hex.
  - left. split.
    + unfold fresh. rewrite Hex. discriminate.
    + exact (register_taken Buffer AwsS3UploadOptions bufferFromBase64
               awsS3Service_upload configService_get hash db dto opts Hex).
  - right. destruct (Js.truthy (RegisterUserDto.profileImage dto)) eqn:Htruthy.
    + right. destruct (RegisterUserDto.profileImage dto) as [image|] eqn:Himage;
        [|discriminate].
      destruct (outcome (uploadProfileImage' image
                           (RegisterUserDto.username dto) opts db))
        as [e|key] eqn:Hup.
      * right. exists image, e. repeat split; auto.
        exact (register_upload_rejects db dto opts image e Hex Himage Htruthy Hup).
      * left. exists image, key. repeat split; auto.
        exact (register_with_image db dto opts image key Hex Himage Htruthy Hup).
    + left. repeat split; auto.
      exact (register_without_image db dto opts Hex Htruthy).
Qed.

Variable verify : string -> string -> bool.

(** A registration that resolves found username and email fresh, and
    stored one of the two rows. *)
Lemma register_resolved (db : Store.t) (dto : RegisterUserDto.t)
  (opts : AwsS3UploadOptions) (body : UserBody) :
  outcome (register' dto opts db) = inr body ->
  fresh db dto
  /\ register' dto opts db = (inr body, appended db (user body))
  /\ (Js.truthy (RegisterUserDto.profileImage dto) = false
      /\ user body = registered db dto None
      \/ exists image key,
           RegisterUserDto.profileImage dto = Some image
           /\ outcome (uploadProfileImage' image (RegisterUserDto.username dto)
                         opts db) = inr key
           /\ user body = registered db dto (Some key)).
Proof.
  intros Hout.
  destruct (register_cases db dto opts)
    as [(_ & Hrun)|[(Hfresh & Hnone & Hrun)
       |[(image & key & Hfresh & Himage & Hup & Hrun)
        |(image & e & _ & _ & _ & Hrun)]]];
    rewrite Hrun in Hout |- *; unfold outcome in Hout; cbn in Hout;
    try discriminate; injection Hout as <-; cbn.
  - split; [exact Hfresh|]. split; [reflexivity|]. left. auto.
  - split; [exact Hfresh|]. split; [reflexivity|]. right.
    exists image, key. auto.
Qed.

(** X1.  What a successful [register] stores: one appended row under the
    next key, with the username and email of the request, the hash of its
    password and no tombstone; optional fields that are falsy in the
    request stay unset; the image reference is the key the upload
    resolved with, never the payload. *)
Theorem register_stores (db : Store.t) (dto : RegisterUserDto.t)
  (opts : AwsS3UploadOptions) (body : UserBody) :
  outcome (register' dto opts db) = inr body ->
  Store.userRows (store (register' dto opts db)) = Store.userRows db ++ [user body]
  /\ followers (store (register' dto opts db)) = followers db
  /\ UserEntity.id (user body) = Some (TypeORM.nextId (users db))
  /\ UserEntity.username (user body) = RegisterUserDto.username dto
  /\ UserEntity.email (user body) = RegisterUserDto.email dto
  /\ UserEntity.password (user body) = hash (RegisterUserDto.password dto)
  /\ UserEntity.deletedAt (user body) = None
  /\ UserEntity.displayName (user body)
     = (if Js.truthy (RegisterUserDto.displayName dto)
        then RegisterUserDto.displayName dto else None)
  /\ UserEntity.bio (user body)
     = (if Js.truthy (RegisterUserDto.bio dto)
        then RegisterUserDto.bio dto else None)
  /\ (Js.truthy (RegisterUserDto.profileImage dto) = false
      /\ UserEntity.profileImage (user body) = None
      \/ exists image key,
           RegisterUserDto.profileImage dto = Some image
           /\ outcome (uploadProfileImage' image (RegisterUserDto.username dto)
                         opts db) = inr key
           /\ UserEntity.profileImage (user body) = Some key).
Proof.
  intros Hout.
  destruct (register_resolved db dto opts body Hout) as (_ & Hrun & Hrow).
  rewrite Hrun. unfold store, appended. cbn.
  destruct Hrow as [(Hnone & ->)|(image & key & Himage & Hup & ->)];
    unfold registered; cbn; repeat split; auto.
  right. exists image, key. auto.
Qed.

(** X2.  A [register] that rejects has written nothing, and it rejects
    either with the validation failure or with the exception of the
    upload. *)
Theorem register_rejects_clean (db : Store.t) (dto : RegisterUserDto.t)
  (opts : AwsS3UploadOptions) (e : HttpException) :
  outcome (register' dto opts db) = inl e ->
  store (register' dto opts db) = db
  /\ (e = BadRequestException "Email or Username is already taken"
                              "Validation failed"
      \/ exists image,
           RegisterUserDto.profileImage dto = Some image
           /\ outcome (uploadProfileImage' image (RegisterUserDto.username dto)
                         opts db) = inl e).
Proof.
  intros Hout.
  destruct (register_cases db dto opts)
    as [(_ & Hrun)|[(_ & _ & Hrun)
       |[(image & key & _ & _ & _ & Hrun)
        |(image & e' & _ & Himage & Hup & Hrun)]]];
    rewrite Hrun in Hout |- *; unfold outcome in Hout; cbn in Hout;
    try discriminate; injection Hout as <-; split; try reflexivity.
  - left. reflexivity.
  - right. exists image. auto.
Qed.

(** After a registration, a lookup that only accepts rows with the new
    username or the new email finds the new row. *)
Lemma find_registered (db : Store.t) (dto : RegisterUserDto.t)
  (row : UserEntity.t) (conditions : UserEntity.t -> bool) :
  fresh db dto ->
  (forall r, conditions r = true ->
     whereTaken (RegisterUserDto.username dto) (RegisterUserDto.email dto) r = true) ->
  conditions row = true ->
  find conditions (Store.userRows db ++ [row]) = Some row.
Proof.
  unfold fresh. intros Hfresh Hcond Hrow. rewrite find_app.
  replace (find conditions (Store.userRows db)) with (@None UserEntity.t).
  - cbn. rewrite Hrow. reflexivity.
  - symmetry. apply find_none_iff. intros r Hr.
    destruct (conditions r) eqn:Hc; [|reflexivity].
    pose proof (find_none _ _ (existsb_false_find _ _ Hfresh) r Hr) as Hno.
    rewrite (Hcond r Hc) in Hno. discriminate.
Qed.

(** X3.  Round trip of a registration: the row [register] resolves with
    is the one [findOneByUsername] and [findOneByEmail] resolve with for
    the username and email of the request, and, when the stored keys are
    below the next key, the one [findOne] resolves with for its id. *)
Theorem register_then_find (db : Store.t) (dto : RegisterUserDto.t)
  (opts : AwsS3UploadOptions) (body : UserBody) :
  outcome (register' dto opts db) = inr body ->
  let db' := store (register' dto opts db) in
  findOneByUsername (RegisterUserDto.username dto) db' = (inr body, db')
  /\ findOneByEmail (RegisterUserDto.email dto) db' = (inr body, db')
  /\ (TypeORM.keysBelow (users db) = true ->
      findOne (TypeORM.nextId (users db)) db' = (inr body, db')).
Proof.
  intros Hout db'.
  destruct (register_resolved db dto opts body Hout) as (Hfresh & Hrun & Hrow).
  assert (Hfields :
    UserEntity.username (user body) = RegisterUserDto.username dto
    /\ UserEntity.email (user body) = RegisterUserDto.email dto
    /\ UserEntity.deletedAt (user body) = None
    /\ UserEntity.id (user body) = Some (TypeORM.nextId (users db))).
  { destruct Hrow as [(_ & ->)|(image & key & _ & _ & ->)];
      repeat split; reflexivity. }
  destruct Hfields as (Hname & Hmail & Hlive & Hid).
  unfold db'. rewrite Hrun. unfold store, appended. cbn [snd].
  unfold findOneByUsername, findOneByEmail, findOne, bind,
    userRepository_findOne. cbn. unfold TypeORM.tableFindOne. cbn.
  destruct body as [row]. cbn in *.
  rewrite (find_registered db dto row
             (whereUsername (RegisterUserDto.username dto)) Hfresh).
  - rewrite (find_registered db dto row
               (whereEmail (RegisterUserDto.email dto)) Hfresh).
    + split; [reflexivity|]. split; [reflexivity|]. intros Hkeys.
      rewrite find_app.
      replace (find (whereId (TypeORM.nextId (users db))) (Store.userRows db))
        with (@None UserEntity.t).
      * cbn. unfold whereId, TypeORM.hasId. cbn.
        rewrite Hid, Hlive. cbn. rewrite Z.eqb_refl. reflexivity.
      * symmetry. apply find_none_iff. intros r Hr. unfold whereId.
        rewrite (keysBelow_fresh (users db) r Hkeys Hr). reflexivity.
    + intros r Hr. unfold whereEmail in Hr. apply andb_prop in Hr.
      destruct Hr as [Hr _]. unfold whereTaken. rewrite Hr.
      apply orb_true_r.
    + unfold whereEmail. rewrite Hmail, Hlive, String.eqb_refl. reflexivity.
  - intros r Hr. unfold whereUsername in Hr. apply andb_prop in Hr.
    destruct Hr as [Hr _]. unfold whereTaken. rewrite Hr. reflexivity.
  - unfold whereUsername. rewrite Hname, Hlive, String.eqb_refl. reflexivity.
Qed.

(** X4.  Round trip of the credentials: with a verifier that accepts
    the hashes of [hash], a [login] with the username and password of a
    registration that resolved resolves with the registered row and
    leaves the store as it is. *)
Theorem register_then_login (db : Store.t) (dto : RegisterUserDto.t)
  (opts : AwsS3UploadOptions) (body : UserBody) :
  (forall password, verify (hash password) password = true) ->
  outcome (register' dto opts db) = inr body ->
  let db' := store (register' dto opts db) in
  login verify
    {| LoginUserDto.username := RegisterUserDto.username dto;
       LoginUserDto.password := RegisterUserDto.password dto |} db'
  = (inr body, db').
Proof.
  intros Hverify Hout db'.
  destruct (register_resolved db dto opts body Hout) as (Hfresh & Hrun & Hrow).
  assert (Hfields :
    UserEntity.username (user body) = RegisterUserDto.username dto
    /\ UserEntity.deletedAt (user body) = None
    /\ UserEntity.password (user body) = hash (RegisterUserDto.password dto)).
  { destruct Hrow as [(_ & ->)|(image & key & _ & _ & ->)];
      repeat split; reflexivity. }
  destruct Hfields as (Hname & Hlive & Hpass).
  unfold db'. rewrite Hrun. unfold store, appended. cbn [snd].
  unfold login, bind, userRepository_findOne. cbn.
  unfold TypeORM.tableFindOne. cbn.
  destruct body as [row]. cbn in *.
  rewrite (find_registered db dto row
             (whereUsername (RegisterUserDto.username dto)) Hfresh).
  - cbn.
    rewrite (find_registered db dto row
               (whereUsername (RegisterUserDto.username dto)) Hfresh).
    + rewrite Hpass, Hverify. reflexivity.
    + intros r Hr. unfold whereUsername in Hr. apply andb_prop in Hr.
      destruct Hr as [Hr _]. unfold whereTaken. rewrite Hr. reflexivity.
    + unfold whereUsername. rewrite Hname, Hlive, String.eqb_refl. reflexivity.
  - intros r Hr. unfold whereUsername in Hr. apply andb_prop in Hr.
    destruct Hr as [Hr _]. unfold whereTaken. rewrite Hr. reflexivity.
  - unfold whereUsername. rewrite Hname, Hlive, String.eqb_refl. reflexivity.
Qed.

End RegisterCases.

(** Carol registers in the sample store. *)
Lemma register_stores_witness :
  Nest.outcome (Scenario.register Scenario.noBucket Samples.carol Scenario.twoUsers)
  = inr {| UserService.user := Samples.carolRow |}
  /\ Store.userRows
       (Nest.store (Scenario.register Scenario.noBucket Samples.carol
                      Scenario.twoUsers))
     = Store.userRows Scenario.twoUsers ++ [Samples.carolRow]
  /\ UserEntity.password Samples.carolRow = Scenario.hash "p3".
Proof.
  destruct (register_stores string unit (fun s => s) Scenario.upload
              Scenario.noBucket Scenario.hash Scenario.twoUsers Samples.carol tt
              {| UserService.user := Samples.carolRow |} eq_refl)
    as (Hrows & _ & _ & _ & _ & Hpass & _).
  split; [reflexivity|]. split; [exact Hrows|exact Hpass].
Defined.

(** A request for a stored email is turned away before its image is
    uploaded. *)
Lemma register_rejects_clean_witness :
  Nest.outcome (Scenario.register Scenario.bucket Samples.impostor Scenario.twoUsers)
  = inl (Nest.BadRequestException "Email or Username is already taken"
                                  "Validation failed")
  /\ Nest.store (Scenario.register Scenario.bucket Samples.impostor Scenario.twoUsers)
     = Scenario.twoUsers.
Proof.
  destruct (register_rejects_clean string unit (fun s => s) Scenario.upload
              Scenario.bucket Scenario.hash Scenario.twoUsers Samples.impostor tt
              _ eq_refl) as (Hstore & _).
  split; [reflexivity|exact Hstore].
Defined.

(** Carol is found by name after she registered. *)
Lemma register_then_find_witness :
  UserService.findOneByUsername "carol"
    (Nest.store (Scenario.register Scenario.noBucket Samples.carol Scenario.twoUsers))
  = (inr {| UserService.user := Samples.carolRow |},
     Nest.store (Scenario.register Scenario.noBucket Samples.carol Scenario.twoUsers)).
Proof.
  exact (proj1 (register_then_find string unit (fun s => s) Scenario.upload
                  Scenario.noBucket Scenario.hash Scenario.twoUsers Samples.carol tt
                  {| UserService.user := Samples.carolRow |} eq_refl)).
Defined.

(** Carol logs in with the password she registered with. *)
Lemma register_then_login_witness :
  UserService.login Samples.verify Samples.carolLogin
    (Nest.store (Scenario.register Scenario.noBucket Samples.carol Scenario.twoUsers))
  = (inr {| UserService.user := Samples.carolRow |},
     Nest.store (Scenario.register Scenario.noBucket Samples.carol Scenario.twoUsers)).
Proof.
  apply (register_then_login string unit (fun s => s) Scenario.upload
           Scenario.noBucket Scenario.hash Samples.verify Scenario.twoUsers
           Samples.carol tt {| UserService.user := Samples.carolRow |}).
  - intros password. unfold Samples.verify. apply String.eqb_refl.
  - reflexivity.
Defined.

(** ** Login and the lookups *)

Section LookupFacts.

Import Nest UserService.

Variable verify : string -> string -> bool.

(** X5.  [login] never writes, and it ends in one of two ways: with the
    one exception [UnauthorizedException('Invalid credentials')], whether
    the username is unknown, the principal tombstoned or the password
    wrong, or with a stored row that has the username of the request, no
    tombstone, and a password hash the verifier accepts. *)
Theorem login_outcomes (db : Store.t) (dto : LoginUserDto.t) :
  store (login verify dto db) = db
  /\ (outcome (login verify dto db)
      = inl (UnauthorizedException "Invalid credentials")
      \/ exists u,
           outcome (login verify dto db) = inr {| user := u |}
           /\ In u (Store.userRows db)
           /\ UserEntity.username u = LoginUserDto.username dto
           /\ UserEntity.deletedAt u = None
           /\ verify (UserEntity.password u) (LoginUserDto.password dto) = true).
Proof.
  unfold login, bind, userRepository_findOne, store, outcome. cbn.
  unfold TypeORM.tableFindOne, Store.userRows.
  destruct (find (whereUsername (LoginUserDto.username dto))
              (TypeORM.rows (users db))) as [u|] eqn:Hfind; cbn.
  - rewrite Hfind. destruct (find_some _ _ Hfind) as [Hin Hw].
    unfold whereUsername in Hw. apply andb_prop in Hw. destruct Hw as [Hname Hlive].
    apply String.eqb_eq in Hname.
    destruct (verify (UserEntity.password u) (LoginUserDto.password dto))
      eqn:Hverify; cbn.
    + split; [reflexivity|]. right. exists u. repeat split; auto.
      destruct (UserEntity.deletedAt u); [discriminate|reflexivity].
    + split; [reflexivity|]. left. reflexivity.
  - split; [reflexivity|]. left. reflexivity.
Qed.

(** A lookup whose conditions single out one stored row finds it. *)
Lemma find_only (conditions : UserEntity.t -> bool) (l : list UserEntity.t)
  (u : UserEntity.t) :
  In u l -> conditions u = true ->
  (forall r, In r l -> conditions r = true -> r = u) ->
  find conditions l = Some u.
Proof.
  intros Hin Hu Honly.
  destruct (find conditions l) as [r|] eqn:Hfind.
  - destruct (find_some _ _ Hfind) as [Hr Hc]. rewrite (Honly r Hr Hc).
    reflexivity.
  - rewrite (find_none _ _ Hfind u Hin) in Hu. discriminate.
Qed.

Lemma live_identity (db : Store.t) (u r : UserEntity.t) :
  Store.consistent db = true ->
  In u (Store.userRows db) -> In r (Store.userRows db) ->
  Store.live u = true -> Store.live r = true ->
  UserEntity.username r = UserEntity.username u
  \/ UserEntity.email r = UserEntity.email u ->
  r = u.
Proof.
  intros Hc Hu Hr Hlu Hlr Hsame.
  destruct (consistent_parts db Hc) as (_ & _ & _ & Hnames).
  symmetry.
  apply (distinctBy_clash Store.sameIdentity sameIdentity_sym
           (Store.userRows db) u r Hnames Hu Hr).
  unfold Store.sameIdentity. rewrite Hlu, Hlr. cbn.
  destruct Hsame as [<-|<-]; rewrite String.eqb_refl;
    [reflexivity|apply orb_true_r].
Qed.

(** X6.  In a consistent store the id, the email and the username of a
    stored row without tombstone each lead back to that row: [findOne],
    [findOneByEmail] and [findOneByUsername] resolve with it and leave the
    store as it is. *)
Theorem lookups_return_row (db : Store.t) (u : UserEntity.t) (id : Z) :
  Store.consistent db = true ->
  In u (Store.userRows db) ->
  UserEntity.id u = Some id ->
  UserEntity.deletedAt u = None ->
  findOne id db = (inr {| user := u |}, db)
  /\ findOneByEmail (UserEntity.email u) db = (inr {| user := u |}, db)
  /\ findOneByUsername (UserEntity.username u) db = (inr {| user := u |}, db).
Proof.
  intros Hc Hin Hid Hlive.
  assert (Hl : Store.live u = true) by (unfold Store.live; rewrite Hlive; reflexivity).
  unfold findOne, findOneByEmail, findOneByUsername, bind,
    userRepository_findOne. cbn.
  unfold TypeORM.tableFindOne. fold (Store.userRows db).
  rewrite (find_only (whereId id) (Store.userRows db) u Hin).
  - rewrite (find_only (whereEmail (UserEntity.email u)) (Store.userRows db) u Hin).
    + rewrite (find_only (whereUsername (UserEntity.username u))
                 (Store.userRows db) u Hin).
      * repeat split; reflexivity.
      * unfold whereUsername. rewrite String.eqb_refl, Hlive. reflexivity.
      * intros r Hr Hw. unfold whereUsername in Hw. apply andb_prop in Hw.
        destruct Hw as [Hname Hlr]. apply String.eqb_eq in Hname.
        apply (live_identity db u r Hc Hin Hr Hl Hlr). left. exact Hname.
    + unfold whereEmail. rewrite String.eqb_refl, Hlive. reflexivity.
    + intros r Hr Hw. unfold whereEmail in Hw. apply andb_prop in Hw.
      destruct Hw as [Hmail Hlr]. apply String.eqb_eq in Hmail.
      apply (live_identity db u r Hc Hin Hr Hl Hlr). right. exact Hmail.
  - unfold whereId. rewrite Hlive.
    rewrite (proj2 (hasId_true (H := UserEntity.entity) id u) Hid). reflexivity.
  - intros r Hr Hw. destruct (whereId_id id r Hw) as [Hrid _].
    destruct (consistent_parts db Hc) as ((_ & Hpk) & _).
    symmetry.
    apply (distinctBy_clash TypeORM.sameKey sameKey_sym (Store.userRows db)
             u r Hpk Hin Hr).
    unfold TypeORM.sameKey. apply sameNumber_true. cbn. congruence.
Qed.

End LookupFacts.

(** Bob is found by his email and by his id. *)
Lemma lookups_return_row_witness :
  UserService.findOneByEmail "b@y.com" Scenario.twoUsers
  = (inr {| UserService.user := Scenario.bob |}, Scenario.twoUsers)
  /\ UserService.findOne 2 Scenario.twoUsers
     = (inr {| UserService.user := Scenario.bob |}, Scenario.twoUsers).
Proof.
  destruct (lookups_return_row Scenario.twoUsers Scenario.bob 2 eq_refl
              (or_intror (or_introl eq_refl)) eq_refl eq_refl)
    as (Hid & Hmail & _).
  split; [exact Hmail|exact Hid].
Defined.

(** ** Overwriting the rows under a key *)

Section OverwriteFacts.

Context {E : Type} `{TypeORM.Entity E}.

(** The rows of [l] with the rows under key [i] replaced by [e]. *)
Let replaced (i : Z) (e : E) (l : list E) : list E :=
  map (fun r => if TypeORM.hasId i r then e else r) l.

Lemma tableSave_over (t : TypeORM.Table E) (e : E) (i : Z) :
  TypeORM.entityId e = Some i ->
  existsb (TypeORM.hasId i) (TypeORM.rows t) = true ->
  TypeORM.tableSave e t
  = (e, {| TypeORM.rows := replaced i e (TypeORM.rows t);
           TypeORM.nextId := TypeORM.nextId t |}).
Proof.
  intros Hid Hex. unfold TypeORM.tableSave. rewrite Hid, Hex. reflexivity.
Qed.

(** After the overwrite, a lookup that only accepts rows under the key
    and accepts the new row finds the new row. *)
Lemma find_replaced (conditions : E -> bool) (l : list E) (e : E) (i : Z) :
  existsb (TypeORM.hasId i) l = true ->
  conditions e = true ->
  (forall r, conditions r = true -> TypeORM.hasId i r = true) ->
  find conditions (replaced i e l) = Some e.
Proof.
  intros Hex He Honly. induction l as [|r l IH]; cbn in *; [discriminate|].
  destruct (TypeORM.hasId i r) eqn:Hr.
  - rewrite He. reflexivity.
  - destruct (conditions r) eqn:Hc.
    + rewrite (Honly r Hc) in Hr. discriminate.
    + apply IH. exact Hex.
Qed.

(** Overwriting twice under one key is overwriting with the second row. *)
Lemma replaced_twice (l : list E) (e e' : E) (i : Z) :
  TypeORM.hasId i e = true ->
  replaced i e' (replaced i e l) = replaced i e' l.
Proof.
  intros He. unfold replaced. rewrite map_map. apply map_ext. intros r.
  destruct (TypeORM.hasId i r) eqn:Hr; [rewrite He|rewrite Hr]; reflexivity.
Qed.

Lemma replaced_keys (l : list E) (e : E) (i : Z) :
  TypeORM.entityId e = Some i ->
  map TypeORM.entityId (replaced i e l) = map TypeORM.entityId l.
Proof.
  intros He. unfold replaced. rewrite map_map. apply map_ext. intros r.
  destruct (TypeORM.hasId i r) eqn:Hr; [|reflexivity].
  apply hasId_true in Hr. congruence.
Qed.

Lemma replaced_exists (l : list E) (e : E) (i : Z) :
  TypeORM.hasId i e = true ->
  existsb (TypeORM.hasId i) (replaced i e l) = existsb (TypeORM.hasId i) l.
Proof.
  intros He. induction l as [|r l IH]; cbn; [reflexivity|].
  destruct (TypeORM.hasId i r) eqn:Hr; [rewrite He|rewrite Hr]; cbn;
    [reflexivity|exact IH].
Qed.

End OverwriteFacts.

(** ** Update and delete on any store *)

Section UpdateDeleteFacts.

Import Nest UserService.

(** The stored row after the three conditional assignments of [update]. *)
Let patched (dto : UpdateUserDto.t) (u : UserEntity.t) : UserEntity.t :=
  let u1 := if Js.truthy (UpdateUserDto.displayName dto)
            then UserEntity.withDisplayName (UpdateUserDto.displayName dto) u
            else u in
  let u2 := if Js.truthy (UpdateUserDto.profileImage dto)
            then UserEntity.withProfileImage (UpdateUserDto.profileImage dto) u1
            else u1 in
  if Js.truthy (UpdateUserDto.bio dto)
  then UserEntity.withBio (UpdateUserDto.bio dto) u2 else u2.

(** The stored row after the assignments of [delete]. *)
Let tombstoned (now : Z) (u : UserEntity.t) : UserEntity.t :=
  {| UserEntity.id := UserEntity.id u;
     UserEntity.username := "[DELETED]";
     UserEntity.email := "[DELETED]";
     UserEntity.password := UserEntity.password u;
     UserEntity.displayName := Some "pictures/blank-profile-picture-S4P3RS3CR3T";
     UserEntity.profileImage := UserEntity.profileImage u;
     UserEntity.bio := UserEntity.bio u;
     UserEntity.deletedAt := Some now |}.

Let overwritten (db : Store.t) (id : Z) (row : UserEntity.t) : Store.t :=
  {| users :=
       {| TypeORM.rows :=
            map (fun r => if TypeORM.hasId id r then row else r) (Store.userRows db);
          TypeORM.nextId := TypeORM.nextId (users db) |};
     followers := followers db |}.

Lemma patched_fixed (dto : UpdateUserDto.t) (u : UserEntity.t) :
  UserEntity.id (patched dto u) = UserEntity.id u
  /\ UserEntity.deletedAt (patched dto u) = UserEntity.deletedAt u
  /\ patched dto (patched dto u) = patched dto u.
Proof.
  unfold patched.
  destruct (Js.truthy (UpdateUserDto.displayName dto)),
    (Js.truthy (UpdateUserDto.profileImage dto)),
    (Js.truthy (UpdateUserDto.bio dto)); repeat split; reflexivity.
Qed.

Lemma update_runs (db : Store.t) (id : Z) (dto : UpdateUserDto.t)
  (u : UserEntity.t) :
  find (whereId id) (Store.userRows db) = Some u ->
  update id dto db
  = (inr {| user := patched dto u |}, overwritten db id (patched dto u)).
Proof.
  intros Hfind. destruct (find_some _ _ Hfind) as [Hin Hw].
  destruct (whereId_id id u Hw) as [Hid _].
  unfold update, bind, userRepository_findOne, userRepository_save. cbn.
  unfold TypeORM.tableFindOne. fold (Store.userRows db). rewrite Hfind.
  fold (patched dto u).
  rewrite (tableSave_over (H := UserEntity.entity) (users db) (patched dto u) id).
  - reflexivity.
  - cbn. rewrite (proj1 (patched_fixed dto u)). exact Hid.
  - apply existsb_exists. exists u. split; [exact Hin|].
    apply (hasId_true (H := UserEntity.entity)). exact Hid.
Qed.

Lemma update_unresolved (db : Store.t) (id : Z) (dto : UpdateUserDto.t) :
  find (whereId id) (Store.userRows db) = None ->
  update id dto db = (inl (NotFoundException "User not found"), db).
Proof.
  intros Hfind. unfold update, bind, userRepository_findOne. cbn.
  unfold TypeORM.tableFindOne. fold (Store.userRows db). rewrite Hfind.
  reflexivity.
Qed.

Lemma delete_runs (db : Store.t) (now id : Z) (u : UserEntity.t) :
  find (TypeORM.hasId id) (Store.userRows db) = Some u ->
  delete now id db
  = (inr {| message := "User successfully removed" |},
     overwritten db id (tombstoned now u)).
Proof.
  intros Hfind. destruct (find_some _ _ Hfind) as [Hin Hkey].
  pose proof (proj1 (hasId_true (H := UserEntity.entity) id u) Hkey) as Hid.
  unfold delete, bind, userRepository_findOneById, userRepository_save. cbn.
  unfold TypeORM.tableFindOneById. fold (Store.userRows db). rewrite Hfind.
  rewrite (tableSave_over (H := UserEntity.entity) (users db) _ id).
  - reflexivity.
  - exact Hid.
  - apply existsb_exists. exists u. auto.
Qed.

Lemma delete_missing (db : Store.t) (now id : Z) :
  find (TypeORM.hasId id) (Store.userRows db) = None ->
  delete now id db = (inl (NotFoundException "User not found"), db).
Proof.
  intros Hfind. unfold delete, bind, userRepository_findOneById. cbn.
  unfold TypeORM.tableFindOneById. fold (Store.userRows db). rewrite Hfind.
  reflexivity.
Qed.

(** X7.  [update] is idempotent on every store: running it again with the
    same arguments gives the same answer and the same store. *)
Theorem update_idempotent (db : Store.t) (id : Z) (dto : UpdateUserDto.t) :
  update id dto (store (update id dto db)) = update id dto db.
Proof.
  destruct (find (whereId id) (Store.userRows db)) as [u|] eqn:Hfind.
  - destruct (find_some _ _ Hfind) as [Hin Hw].
    destruct (whereId_id id u Hw) as [Hid Hlive].
    destruct (patched_fixed dto u) as (Hpid & Hpdel & Hfix).
    assert (Hkey : TypeORM.hasId id (patched dto u) = true).
    { apply (hasId_true (H := UserEntity.entity)). cbn. congruence. }
    assert (Hex : existsb (TypeORM.hasId id) (Store.userRows db) = true).
    { apply existsb_exists. exists u. split; [exact Hin|].
      apply (hasId_true (H := UserEntity.entity)). exact Hid. }
    rewrite (update_runs db id dto u Hfind). unfold store. cbn [snd].
    rewrite (update_runs _ id dto (patched dto u)).
    + rewrite Hfix. unfold overwritten, Store.userRows. cbn.
      rewrite (replaced_twice (H := UserEntity.entity) _ _ _ id Hkey).
      reflexivity.
    + unfold overwritten, Store.userRows. cbn.
      apply (find_replaced (H := UserEntity.entity)); auto.
      * unfold whereId. rewrite Hkey, Hpdel, Hlive. reflexivity.
      * intros r Hr. unfold whereId in Hr. apply andb_prop in Hr. tauto.
  - rewrite (update_unresolved db id dto Hfind). unfold store. cbn [snd].
    exact (update_unresolved db id dto Hfind).
Qed.

(** X8.  A second [delete] only restamps the tombstone: on a stored id,
    [delete] after [delete] gives the answer and the store of the second
    call alone; in particular it succeeds on a principal that is already
    tombstoned. *)
Theorem delete_restamps (db : Store.t) (first second id : Z) :
  TypeORM.findOneById id (users db) <> None ->
  delete second id (store (delete first id db)) = delete second id db
  /\ outcome (delete second id db)
     = inr {| message := "User successfully removed" |}.
Proof.
  intros Hstored. cbn in Hstored. unfold TypeORM.tableFindOneById in Hstored.
  fold (Store.userRows db) in Hstored.
  destruct (find (TypeORM.hasId id) (Store.userRows db)) as [u|] eqn:Hfind;
    [|contradiction].
  destruct (find_some _ _ Hfind) as [Hin Hkey].
  assert (Hkey' : TypeORM.hasId id (tombstoned first u) = true) by exact Hkey.
  rewrite (delete_runs db first id u Hfind), (delete_runs db second id u Hfind).
  unfold store. cbn [snd]. split; [|reflexivity].
  rewrite (delete_runs _ second id (tombstoned first u)).
  - unfold overwritten, Store.userRows. cbn.
    rewrite (replaced_twice (H := UserEntity.entity) _ _ _ id Hkey').
    reflexivity.
  - unfold overwritten, Store.userRows. cbn.
    apply (find_replaced (H := UserEntity.entity)); auto.
    apply existsb_exists. exists u. auto.
Qed.

(** X9.  [update] and [delete] neither add, remove nor reorder user rows
    on any store: the list of ids and the next key are as before, and so
    is the follower table. *)
Theorem update_delete_keep_keys (db : Store.t) (id now : Z) (dto : UpdateUserDto.t) :
  let kept (db' : Store.t) :=
    map UserEntity.id (Store.userRows db') = map UserEntity.id (Store.userRows db)
    /\ TypeORM.nextId (users db') = TypeORM.nextId (users db)
    /\ followers db' = followers db in
  kept (store (update id dto db)) /\ kept (store (delete now id db)).
Proof.
  cbv zeta. split.
  - destruct (find (whereId id) (Store.userRows db)) as [u|] eqn:Hfind.
    + destruct (find_some _ _ Hfind) as [_ Hw].
      destruct (whereId_id id u Hw) as [Hid _].
      rewrite (update_runs db id dto u Hfind).
      unfold store, overwritten, Store.userRows. cbn.
      repeat split.
      apply (replaced_keys (H := UserEntity.entity)). cbn.
      rewrite (proj1 (patched_fixed dto u)). exact Hid.
    + rewrite (update_unresolved db id dto Hfind). repeat split.
  - destruct (find (TypeORM.hasId id) (Store.userRows db)) as [u|] eqn:Hfind.
    + destruct (find_some _ _ Hfind) as [_ Hkey].
      rewrite (delete_runs db now id u Hfind).
      unfold store, overwritten, Store.userRows. cbn.
      repeat split.
      apply (replaced_keys (H := UserEntity.entity)). cbn.
      apply (hasId_true (H := UserEntity.entity)). exact Hkey.
    + rewrite (delete_missing db now id Hfind). repeat split.
Qed.

(** X10.  [update] with a dto whose three fields are absent or empty is
    no change: in a consistent store it resolves with the stored row and
    leaves the store as it is. *)
Theorem update_empty_dto (db : Store.t) (id : Z) (dto : UpdateUserDto.t)
  (u : UserEntity.t) :
  Store.consistent db = true ->
  find (whereId id) (Store.userRows db) = Some u ->
  Js.truthy (UpdateUserDto.displayName dto) = false ->
  Js.truthy (UpdateUserDto.profileImage dto) = false ->
  Js.truthy (UpdateUserDto.bio dto) = false ->
  update id dto db = (inr {| user := u |}, db).
Proof.
  intros Hc Hfind Hname Himage Hbio.
  destruct (update_in_place db id dto u Hc Hfind) as (l1 & l2 & Hrows & Hrun).
  cbv zeta in Hrun. rewrite Hname, Himage, Hbio in Hrun. rewrite Hrun.
  f_equal. destruct db as [[rows next] edges].
  unfold Store.userRows in Hrows. cbn in *. rewrite Hrows. reflexivity.
Qed.

End UpdateDeleteFacts.

(** Bob's second removal leaves what a single removal at the later time
    leaves. *)
Lemma delete_restamps_witness :
  UserService.delete 9 2 (Nest.store (UserService.delete 5 2 Scenario.twoUsers))
  = UserService.delete 9 2 Scenario.twoUsers.
Proof.
  refine (proj1 (delete_restamps Scenario.twoUsers 5 9 2 _)).
  discriminate.
Defined.

(** An update of bob that carries nothing. *)
Lemma update_empty_dto_witness :
  UserService.update 2 Samples.nothing Scenario.twoUsers
  = (inr {| UserService.user := Scenario.bob |}, Scenario.twoUsers).
Proof.
  apply (update_empty_dto Scenario.twoUsers 2 Samples.nothing Scenario.bob);
    reflexivity.
Defined.

(** ** Principals that do not resolve *)

Section UnresolvedFacts.

Import Nest UserService.

Variable verify : string -> string -> bool.

Lemma unresolved_find (db : Store.t) (id : Z) :
  Store.resolves id db = false ->
  find (whereId id) (Store.userRows db) = None.
Proof. apply existsb_false_find. Qed.

Lemma findOne_unresolved (db : Store.t) (id : Z) :
  Store.resolves id db = false ->
  findOne id db = (inl (NotFoundException "User not found"), db).
Proof.
  intros Hno. unfold findOne, bind, userRepository_findOne. cbn.
  unfold TypeORM.tableFindOne. fold (Store.userRows db).
  rewrite (unresolved_find db id Hno). reflexivity.
Qed.

Lemma getFollowers_unresolved (db : Store.t) (id : Z) :
  Store.resolves id db = false ->
  getFollowers id db = (inl (NotFoundException "User not found"), db).
Proof.
  intros Hno. pose proof (unresolved_find db id Hno) as Hfind.
  unfold Store.userRows in Hfind.
  unfold getFollowers, bind, userRepository_findOne.
  cbn [TypeORM.findOne TypeORM.tableRepository]. unfold TypeORM.tableFindOne.
  rewrite Hfind. reflexivity.
Qed.

Lemma followAction_unresolved_actor (db : Store.t) (id other : Z) :
  Store.resolves id db = false ->
  followAction id other db = (inl (NotFoundException "User not found"), db).
Proof.
  intros Hno. unfold followAction, bind, userRepository_findOne. cbn.
  unfold TypeORM.tableFindOne. fold (Store.userRows db).
  rewrite (unresolved_find db id Hno). reflexivity.
Qed.

Lemma followAction_unresolved_target (db : Store.t) (id other : Z) :
  Store.resolves other db = true ->
  Store.resolves id db = false ->
  followAction other id db
  = (inl (NotFoundException "User who you are trying to follow does not exist"),
     db).
Proof.
  intros Hother Hno. destruct (resolves_find other db Hother) as (o & Ho).
  pose proof (unresolved_find db id Hno) as Hfind.
  unfold Store.userRows in Ho, Hfind.
  unfold followAction, bind, userRepository_findOne. cbn.
  unfold TypeORM.tableFindOne. rewrite Ho. cbn. rewrite Hfind. reflexivity.
Qed.

(** X11.  An id that does not resolve to a principal without tombstone,
    because no row has it or because its row is tombstoned, is rejected
    with [NotFoundException] by [findOne], [update], [getFollowers] and by
    [followAction] in either role, and none of them writes. *)
Theorem unresolved_rejected (db : Store.t) (id other : Z) (dto : UpdateUserDto.t) :
  Store.resolves id db = false ->
  findOne id db = (inl (NotFoundException "User not found"), db)
  /\ update id dto db = (inl (NotFoundException "User not found"), db)
  /\ getFollowers id db = (inl (NotFoundException "User not found"), db)
  /\ followAction id other db = (inl (NotFoundException "User not found"), db)
  /\ (Store.resolves other db = true ->
      followAction other id db
      = (inl (NotFoundException
                "User who you are trying to follow does not exist"), db)).
Proof.
  intros Hno. split; [exact (findOne_unresolved db id Hno)|].
  split; [exact (update_unresolved db id dto (unresolved_find db id Hno))|].
  split; [exact (getFollowers_unresolved db id Hno)|].
  split; [exact (followAction_unresolved_actor db id other Hno)|].
  intros Hother. exact (followAction_unresolved_target db id other Hother Hno).
Qed.

(** After [delete], with whatever outcome, the id does not resolve. *)
Lemma delete_unresolves (db : Store.t) (now id : Z) :
  Store.resolves id (store (delete now id db)) = false
  /\ followers (store (delete now id db)) = followers db.
Proof.
  destruct (find (TypeORM.hasId id) (Store.userRows db)) as [u|] eqn:Hfind.
  - rewrite (delete_runs db now id u Hfind). unfold store. cbn [snd].
    split; [|reflexivity].
    unfold Store.resolves, Store.userRows. cbn.
    apply not_true_is_false. intros Hex. apply existsb_exists in Hex.
    destruct Hex as (r & Hr & Hw). apply in_map_iff in Hr.
    destruct Hr as (r0 & Hr0 & _). unfold whereId in Hw.
    destruct (TypeORM.hasId id r0) eqn:Hkey; subst r.
    + cbn in Hw. rewrite andb_false_r in Hw. discriminate.
    + rewrite Hkey in Hw. discriminate.
  - rewrite (delete_missing db now id Hfind). unfold store. cbn [snd].
    split; [|reflexivity].
    unfold Store.resolves. apply not_true_is_false. intros Hex.
    apply existsb_exists in Hex. destruct Hex as (r & Hr & Hw).
    unfold whereId in Hw. apply andb_prop in Hw. destruct Hw as [Hkey _].
    rewrite (find_none _ _ Hfind r Hr) in Hkey. discriminate.
Qed.

(** X12.  After [delete(id)], on any store and whatever its outcome, the
    principal is out of reach: [findOne], [update] and [getFollowers]
    reject the id, and [followAction] rejects it as actor and as target,
    so the follow edges it takes part in, which [delete] leaves in the
    follower table, can no longer be toggled. *)
Theorem removed_principal_rejected (db : Store.t) (now id other : Z)
  (dto : UpdateUserDto.t) :
  let db' := store (delete now id db) in
  followers db' = followers db
  /\ findOne id db' = (inl (NotFoundException "User not found"), db')
  /\ update id dto db' = (inl (NotFoundException "User not found"), db')
  /\ getFollowers id db' = (inl (NotFoundException "User not found"), db')
  /\ followAction id other db' = (inl (NotFoundException "User not found"), db')
  /\ (Store.resolves other db' = true ->
      followAction other id db'
      = (inl (NotFoundException
                "User who you are trying to follow does not exist"), db')).
Proof.
  intros db'. destruct (delete_unresolves db now id) as [Hno Hedges].
  fold db' in Hno, Hedges.
  split; [exact Hedges|].
  split; [exact (findOne_unresolved db' id Hno)|].
  split; [exact (update_unresolved db' id dto (unresolved_find db' id Hno))|].
  split; [exact (getFollowers_unresolved db' id Hno)|].
  split; [exact (followAction_unresolved_actor db' id other Hno)|].
  intros Hother. exact (followAction_unresolved_target db' id other Hother Hno).
Qed.

(** X13.  In a consistent store, once [delete] has removed a principal
    that had no tombstone, [login] with the username it had is rejected,
    whatever the password. *)
Theorem delete_then_login (db : Store.t) (now id : Z) (u : UserEntity.t)
  (password : string) :
  Store.consistent db = true ->
  find (whereId id) (Store.userRows db) = Some u ->
  let db' := store (delete now id db) in
  login verify {| LoginUserDto.username := UserEntity.username u;
                  LoginUserDto.password := password |} db'
  = (inl (UnauthorizedException "Invalid credentials"), db').
Proof.
  intros Hc Hfind db'.
  destruct (find_some _ _ Hfind) as [Hin Hw].
  destruct (whereId_id id u Hw) as [Hid Hlive].
  destruct (resolved_split db id u Hc Hin Hid) as (l1 & l2 & Hrows & Hrest).
  destruct (consistent_parts db Hc) as (_ & _ & _ & Hnames).
  rewrite Hrows in Hnames.
  unfold db'. rewrite (delete_tombstones db now id u l1 l2 Hrows Hid Hrest).
  unfold store. cbn [snd].
  unfold login, bind, userRepository_findOne. cbn.
  unfold TypeORM.tableFindOne. cbn.
  rewrite (find_after_tombstone _ l1 l2 u _ id Hnames Hid Hrest).
  - reflexivity.
  - intros r Hr. unfold whereUsername in Hr. apply andb_prop in Hr.
    destruct Hr as [Hname Hr]. unfold Store.sameIdentity.
    fold (Store.live r) in Hr. unfold Store.live at 1. rewrite Hlive, Hr.
    rewrite String.eqb_sym, Hname. reflexivity.
  - unfold whereUsername. cbn. apply andb_false_r.
Qed.

End UnresolvedFacts.

(** Id 7 is not stored in the sample store. *)
Lemma unresolved_rejected_witness :
  UserService.update 7 Scenario.bobRenamed Scenario.twoUsers
  = (inl (Nest.NotFoundException "User not found"), Scenario.twoUsers)
  /\ UserService.followAction 1 7 Scenario.twoUsers
     = (inl (Nest.NotFoundException
               "User who you are trying to follow does not exist"),
        Scenario.twoUsers).
Proof.
  destruct (unresolved_rejected Scenario.twoUsers 7 1 Scenario.bobRenamed eq_refl)
    as (_ & Hupdate & _ & _ & Htarget).
  split; [exact Hupdate|exact (Htarget eq_refl)].
Defined.

(** Once bob is removed, alice can no longer toggle the edge to him. *)
Lemma removed_principal_rejected_witness :
  UserService.followAction 1 2
    (Nest.store (UserService.delete 9 2 Scenario.following21))
  = (inl (Nest.NotFoundException
            "User who you are trying to follow does not exist"),
     Nest.store (UserService.delete 9 2 Scenario.following21))
  /\ UserService.followers
       (Nest.store (UserService.delete 9 2 Scenario.following21))
     = UserService.followers Scenario.following21.
Proof.
  destruct (removed_principal_rejected Scenario.following21 9 2 1
              Scenario.bobRenamed) as (Hedges & _ & _ & _ & _ & Htarget).
  split; [exact (Htarget eq_refl)|exact Hedges].
Defined.

(** Bob cannot log in after his removal. *)
Lemma delete_then_login_witness :
  UserService.login Samples.verify Samples.bobLogin
    (Nest.store (UserService.delete 9 2 Scenario.twoUsers))
  = (inl (Nest.UnauthorizedException "Invalid credentials"),
     Nest.store (UserService.delete 9 2 Scenario.twoUsers)).
Proof.
  exact (delete_then_login Samples.verify Scenario.twoUsers 9 2 Scenario.bob
           "p2" eq_refl eq_refl).
Defined.

(** ** One edge at a time *)

Section EdgeFacts.

Import Nest UserService.

(** An edge over [(userToFollowId, userId)] meets the conditions for
    another pair exactly when the pairs are the same. *)
Lemma whereEdge_of (e : FollowerEntity.t) (userToFollowId userId target actor : Z) :
  whereEdge userToFollowId userId e = true ->
  whereEdge target actor e = (target =? userToFollowId) && (actor =? userId).
Proof.
  unfold whereEdge. intros He. apply andb_prop in He. destruct He as [Ht Hu].
  apply Z.eqb_eq in Ht, Hu. rewrite Ht, Hu.
  rewrite (Z.eqb_sym userToFollowId), (Z.eqb_sym userId). reflexivity.
Qed.

(** What [followAction] does to the follower rows when both users
    resolve in a consistent store. *)
Lemma followAction_rows (db : Store.t) (userId userToFollowId : Z) :
  Store.consistent db = true ->
  Store.resolves userId db = true ->
  Store.resolves userToFollowId db = true ->
  users (store (followAction userId userToFollowId db)) = users db
  /\ (Store.following userToFollowId userId db = false
      /\ outcome (followAction userId userToFollowId db)
         = inr {| message := "User followed" |}
      /\ (exists edge,
            whereEdge userToFollowId userId edge = true
            /\ Store.followerRows (store (followAction userId userToFollowId db))
               = Store.followerRows db ++ [edge])
      \/ Store.following userToFollowId userId db = true
         /\ outcome (followAction userId userToFollowId db)
            = inr {| message := "User unfollowed" |}
         /\ exists edge l1 l2,
              whereEdge userToFollowId userId edge = true
              /\ Store.followerRows db = l1 ++ edge :: l2
              /\ Store.followerRows (store (followAction userId userToFollowId db))
                 = l1 ++ l2
              /\ existsb (whereEdge userToFollowId userId) (l1 ++ l2) = false).
Proof.
  intros Hc Hu Ht.
  destruct (consistent_parts db Hc) as (_ & (Hkeys & Hpk) & Hedges & _).
  destruct (Store.following userToFollowId userId db) eqn:Hf.
  - destruct (existsb_find _ _ Hf) as (e & Hfind & Hin & He).
    destruct (keysBelow_id _ _ Hkeys Hin) as (i & Hid).
    destruct (key_split _ e i Hpk Hin Hid) as (l1 & l2 & Hrows & Hrest).
    rewrite (followAction_unfollow db userId userToFollowId l1 l2 e i);
      auto; [|rewrite <- Hrows; exact Hfind].
    split; [reflexivity|]. right. split; [reflexivity|]. split; [reflexivity|].
    exists e, l1, l2. repeat split; auto.
    apply not_true_is_false. intros Hex.
    apply existsb_exists in Hex. destruct Hex as (r & Hr & Hmatch).
    assert (e = r) as <-.
    { apply (distinctBy_clash Store.sameEdge sameEdge_sym
               (Store.followerRows db)); auto.
      - rewrite Hrows. apply in_or_app.
        apply in_app_or in Hr. destruct Hr; [left|right; right]; assumption.
      - exact (whereEdge_sameEdge _ _ _ _ He Hmatch). }
    specialize (Hrest e Hr). apply hasId_true in Hid. cbn in Hid, Hrest.
    congruence.
  - rewrite (followAction_follow db userId userToFollowId Hu Ht Hf).
    split; [reflexivity|]. left. split; [reflexivity|]. split; [reflexivity|].
    eexists. split; [|reflexivity].
    unfold whereEdge. cbn. rewrite !Z.eqb_refl. reflexivity.
Qed.

(** X14.  In a consistent store with actor and target resolved, one call
    of [followAction] flips the edge of its pair and leaves the existence
    of the edge of every other ordered pair, and the user table, as they
    were.  The pair may be a user with itself. *)
Theorem followAction_flips_one_edge (db : Store.t)
  (userId userToFollowId target actor : Z) :
  Store.consistent db = true ->
  Store.resolves userId db = true ->
  Store.resolves userToFollowId db = true ->
  let db' := store (followAction userId userToFollowId db) in
  users db' = users db
  /\ Store.following target actor db'
     = (if (target =? userToFollowId) && (actor =? userId)
        then negb (Store.following userToFollowId userId db)
        else Store.following target actor db).
Proof.
  intros Hc Hu Ht db'.
  destruct (followAction_rows db userId userToFollowId Hc Hu Ht)
    as (Husers & [(Hf & _ & edge & He & Hrows)
                 |(Hf & _ & edge & l1 & l2 & He & Hold & Hrows & Hgone)]).
  - split; [exact Husers|]. unfold db', Store.following at 1. rewrite Hrows.
    rewrite existsb_app. cbn. rewrite orb_false_r.
    rewrite (whereEdge_of edge userToFollowId userId target actor He).
    fold (Store.following target actor db).
    destruct ((target =? userToFollowId) && (actor =? userId)) eqn:Hsame.
    + rewrite Hf. apply orb_true_r.
    + apply orb_false_r.
  - split; [exact Husers|]. unfold db', Store.following at 1. rewrite Hrows.
    pose proof (whereEdge_of edge userToFollowId userId target actor He) as Hpair.
    destruct ((target =? userToFollowId) && (actor =? userId)) eqn:Hsame.
    + apply andb_prop in Hsame. destruct Hsame as [Htt Haa].
      apply Z.eqb_eq in Htt, Haa. subst target actor.
      rewrite Hf. exact Hgone.
    + unfold Store.following. rewrite Hold, !existsb_app. cbn.
      rewrite Hpair. reflexivity.
Qed.

(** X15.  [getFollowers] has no condition on its user: for a user that
    resolves it answers with every row of the follower table, in table
    order, each with the row its [userId] points to, and with the number
    of all rows, and it does not write.  So it answers the same for every
    user that resolves. *)
Theorem getFollowers_all_rows (db : Store.t) (userId other : Z) :
  Store.resolves userId db = true ->
  (exists body,
     getFollowers userId db = (inr body, db)
     /\ map fst (followers_ body) = Store.followerRows db
     /\ followersCount body = Z.of_nat (List.length (Store.followerRows db))
     /\ forall f joined, In (f, joined) (followers_ body) ->
          joined = TypeORM.findOneById (FollowerEntity.userId f) (users db))
  /\ (Store.resolves other db = true ->
      getFollowers other db = getFollowers userId db).
Proof.
  intros Hu. destruct (resolves_find userId db Hu) as (u & Hfu).
  unfold Store.userRows in Hfu.
  assert (Hrun : forall id, Store.resolves id db = true ->
    getFollowers id db
    = (inr {| followers_ := QueryBuilder.getMany (users db) (followers db);
              followersCount := QueryBuilder.getCount (users db) (followers db) |},
       db)).
  { intros id Hid. destruct (resolves_find id db Hid) as (r & Hr).
    unfold Store.userRows in Hr.
    unfold getFollowers, bind, userRepository_findOne.
    cbn [TypeORM.findOne TypeORM.tableRepository]. unfold TypeORM.tableFindOne.
    rewrite Hr. reflexivity. }
  split.
  - eexists. split; [exact (Hrun userId Hu)|]. cbn.
    split; [|split; [reflexivity|]].
    + rewrite map_map. cbn. apply map_id.
    + intros f joined Hin. apply in_map_iff in Hin.
      destruct Hin as (f0 & Heq & _). injection Heq as <- <-. reflexivity.
  - intros Ho. rewrite (Hrun other Ho), (Hrun userId Hu). reflexivity.
Qed.

(** X16.  The count of [getFollowers] moves with every toggle, whoever
    asks: in a consistent store a [followAction] of resolved users raises
    it by one when it follows and lowers it by one when it unfollows, for
    every user that resolves. *)
Theorem getFollowers_counts_toggles (db : Store.t) (userId userToFollowId asker : Z)
  (before after : FollowersBody) :
  Store.consistent db = true ->
  Store.resolves userId db = true ->
  Store.resolves userToFollowId db = true ->
  outcome (getFollowers asker db) = inr before ->
  outcome (getFollowers asker (store (followAction userId userToFollowId db)))
  = inr after ->
  followersCount after
  = followersCount before
    + (if Store.following userToFollowId userId db then -1 else 1).
Proof.
  intros Hc Hu Ht Hbefore Hafter.
  destruct (followAction_rows db userId userToFollowId Hc Hu Ht)
    as (Husers & Hrows).
  assert (Hcount : forall db0 body,
    outcome (getFollowers asker db0) = inr body ->
    followersCount body = Z.of_nat (List.length (Store.followerRows db0))).
  { intros db0 body. unfold getFollowers, bind, userRepository_findOne, outcome.
    cbn [TypeORM.findOne TypeORM.tableRepository]. unfold TypeORM.tableFindOne.
    destruct (find (whereId asker) (TypeORM.rows (users db0))); cbn;
      [|discriminate].
    intros Heq. injection Heq as <-. reflexivity. }
  rewrite (Hcount _ _ Hbefore), (Hcount _ _ Hafter).
  destruct Hrows as [(Hf & _ & edge & _ & Hnew)
                    |(Hf & _ & edge & l1 & l2 & _ & Hold & Hnew & _)];
    rewrite Hf, Hnew.
  - rewrite length_app. cbn. lia.
  - rewrite Hold, !length_app. cbn. lia.
Qed.

End EdgeFacts.

(** Bob follows himself while alice's edges are not there to change. *)
Lemma followAction_flips_one_edge_witness :
  Store.following 2 2 (Nest.store (UserService.followAction 2 2 Scenario.following21))
  = true
  /\ Store.following 1 2 (Nest.store (UserService.followAction 2 2 Scenario.following21))
     = Store.following 1 2 Scenario.following21.
Proof.
  split.
  - exact (proj2 (followAction_flips_one_edge Scenario.following21 2 2 2 2
                    eq_refl eq_refl eq_refl)).
  - exact (proj2 (followAction_flips_one_edge Scenario.following21 2 2 1 2
                    eq_refl eq_refl eq_refl)).
Defined.

(** Alice, whom bob follows, and bob, whom nobody follows, get the same
    answer. *)
Lemma getFollowers_all_rows_witness :
  UserService.getFollowers 2 Scenario.following21
  = UserService.getFollowers 1 Scenario.following21
  /\ exists body,
       UserService.getFollowers 2 Scenario.following21
       = (inr body, Scenario.following21)
       /\ UserService.followersCount body = 1.
Proof.
  destruct (getFollowers_all_rows Scenario.following21 1 2 eq_refl)
    as (_ & Hsame).
  destruct (getFollowers_all_rows Scenario.following21 2 1 eq_refl)
    as ((body & Hrun & _ & Hcount & _) & _).
  split; [exact (Hsame eq_refl)|]. exists body. split; [exact Hrun|exact Hcount].
Defined.

(** Alice asks before and after bob lets go of her. *)
Lemma getFollowers_counts_toggles_witness :
  Nest.outcome (UserService.getFollowers 1 Scenario.following21)
  = inr {| UserService.followers_ := [(Scenario.edge21, Some Scenario.alice)];
           UserService.followersCount := 1 |}
  /\ Nest.outcome
       (UserService.getFollowers 1
          (Nest.store (UserService.followAction 2 1 Scenario.following21)))
     = inr {| UserService.followers_ := []; UserService.followersCount := 0 |}
  /\ 0 = 1 + -1.
Proof.
  split; [reflexivity|]. split; [reflexivity|].
  exact (getFollowers_counts_toggles Scenario.following21 2 1 1
           {| UserService.followers_ := [(Scenario.edge21, Some Scenario.alice)];
              UserService.followersCount := 1 |}
           {| UserService.followers_ := []; UserService.followersCount := 0 |}
           eq_refl eq_refl eq_refl eq_refl eq_refl).
Defined.

(** ** Tombstones in the stores the service produces *)

Section TombstoneFacts.

Import Nest UserService.

Variable Buffer : Type.
Variable AwsS3UploadOptions : Type.
Variable bufferFromBase64 : string -> Buffer.
Variable awsS3Service_upload :
  AwsS3.PutObjectRequest Buffer -> AwsS3UploadOptions ->
  HttpException + AwsS3.ManagedUpload.
Variable configService_get : string -> option string.
Variable hash : string -> string.

Let register' :=
  register (UT := TypeORM.Table UserEntity.t) (FT := TypeORM.Table FollowerEntity.t)
    Buffer AwsS3UploadOptions bufferFromBase64 awsS3Service_upload
    configService_get hash.

Lemma followAction_users (db : Store.t) (userId userToFollowId : Z) :
  users (store (followAction userId userToFollowId db)) = users db.
Proof.
  unfold followAction, bind, userRepository_findOne,
    followerRepository_findOne, followerRepository_delete,
    followerRepository_save, store. cbn. unfold TypeORM.tableFindOne.
  destruct (find (whereId userId) _); [|reflexivity].
  destruct (find (whereId userToFollowId) _); [|reflexivity].
  destruct (find (whereEdge userToFollowId userId) _) as [edge|];
    [|reflexivity].
  destruct (FollowerEntity.id edge) as [i|]; cbn; [|reflexivity].
  match goal with
  | |- context [if ?c then _ else _] => destruct c
  end; reflexivity.
Qed.

Lemma anonymized_replaced (l : list UserEntity.t) (row : UserEntity.t) (id : Z) :
  forallb Sentinel.anonymized l = true ->
  Sentinel.anonymized row = true ->
  forallb Sentinel.anonymized
    (map (fun r => if TypeORM.hasId id r then row else r) l) = true.
Proof.
  intros Hl Hrow. apply forallb_forall. intros r Hr.
  apply in_map_iff in Hr. destruct Hr as (r0 & <- & Hr0).
  destruct (TypeORM.hasId id r0); [exact Hrow|].
  exact (proj1 (forallb_forall _ _) Hl r0 Hr0).
Qed.

Lemma register_anonymized (db : Store.t) (dto : RegisterUserDto.t)
  (opts : AwsS3UploadOptions) :
  Sentinel.tombstonesAnonymized db = true ->
  Sentinel.tombstonesAnonymized (store (register' dto opts db)) = true.
Proof.
  intros Ha. unfold register'.
  destruct (register_cases Buffer AwsS3UploadOptions bufferFromBase64
              awsS3Service_upload configService_get hash db dto opts)
    as [(_ & Hrun)|[(_ & _ & Hrun)
       |[(image & key & _ & _ & _ & Hrun)|(image & e & _ & _ & _ & Hrun)]]];
    rewrite Hrun; unfold store; cbn [snd]; try exact Ha;
    unfold Sentinel.tombstonesAnonymized, Store.userRows in *; cbn;
    rewrite forallb_app, Ha; reflexivity.
Qed.

Lemma update_anonymized (db : Store.t) (id : Z) (dto : UpdateUserDto.t) :
  Sentinel.tombstonesAnonymized db = true ->
  Sentinel.tombstonesAnonymized (store (update id dto db)) = true.
Proof.
  intros Ha.
  destruct (find (whereId id) (Store.userRows db)) as [u|] eqn:Hfind.
  - destruct (find_some _ _ Hfind) as [_ Hw].
    destruct (whereId_id id u Hw) as [_ Hlive].
    rewrite (update_runs db id dto u Hfind). unfold store. cbn [snd].
    unfold Sentinel.tombstonesAnonymized, Store.userRows in *. cbn.
    apply anonymized_replaced; [exact Ha|].
    unfold Sentinel.anonymized, Store.live.
    destruct (Js.truthy (UpdateUserDto.displayName dto)),
      (Js.truthy (UpdateUserDto.profileImage dto)),
      (Js.truthy (UpdateUserDto.bio dto)); cbn; rewrite Hlive; reflexivity.
  - rewrite (update_unresolved db id dto Hfind). exact Ha.
Qed.

Lemma delete_anonymized (db : Store.t) (now id : Z) :
  Sentinel.tombstonesAnonymized db = true ->
  Sentinel.tombstonesAnonymized (store (delete now id db)) = true.
Proof.
  intros Ha.
  destruct (find (TypeORM.hasId id) (Store.userRows db)) as [u|] eqn:Hfind.
  - rewrite (delete_runs db now id u Hfind). unfold store. cbn [snd].
    unfold Sentinel.tombstonesAnonymized, Store.userRows in *. cbn.
    apply anonymized_replaced; [exact Ha|reflexivity].
  - rewrite (delete_missing db now id Hfind). exact Ha.
Qed.

(** X17.  The invariants the service keeps: in every store that calls of
    [register], [update], [delete] and [followAction] can leave behind,
    every row has a key of its own below the next key, no ordered pair has
    two follow edges, no two rows without tombstone share a username or an
    email, and every row with a tombstone carries the sentinel as username
    and as email. *)
Theorem reachable_store_invariants (db : Store.t) :
  Store.reachable Buffer AwsS3UploadOptions bufferFromBase64
    awsS3Service_upload configService_get hash db ->
  Store.consistent db = true /\ Sentinel.tombstonesAnonymized db = true.
Proof.
  induction 1 as [|dto opts db _ [IHc IHa]|id dto db _ [IHc IHa]
                 |now id db _ [IHc IHa]|u t db _ [IHc IHa]].
  - split; reflexivity.
  - split; [|exact (register_anonymized db dto opts IHa)].
    exact (register_consistent Buffer AwsS3UploadOptions bufferFromBase64
             awsS3Service_upload configService_get hash db dto opts IHc).
  - split; [exact (update_consistent db id dto IHc)
           |exact (update_anonymized db id dto IHa)].
  - split; [exact (delete_consistent db now id IHc)
           |exact (delete_anonymized db now id IHa)].
  - split; [exact (followAction_consistent db u t IHc)|].
    unfold Sentinel.tombstonesAnonymized, Store.userRows in *.
    rewrite followAction_users. exact IHa.
Qed.

(** X18.  Removal frees the identity: in a consistent store whose
    tombstoned rows carry the sentinel, after [delete] of a principal
    without tombstone whose username and email are not the sentinel, no
    stored row has that username or that email, so a [register] with them
    and without image resolves. *)
Theorem removal_frees_identity (db : Store.t) (now id : Z) (u : UserEntity.t)
  (dto : RegisterUserDto.t) (opts : AwsS3UploadOptions) :
  Store.consistent db = true ->
  Sentinel.tombstonesAnonymized db = true ->
  find (whereId id) (Store.userRows db) = Some u ->
  UserEntity.username u <> Sentinel.deleted ->
  UserEntity.email u <> Sentinel.deleted ->
  RegisterUserDto.username dto = UserEntity.username u ->
  RegisterUserDto.email dto = UserEntity.email u ->
  Js.truthy (RegisterUserDto.profileImage dto) = false ->
  let db' := store (delete now id db) in
  existsb (whereTaken (UserEntity.username u) (UserEntity.email u))
    (Store.userRows db') = false
  /\ exists body,
       outcome (register' dto opts db') = inr body
       /\ UserEntity.username (user body) = UserEntity.username u
       /\ UserEntity.email (user body) = UserEntity.email u
       /\ UserEntity.id (user body) <> UserEntity.id u.
Proof.
  intros Hc Ha Hfind Hname Hmail Hdn Hde Himage db'.
  destruct (find_some _ _ Hfind) as [Hin Hw].
  destruct (whereId_id id u Hw) as [Hid Hlive].
  destruct (resolved_split db id u Hc Hin Hid) as (l1 & l2 & Hrows & Hrest).
  destruct (consistent_parts db Hc) as ((Hkeys & _) & _ & _ & Hnames).
  assert (Hfree :
    existsb (whereTaken (UserEntity.username u) (UserEntity.email u))
      (Store.userRows db') = false).
  { unfold db'. rewrite (delete_tombstones db now id u l1 l2 Hrows Hid Hrest).
    unfold store, Store.userRows. cbn.
    apply not_true_is_false. intros Hex. apply existsb_exists in Hex.
    destruct Hex as (r & Hr & Htaken).
    apply in_app_or in Hr. destruct Hr as [Hr|[Hr|Hr]].
    2:{ subst r. unfold whereTaken in Htaken.
        cbn [UserEntity.username UserEntity.email] in Htaken.
        apply orb_prop in Htaken.
        destruct Htaken as [Heq|Heq]; apply String.eqb_eq in Heq;
          unfold Sentinel.deleted in *; congruence. }
    all: assert (Hrin : In r (Store.userRows db))
           by (rewrite Hrows; apply in_or_app; auto using in_cons);
         assert (Hrkey : TypeORM.hasId id r = false)
           by (apply Hrest; apply in_or_app; auto);
         pose proof (proj1 (forallb_forall _ _) Ha r Hrin) as Hanon;
         unfold Sentinel.anonymized in Hanon;
         unfold whereTaken in Htaken;
         destruct (Store.live r) eqn:Hlr;
         [ assert (r = u)
             by (apply (live_identity db u r Hc Hin Hrin); auto;
                 [unfold Store.live; rewrite Hlive; reflexivity|];
                 apply orb_prop in Htaken;
                 destruct Htaken as [Heq|Heq]; apply String.eqb_eq in Heq; auto);
           subst r;
           rewrite (proj2 (hasId_true (H := UserEntity.entity) id u) Hid) in Hrkey;
           discriminate
         | cbn [orb] in Hanon; apply andb_prop in Hanon; destruct Hanon as [Hn He];
           apply String.eqb_eq in Hn, He;
           apply orb_prop in Htaken;
           destruct Htaken as [Heq|Heq]; apply String.eqb_eq in Heq;
           congruence ]. }
  split; [exact Hfree|].
  pose proof (register_without_image Buffer AwsS3UploadOptions bufferFromBase64
                awsS3Service_upload configService_get hash db' dto opts) as Hrun.
  cbv beta zeta in Hrun. rewrite Hdn, Hde in Hrun.
  specialize (Hrun Hfree Himage).
  fold register' in Hrun. rewrite Hrun. eexists. unfold outcome. cbn.
  split; [reflexivity|]. cbn. repeat split; auto.
  unfold db'. rewrite (delete_tombstones db now id u l1 l2 Hrows Hid Hrest).
  unfold store. cbn. rewrite Hid. intros Heq. injection Heq as Heq.
  assert (Hlt : (id <? TypeORM.nextId (users db)) = true).
  { unfold TypeORM.keysBelow in Hkeys.
    pose proof (proj1 (forallb_forall _ _) Hkeys u Hin) as Hlt.
    cbv beta in Hlt. cbn in Hlt. rewrite Hid in Hlt. exact Hlt. }
  apply Z.ltb_lt in Hlt. lia.
Qed.

(** X19.  Removal takes the sentinel: after [delete] of a stored id, on
    any store, every [register] whose username or email is the sentinel
    is rejected with the validation failure and writes nothing. *)
Theorem sentinel_unregistrable (db : Store.t) (now id : Z)
  (dto : RegisterUserDto.t) (opts : AwsS3UploadOptions) :
  TypeORM.findOneById id (users db) <> None ->
  RegisterUserDto.username dto = Sentinel.deleted
  \/ RegisterUserDto.email dto = Sentinel.deleted ->
  let db' := store (delete now id db) in
  register' dto opts db'
  = (inl (BadRequestException "Email or Username is already taken"
                              "Validation failed"), db').
Proof.
  intros Hstored Hsentinel db'. cbn in Hstored.
  unfold TypeORM.tableFindOneById in Hstored. fold (Store.userRows db) in Hstored.
  destruct (find (TypeORM.hasId id) (Store.userRows db)) as [u|] eqn:Hfind;
    [|contradiction].
  destruct (find_some _ _ Hfind) as [Hin Hkey].
  apply (register_taken Buffer AwsS3UploadOptions bufferFromBase64
           awsS3Service_upload configService_get hash db' dto opts).
  unfold db'. rewrite (delete_runs db now id u Hfind).
  unfold store, Store.userRows. cbn. apply existsb_exists.
  eexists. split.
  - apply in_map_iff. exists u. split; [|exact Hin]. rewrite Hkey. reflexivity.
  - unfold whereTaken. cbn.
    destruct Hsentinel as [->| ->]; cbn; [reflexivity|apply orb_true_r].
Qed.

End TombstoneFacts.

(** The store of three registrations and one removal. *)
Lemma reachable_store_invariants_witness :
  Store.consistent Scenario.afterRemoval = true
  /\ Sentinel.tombstonesAnonymized Scenario.afterRemoval = true.
Proof.
  apply (reachable_store_invariants string unit (fun s => s) Scenario.upload
           Scenario.noBucket Scenario.hash).
  exact (Store.reachable_register _ _ _ _ _ _
           (Scenario.newcomer "bob" "bob@z.com" "p3" None) tt _
           (Store.reachable_delete _ _ _ _ _ _ 5 2 _
              (Store.reachable_register _ _ _ _ _ _
                 (Scenario.newcomer "bob" "b@y.com" "p2" None) tt _
                 (Store.reachable_register _ _ _ _ _ _
                    (Scenario.newcomer "[DELETED]" "ghost@x.com" "p0" None) tt _
                    (Store.reachable_empty _ _ _ _ _ _))))).
Defined.

(** After bob's removal a newcomer takes his username and email. *)
Lemma removal_frees_identity_witness :
  exists body,
    Nest.outcome
      (Scenario.register Scenario.noBucket
         (Scenario.newcomer "bob" "b@y.com" "p5" None)
         (Nest.store (UserService.delete 9 2 Scenario.twoUsers)))
    = inr body
    /\ UserEntity.username (UserService.user body) = "bob"
    /\ UserEntity.id (UserService.user body) <> Some 2.
Proof.
  destruct (removal_frees_identity string unit (fun s => s) Scenario.upload
              Scenario.noBucket Scenario.hash Scenario.twoUsers 9 2 Scenario.bob
              (Scenario.newcomer "bob" "b@y.com" "p5" None) tt
              eq_refl eq_refl eq_refl)
    as (_ & body & Hrun & Hname & _ & Hid);
    try reflexivity; try discriminate.
  exists body. split; [exact Hrun|]. split; [exact Hname|exact Hid].
Defined.

(** After bob's removal nobody registers as the sentinel. *)
Lemma sentinel_unregistrable_witness :
  Scenario.register Scenario.noBucket
    (Scenario.newcomer "[DELETED]" "x@x.com" "p6" None)
    (Nest.store (UserService.delete 9 2 Scenario.twoUsers))
  = (inl (Nest.BadRequestException "Email or Username is already taken"
                                   "Validation failed"),
     Nest.store (UserService.delete 9 2 Scenario.twoUsers)).
Proof.
  apply (sentinel_unregistrable string unit (fun s => s) Scenario.upload
           Scenario.noBucket Scenario.hash Scenario.twoUsers 9 2
           (Scenario.newcomer "[DELETED]" "x@x.com" "p6" None) tt).
  - discriminate.
  - left. reflexivity.
Defined.

(** ** The pattern and the key *)

Section PayloadFacts.

Import UserService.

Lemma append_length (a b : string) :
  String.length (a ++ b)%string = (String.length a + String.length b)%nat.
Proof.
  induction a as [|c a IH]; cbn; [reflexivity|]. rewrite IH. reflexivity.
Qed.

Lemma append_cancel_r (a b s : string) :
  (a ++ s)%string = (b ++ s)%string -> a = b.
Proof.
  revert b. induction a as [|c a IH]; intros [|d b] Heq; cbn in Heq.
  - reflexivity.
  - apply (f_equal String.length) in Heq. cbn in Heq.
    rewrite append_length in Heq. lia.
  - apply (f_equal String.length) in Heq. cbn in Heq.
    rewrite append_length in Heq. lia.
  - injection Heq as -> Heq. rewrite (IH b Heq). reflexivity.
Qed.

Lemma after_append (p s r : string) :
  Payload.after p s = Some r <-> s = (p ++ r)%string.
Proof.
  revert s. induction p as [|a p IH]; intros s; cbn.
  - split; congruence.
  - destruct s as [|b s]; [split; discriminate|].
    destruct (Ascii.eqb_spec a b) as [->|Hne].
    + rewrite IH. split; congruence.
    + split; [discriminate|]. intros Heq. congruence.
Qed.

(** The run of word characters in front of [s]. *)
Lemma skipWord_run (s : string) :
  exists w, s = (w ++ Payload.skipWord s)%string /\ Sentinel.allWord w = true.
Proof.
  induction s as [|c s (w & Hs & Hw)]; cbn.
  - exists EmptyString. split; reflexivity.
  - destruct (Payload.isWord c) eqn:Hc.
    + exists (String c w). cbn. rewrite Hc, Hw. split; [congruence|reflexivity].
    + exists EmptyString. split; reflexivity.
Qed.

Lemma skipWord_stop (w rest : string) (c : ascii) :
  Sentinel.allWord w = true -> Payload.isWord c = false ->
  Payload.skipWord (w ++ String c rest) = String c rest.
Proof.
  intros Hw Hc. induction w as [|d w IH]; cbn in *.
  - rewrite Hc. reflexivity.
  - apply andb_prop in Hw. destruct Hw as [Hd Hw]. rewrite Hd. exact (IH Hw).
Qed.

(** X20.  What the pattern of [uploadProfileImage] matches.  A payload
    made of [body:image/], a non-empty run of word characters, [;base64,]
    and a rest is cut down to the rest; every other payload is handed on
    unchanged. *)
Theorem stripPrefix_pattern :
  (forall w rest,
      w <> EmptyString -> Sentinel.allWord w = true ->
      Payload.stripPrefix ("body:image/" ++ w ++ ";base64," ++ rest) = rest)
  /\ (forall payload,
        Payload.stripPrefix payload = payload
        \/ exists w rest,
             w <> EmptyString /\ Sentinel.allWord w = true
             /\ payload = ("body:image/" ++ w ++ ";base64," ++ rest)%string
             /\ Payload.stripPrefix payload = rest).
Proof.
  split.
  - intros [|c w] rest Hne Hw; [contradiction|]. cbn in Hw.
    apply andb_prop in Hw. destruct Hw as [Hc Hw].
    unfold Payload.stripPrefix.
    rewrite (proj2 (after_append "body:image/" _ (String c w ++ ";base64," ++ rest))
               eq_refl).
    cbn [append]. rewrite Hc.
    change (";base64," ++ rest)%string with (String ";" ("base64," ++ rest)).
    rewrite (skipWord_stop w _ ";" Hw eq_refl). reflexivity.
  - intros payload. unfold Payload.stripPrefix.
    destruct (Payload.after "body:image/" payload) as [[|c tail]|] eqn:Hhead;
      [left; reflexivity| |left; reflexivity].
    destruct (Payload.isWord c) eqn:Hc; [|left; reflexivity].
    destruct (Payload.after ";base64," (Payload.skipWord tail)) as [body|] eqn:Hmid;
      [|left; reflexivity].
    right. destruct (skipWord_run tail) as (w & Htail & Hw).
    apply after_append in Hhead, Hmid.
    exists (String c w), body. split; [discriminate|].
    split; [cbn; rewrite Hc, Hw; reflexivity|]. split; [|reflexivity].
    rewrite Hhead, Htail, Hmid. reflexivity.
Qed.

(** X21.  The storage key tells users apart: two upload requests have the
    same key only for the same username, whatever the payloads and the
    bucket. *)
Theorem uploadRequest_key_injective (Buffer : Type)
  (bufferFromBase64 : string -> Buffer)
  (bucket1 bucket2 payload1 payload2 username1 username2 : string) :
  AwsS3.Key (uploadRequest Buffer bufferFromBase64 bucket1 payload1 username1)
  = AwsS3.Key (uploadRequest Buffer bufferFromBase64 bucket2 payload2 username2) ->
  username1 = username2.
Proof.
  unfold uploadRequest. cbn [AwsS3.Key]. intros Heq.
  apply after_append in Heq.
  rewrite (proj2 (after_append "pictures/user/" _ (username1 ++ ".png")) eq_refl)
    in Heq.
  injection Heq as Heq. exact (append_cancel_r _ _ _ Heq).
Qed.

End PayloadFacts.

(** The payload of a png. *)
Lemma stripPrefix_pattern_witness :
  Payload.stripPrefix "body:image/png;base64,aGVsbG8=" = "aGVsbG8=".
Proof.
  refine (proj1 stripPrefix_pattern "png" "aGVsbG8=" _ eq_refl).
  discriminate.
Defined.

(** Two requests under the key of alice. *)
Lemma uploadRequest_key_injective_witness :
  AwsS3.Key (UserService.uploadRequest string (fun s => s) "nodorum" "x" "alice")
  = AwsS3.Key (UserService.uploadRequest string (fun s => s) "backup" "y" "alice")
  /\ "alice" = "alice".
Proof.
  split; [reflexivity|].
  exact (uploadRequest_key_injective string (fun s => s)
           "nodorum" "backup" "x" "y" "alice" "alice" eq_refl).
Defined.

(** ** A context without record *)

Section UnsetFacts.

Import RequestContext.

Variable Request Response number : Type.
Variable request_user : Request -> option UserEntity.t.
Variable nsid : string.

Let namespaces : Type :=
  list (string * Cls.Namespace (RequestContext.t Request Response number)).

(** X22.  [currentRequestContext] answers [undefined], which is not in
    its declared type, exactly when the namespace has an active context
    that holds no record under [RequestContext.name]; [currentRequest]
    and [currentUser] answer [null] there, and neither of the two ever
    answers [undefined]. *)
Theorem currentRequestContext_undefined (n : namespaces) :
  (currentRequestContext Request Response number nsid n = Js.Undefined
   <-> exists session context,
         Cls.getNamespace nsid n = Some session
         /\ Cls.active session = Some context
         /\ Cls.assoc name context = None)
  /\ (currentRequestContext Request Response number nsid n = Js.Undefined ->
      currentRequest Request Response number nsid n = Js.Null
      /\ currentUser Request Response number request_user nsid n = Js.Null)
  /\ currentRequest Request Response number nsid n <> Js.Undefined
  /\ currentUser Request Response number request_user nsid n <> Js.Undefined.
Proof.
  unfold currentUser, currentRequest, currentRequestContext, Cls.get.
  destruct (Cls.getNamespace nsid n) as [session|] eqn:Hsession.
  - destruct (Cls.active session) as [context|] eqn:Hactive.
    + destruct (Cls.assoc name context) as [record|] eqn:Hrecord.
      * split; [split; [discriminate|]|].
        -- intros (s & c & Hs & Hc & Hnone). congruence.
        -- split; [discriminate|]. split; [discriminate|].
           destruct (request_user (request _ _ _ record)); discriminate.
      * split; [split; [|reflexivity]|].
        -- intros _. exists session, context. auto.
        -- repeat split; discriminate.
    + split; [split; [discriminate|]|].
      * intros (s & c & Hs & Hc & _). congruence.
      * repeat split; discriminate.
  - split; [split; [discriminate|]|].
    + intros (s & c & Hs & _). discriminate.
    + repeat split; discriminate.
Qed.

End UnsetFacts.

(** A chain whose context has been entered and not yet filled. *)
Lemma currentRequestContext_undefined_witness :
  RequestContext.currentRequestContext _ _ _ Scenario.nsid Samples.unset
  = Js.Undefined
  /\ RequestContext.currentUser _ _ _ (fun r => r) Scenario.nsid Samples.unset
     = Js.Null.
Proof.
  destruct (currentRequestContext_undefined (option UserEntity.t) unit Z
              (fun r => r) Scenario.nsid Samples.unset)
    as ((_ & Hunset) & Hnull & _).
  assert (Hundefined :
    RequestContext.currentRequestContext _ _ _ Scenario.nsid Samples.unset
    = Js.Undefined).
  { apply Hunset. eexists. eexists. repeat split. }
  split; [exact Hundefined|exact (proj2 (Hnull Hundefined))].
Defined.

(** ** What the toggle and the removal leave alone *)

Section FrameFacts.

Import Nest UserService.

(** X23.  Run one call after the other on a consistent store,
    [followAction] never reaches its database error: it resolves, or it
    rejects with [NotFoundException] and has written nothing. *)
Theorem followAction_sequential (db : Store.t) (userId userToFollowId : Z) :
  Store.consistent db = true ->
  (exists answer, outcome (followAction userId userToFollowId db) = inr answer)
  \/ (exists reason,
        followAction userId userToFollowId db
        = (inl (NotFoundException reason), db)).
Proof.
  intros Hc.
  destruct (Store.resolves userId db) eqn:Hu.
  - destruct (Store.resolves userToFollowId db) eqn:Ht.
    + left.
      destruct (followAction_rows db userId userToFollowId Hc Hu Ht)
        as (_ & [(_ & Hout & _)|(_ & Hout & _)]); eauto.
    + right. eexists.
      exact (followAction_unresolved_target db userToFollowId userId Hu Ht).
  - right. eexists.
    exact (followAction_unresolved_actor db userId userToFollowId Hu).
Qed.

(** X24.  What [delete] overwrites and what it keeps: in a consistent
    store the row under the id stays where it is, gets the tombstone, the
    sentinel as username and email and the blank-picture path as display
    name, and keeps its id, password hash, bio and profile image; every
    other row and the follower table are as before. *)
Theorem delete_keeps (db : Store.t) (now id : Z) (u : UserEntity.t) :
  Store.consistent db = true ->
  In u (Store.userRows db) ->
  UserEntity.id u = Some id ->
  exists gone l1 l2,
    Store.userRows db = l1 ++ u :: l2
    /\ Store.userRows (store (delete now id db)) = l1 ++ gone :: l2
    /\ followers (store (delete now id db)) = followers db
    /\ UserEntity.id gone = UserEntity.id u
    /\ UserEntity.password gone = UserEntity.password u
    /\ UserEntity.bio gone = UserEntity.bio u
    /\ UserEntity.profileImage gone = UserEntity.profileImage u
    /\ UserEntity.deletedAt gone = Some now
    /\ UserEntity.username gone = Sentinel.deleted
    /\ UserEntity.email gone = Sentinel.deleted
    /\ UserEntity.displayName gone
       = Some "pictures/blank-profile-picture-S4P3RS3CR3T".
Proof.
  intros Hc Hin Hid.
  destruct (resolved_split db id u Hc Hin Hid) as (l1 & l2 & Hrows & Hrest).
  rewrite (delete_tombstones db now id u l1 l2 Hrows Hid Hrest).
  eexists. exists l1, l2. split; [exact Hrows|].
  unfold store, Store.userRows. cbn. split; [reflexivity|].
  cbn. repeat split; auto.
Qed.

End FrameFacts.

(** On the sample store the toggle of bob and alice resolves. *)
Lemma followAction_sequential_witness :
  exists answer,
    Nest.outcome (UserService.followAction 2 1 Scenario.following21) = inr answer.
Proof.
  destruct (followAction_sequential Scenario.following21 2 1 eq_refl)
    as [Hanswer|(reason & Hreject)].
  - exact Hanswer.
  - discriminate Hreject.
Defined.

(** Alice's row after her removal keeps her image and her password hash. *)
Lemma delete_keeps_witness :
  exists gone,
    Store.userRows (Nest.store (UserService.delete 9 1 Scenario.twoUsers))
    = [gone; Scenario.bob]
    /\ UserEntity.profileImage gone = Some "pictures/user/alice.png"
    /\ UserEntity.password gone = "$argon2$p1".
Proof.
  destruct (delete_keeps Scenario.twoUsers 9 1 Scenario.alice eq_refl
              (or_introl eq_refl) eq_refl)
    as (gone & l1 & l2 & Hold & Hnew & _ & _ & Hpass & _ & Himage & _).
  destruct l1 as [|x l1]; cbn in Hold.
  - injection Hold as <-. exists gone. split; [exact Hnew|].
    split; [exact Himage|exact Hpass].
  - injection Hold as <- Hold. exfalso.
    destruct l1 as [|y l1]; cbn in Hold; [discriminate|].
    injection Hold as _ Hold. destruct l1; discriminate.
Defined.
